(** * PolicyCraft AI: the wellbeing transform, the two scenario simulators,
      the diagnostic narrative and the page layout, embedded from the Python
      sources.

    Numbers.  The Python code works on IEEE doubles held in pandas Series.
    They are embedded as exact rationals ([Q]); the one non-number a Series
    holds, NaN (pandas' missing value), is [None].  Equality of numbers is
    [Qeq] ([==]).  Arithmetic on cells propagates NaN the way IEEE does.
    Rationals neither round nor overflow: the mean of equal values is that
    value, and a rounding to one decimal sees an exact tie as a tie, where a
    double can be off by its last bit.  The examples use values on which the
    two agree, and what is stated of a score in general does not depend on
    the digit that a tie rounds to. *)

From Stdlib Require Import String ZArith QArith Qround Qabs Qminmax Lqa Lia Bool List.
From Stdlib Require Import Sorting.Permutation Sorting.Sorted.
Import ListNotations.
Open Scope Q_scope.

(* ================================================================== *)
(** ** Cells and Series *)
(* ================================================================== *)

Module Num.

(** A Series cell: a number or NaN. *)
Definition float := option Q.

Definition lift2 (f : Q -> Q -> Q) (a b : float) : float :=
  match a, b with
  | Some x, Some y => Some (f x y)
  | _, _ => None
  end.

Definition fadd := lift2 Qplus.
Definition fsub := lift2 Qminus.
Definition fmul := lift2 Qmult.
Definition fdiv := lift2 Qdiv.

(** [a > b] on cells: any comparison with NaN is False. *)
Definition fgt (a b : float) : bool :=
  match a, b with
  | Some x, Some y => if Qlt_le_dec y x then true else false
  | _, _ => false
  end.

Definition isna (a : float) : bool :=
  match a with None => true | Some _ => false end.

(** The cell is a number within [lo, hi]. *)
Definition within (lo hi : Q) (a : float) : Prop :=
  match a with
  | Some x => lo <= x /\ x <= hi
  | None => False
  end.

(** The cell is the number [v]. *)
Definition is_num (v : Q) (a : float) : Prop :=
  match a with
  | Some x => x == v
  | None => False
  end.

(** numpy's [rint]: round to the nearest integer, ties to even. *)
Definition rint (x : Q) : Z :=
  let n := Qfloor x in
  match Qcompare (x - inject_Z n) (1 # 2) with
  | Lt => n
  | Gt => (n + 1)%Z
  | Eq => if Z.even n then n else (n + 1)%Z
  end.

(** [round(1)] of numpy/pandas: [rint(x * 10) / 10]. *)
Definition round1 (x : Q) : Q := inject_Z (rint (x * 10)) / 10.

Definition fround1 (a : float) : float := option_map round1 a.

(** The non-missing values of a Series, in order. *)
Fixpoint valid (s : list float) : list Q :=
  match s with
  | [] => []
  | Some x :: t => x :: valid t
  | None :: t => valid t
  end.

Definition Qsum (xs : list Q) : Q := fold_right Qplus 0 xs.

Definition Qlen (xs : list Q) : Q := inject_Z (Z.of_nat (length xs)).

(** [Series.mean()]: mean of the non-missing values, NaN when there is none. *)
Definition mean (s : list float) : float :=
  match valid s with
  | [] => None
  | xs => Some (Qsum xs / Qlen xs)
  end.

Definition Qmin_list (x : Q) (xs : list Q) : Q :=
  fold_left (fun m y => if Qlt_le_dec y m then y else m) xs x.

Definition Qmax_list (x : Q) (xs : list Q) : Q :=
  fold_left (fun m y => if Qlt_le_dec m y then y else m) xs x.

(** [Series.min()] and [Series.max()]: NaN is skipped, NaN when all is NaN. *)
Definition smin (s : list float) : float :=
  match valid s with
  | [] => None
  | x :: xs => Some (Qmin_list x xs)
  end.

Definition smax (s : list float) : float :=
  match valid s with
  | [] => None
  | x :: xs => Some (Qmax_list x xs)
  end.

Definition count_lt (xs : list Q) (x : Q) : nat :=
  length (filter (fun y => match Qcompare y x with Lt => true | _ => false end) xs).

Definition count_eq (xs : list Q) (x : Q) : nat :=
  length (filter (fun y => match Qcompare y x with Eq => true | _ => false end) xs).

(** pandas' default rank ([method='average']): the mean of the 1-based
    positions that the values equal to [x] occupy in sorted order. *)
Definition rank_avg (xs : list Q) (x : Q) : Q :=
  inject_Z (Z.of_nat (count_lt xs x))
  + (inject_Z (Z.of_nat (count_eq xs x)) + 1) / 2.

(** [Series.rank(pct=True)]: average rank over the number of non-missing
    values; a missing cell keeps NaN. *)
Definition rank_pct (s : list float) : list float :=
  let xs := valid s in
  map (fun c => match c with
                | Some x => Some (rank_avg xs x / Qlen xs)
                | None => None
                end) s.

(** [Series.fillna(v)]. *)
Definition fillna (v : float) (s : list float) : list float :=
  map (fun c => match c with None => v | Some _ => c end) s.

End Num.

(* ================================================================== *)
(** ** oecd_transform.py: steps 5 to 7 on the pivoted table *)
(* ================================================================== *)

Module Transform.
Import Num.

(** The ten short names of [key_measures]. *)
Inductive Dim : Set :=
  | life_satisfaction | health | income | education | jobs
  | work_life_balance | safety | environment | social_connections | housing.

Scheme Equality for Dim.

(** [key_measures]: measure name, (short name, should_invert, description). *)
Definition key_measures : list (string * (Dim * bool * string)) :=
  [ ("Life satisfaction", (life_satisfaction, false, "Overall life satisfaction score"));
    ("Life expectancy at birth", (health, false, "Years of life expectancy"));
    ("Households and NPISHs net adjusted disposable income per capita",
       (income, false, "Household income"));
    ("Adult literacy skills", (education, false, "Adult literacy proficiency"));
    ("Employment rate", (jobs, false, "Employment rate"));
    ("Long hours in paid work", (work_life_balance, true, "Working very long hours"));
    ("Homicides", (safety, true, "Homicide rate per 100k"));
    ("Access to green space", (environment, false, "Urban green space access"));
    ("Social support", (social_connections, false, "Having social support"));
    ("Housing affordability", (housing, true, "Housing cost burden")) ]%string.

(** [df_wide]: the identifying columns and the dimension columns, the latter
    listed in the order of [dimension_cols]; every column holds one cell per
    row. *)
Record DataFrame : Type := {
  country : list string;
  country_code : list string;
  columns : list (Dim * list float)
}.

Definition dimension_cols (df : DataFrame) : list Dim := map fst (columns df).

Definition nrows (df : DataFrame) : nat := List.length (country df).

(** Row [i] of [df_wide[dimension_cols]]. *)
Definition row_cells (df : DataFrame) (i : nat) : list float :=
  map (fun dc => nth i (snd dc) None) (columns df).

Definition rows (df : DataFrame) : list (list float) :=
  map (row_cells df) (seq 0 (nrows df)).

Definition count_na (s : list float) : nat := List.length (filter isna s).

(** [(df_wide[dimension_cols].isna().sum(axis=1) / len(dimension_cols)) * 100];
    with no dimension column the quotient is 0/0. *)
Definition missing_pct_by_country (df : DataFrame) : list float :=
  let n := List.length (dimension_cols df) in
  map (fun r =>
         if Nat.eqb n 0 then None
         else Some (inject_Z (Z.of_nat (count_na r)) / inject_Z (Z.of_nat n) * 100))
      (rows df).

(** Boolean-mask row selection, [s[mask]]. *)
Definition select {A : Type} (mask : list bool) (l : list A) : list A :=
  map fst (filter snd (combine l mask)).

Definition select_rows (mask : list bool) (df : DataFrame) : DataFrame :=
  {| country := select mask (country df);
     country_code := select mask (country_code df);
     columns := map (fun dc => (fst dc, select mask (snd dc))) (columns df) |}.

(** [a <= b] on cells, False on NaN. *)
Definition fle (a b : float) : bool :=
  match a, b with
  | Some x, Some y => if Qlt_le_dec y x then false else true
  | _, _ => false
  end.

(** Step 5, first half: remove the countries with more than 50% missing. *)
Definition drop_sparse (df : DataFrame) : DataFrame :=
  let pct := missing_pct_by_country df in
  let countries_to_remove := select (map (fun p => fgt p (Some 50)) pct) (country df) in
  match countries_to_remove with
  | [] => df
  | _ => select_rows (map (fun p => fle p (Some 50)) pct) df
  end.

(** Step 5, second half: a column with a missing cell is filled with its
    mean.  The script writes [df_wide[col].fillna(avg_val, inplace=True)],
    which fills the table as pandas before version 3 runs it. *)
Definition fill_column (s : list float) : list float :=
  if existsb isna s then fillna (mean s) s else s.

Definition fill_missing (df : DataFrame) : DataFrame :=
  {| country := country df;
     country_code := country_code df;
     columns := map (fun dc => (fst dc, fill_column (snd dc))) (columns df) |}.

Definition measure_info (col : Dim) : list (string * (Dim * bool * string)) :=
  filter (fun kv => Dim_beq (fst (fst (snd kv))) col) key_measures.

(** The flag that the loop reads for [col], [measure_info[0][1][1]]. *)
Definition should_invert (col : Dim) : bool :=
  match measure_info col with
  | (_, (_, flag, _)) :: _ => flag
  | [] => false
  end.

(** [(1 - s.rank(pct=True)) * 100]. *)
Definition invert_scale (s : list float) : list float :=
  map (fun p => fmul (fsub (Some 1) p) (Some 100)) (rank_pct s).

(** Min-max scaling with its guard for [max_val > min_val]. *)
Definition minmax_scale (s : list float) : list float :=
  let min_val := smin s in
  let max_val := smax s in
  if fgt max_val min_val
  then map (fun c => fmul (fdiv (fsub c min_val) (fsub max_val min_val)) (Some 100)) s
  else map (fun _ => Some 50) s.

(** One turn of the normalisation loop of step 6. *)
Definition normalize_column (col : Dim) (s : list float) : list float :=
  match measure_info col with
  | [] => s
  | (_, (_, should_invert, _)) :: _ =>
      if should_invert then invert_scale s else minmax_scale s
  end.

Definition normalize (df : DataFrame) : DataFrame :=
  {| country := country df;
     country_code := country_code df;
     columns := map (fun dc => (fst dc, normalize_column (fst dc) (snd dc))) (columns df) |}.

Definition round_columns (df : DataFrame) : DataFrame :=
  {| country := country df;
     country_code := country_code df;
     columns := map (fun dc => (fst dc, map fround1 (snd dc))) (columns df) |}.

(** Step 7: [df_wide[dimension_cols].mean(axis=1).round(1)]. *)
Definition composite_of (df : DataFrame) : list float :=
  map (fun r => fround1 (mean r)) (rows df).

(** The table after step 7.  Steps 8 and 9 add the gap columns and reorder the
    rows; they leave the dimension cells and the composite of a row as they
    are. *)
Record Output : Type := {
  table : DataFrame;
  composite_index : list float
}.

Definition transform (df_wide : DataFrame) : Output :=
  let df := round_columns (normalize (fill_missing (drop_sparse df_wide))) in
  {| table := df; composite_index := composite_of df |}.

(** From version 3 on pandas works copy-on-write: [df_wide[col]] is a new
    Series, the fill in place changes that Series only, and the table keeps
    its missing cells.  The transform as it then runs. *)
Definition transform_without_fill (df_wide : DataFrame) : Output :=
  let df := round_columns (normalize (drop_sparse df_wide)) in
  {| table := df; composite_index := composite_of df |}.

(** What the fill of step 5, step 6 and the rounding make of one column of
    the surviving countries. *)
Definition finish_column (d : Dim) (s : list float) : list float :=
  map fround1 (normalize_column d (fill_column s)).

(** The cell is a number of [0, 100]. *)
Definition in_range (c : float) : Prop := within 0 100 c.

(** The cell of dimension [d] for [c], when [c] is a row and [d] a column. *)
Fixpoint index_of (c : string) (l : list string) : option nat :=
  match l with
  | [] => None
  | x :: t => if String.eqb x c then Some O
              else option_map S (index_of c t)
  end.

Fixpoint column_of (d : Dim) (cols : list (Dim * list float)) : option (list float) :=
  match cols with
  | [] => None
  | (d', s) :: t => if Dim_beq d' d then Some s else column_of d t
  end.

Definition value_of (df : DataFrame) (c : string) (d : Dim) : option float :=
  match index_of c (country df), column_of d (columns df) with
  | Some i, Some s => nth_error s i
  | _, _ => None
  end.

Definition composite_for (o : Output) (c : string) : option float :=
  match index_of c (country (table o)) with
  | Some i => nth_error (composite_index o) i
  | None => None
  end.

End Transform.

(* ================================================================== *)
(** ** What the three dashboard features share *)
(* ================================================================== *)

Module Dash.
Import Num.

(** A Python value received from a control: [None], a number or a string. *)
Inductive Value : Type :=
  | VNone
  | VNum (q : Q)
  | VStr (s : string).

(** An exception object: its class and its message ([str(e)]). *)
Inductive Exn : Type :=
  | Exception (class : string) (msg : string).

Definition str_of_exn (e : Exn) : string :=
  match e with Exception _ msg => msg end.

(** A computation that returns or raises. *)
Inductive Result (A : Type) : Type :=
  | Ok (a : A)
  | Raise (e : Exn).
Arguments Ok {A} a.
Arguments Raise {A} e.

Definition bind {A B : Type} (m : Result A) (f : A -> Result B) : Result B :=
  match m with
  | Ok a => f a
  | Raise e => Raise e
  end.

Notation "x <- m ;; k" := (bind m (fun x => k))
  (at level 61, m at next level, right associativity).

(** [KeyError(k)] for a string key: [str(e)] is the key in quotes. *)
Definition KeyError (k : string) : Exn := Exception "KeyError" ("'" ++ k ++ "'").
Definition TypeError (m : string) : Exn := Exception "TypeError" m.
Definition IndexError (m : string) : Exn := Exception "IndexError" m.

(** A column of the loaded table: numbers, or text.  The cells of a numeric
    column are numbers; a persisted table with empty cells is not covered. *)
Inductive Column : Type :=
  | NumCol (l : list Q)
  | TextCol (l : list string).

Record DataFrame : Type := {
  height : nat;                          (* [len(df)] *)
  cols : list (string * Column)
}.

Fixpoint lookup (k : string) (l : list (string * Column)) : option Column :=
  match l with
  | [] => None
  | (k', c) :: t => if String.eqb k' k then Some c else lookup k t
  end.

(** [df[k]] for a string key. *)
Definition getitem (df : DataFrame) (k : string) : Result Column :=
  match lookup k (cols df) with
  | Some c => Ok c
  | None => Raise (KeyError k)
  end.

(** [df[k]] for a key that came from a control; the text that a key error
    gives for a number is not spelled out. *)
Definition getitem_value (df : DataFrame) (k : Value) : Result Column :=
  match k with
  | VStr s => getitem df s
  | VNum _ => Raise (Exception "KeyError" "<number>")
  | VNone => Raise (Exception "KeyError" "None")
  end.

Fixpoint assign (k : string) (c : Column) (l : list (string * Column))
  : list (string * Column) :=
  match l with
  | [] => [(k, c)]
  | (k', c') :: t => if String.eqb k' k then (k, c) :: t else (k', c') :: assign k c t
  end.

(** [df[k] = c]: replaces the column, or appends it. *)
Definition setitem (df : DataFrame) (k : string) (c : Column) : DataFrame :=
  {| height := height df; cols := assign k c (cols df) |}.

(** A numeric operand taken from a column; arithmetic on text raises. *)
Definition numeric (c : Column) : Result (list Q) :=
  match c with
  | NumCol l => Ok l
  | TextCol _ => Raise (TypeError "unsupported operand type(s)")
  end.

(** A numeric operand taken from a control value. *)
Definition number (v : Value) : Result Q :=
  match v with
  | VNum q => Ok q
  | _ => Raise (TypeError "unsupported operand type(s)")
  end.

(** Boolean-mask selection. *)
Definition select {A : Type} (mask : list bool) (l : list A) : list A :=
  map fst (filter snd (combine l mask)).

Definition select_column (mask : list bool) (c : Column) : Column :=
  match c with
  | NumCol l => NumCol (select mask l)
  | TextCol l => TextCol (select mask l)
  end.

Definition select_rows (mask : list bool) (df : DataFrame) : DataFrame :=
  {| height := List.length (filter (fun b : bool => b) (firstn (height df) mask));
     cols := map (fun kc => (fst kc, select_column mask (snd kc))) (cols df) |}.

(** [column == v], cell by cell. *)
Definition eq_mask (c : Column) (v : Value) : list bool :=
  match c, v with
  | TextCol l, VStr s => map (fun x => String.eqb x s) l
  | NumCol l, VNum q => map (fun x => Qeq_bool x q) l
  | TextCol l, _ => map (fun _ => false) l
  | NumCol l, _ => map (fun _ => false) l
  end.

(** [column.isin(names)]. *)
Definition isin_mask (c : Column) (names : list string) : list bool :=
  match c with
  | TextCol l => map (fun x => existsb (String.eqb x) names) l
  | NumCol l => map (fun _ => false) l
  end.

(** Formatted text, kept as its pieces: the literal parts of an f-string and
    what is substituted into it. *)
Inductive Frag : Type :=
  | Lit (s : string)
  | Str (v : Value)                 (* [{v}] *)
  | Fix1 (x : float)                (* [{x:.1f}] *)
  | Signed1 (x : float)             (* [{x:+.1f}] *)
  | Title (s : string)              (* [s.replace('_', ' ').title()] *)
  | TitleLower (s : string)         (* the same, then [.lower()] *)
  | Lower (s : string).             (* [s.lower()] *)

Definition Text := list Frag.

(** A coordinate or a label handed to a trace: a float or a text. *)
Inductive Coord : Type :=
  | CNum (x : float)
  | CText (s : string).

Definition Data := list Coord.

Definition data_of (c : Column) : Data :=
  match c with
  | NumCol l => map (fun q => CNum (Some q)) l
  | TextCol l => map CText l
  end.

Definition coord_of (v : Value) : Coord :=
  match v with
  | VNum q => CNum (Some q)
  | VStr s => CText s
  | VNone => CText "None"
  end.

Inductive Kind : Type := Scatter | Bar.

Record Trace : Type := {
  kind : Kind;
  name : Text;
  x : Data;
  y : Data;
  text : Data;
  marker_color : list string
}.

Inductive Annotation : Type :=
  | Note (t : Text)
  | Arrow (x y ax ay : Coord)
  | VLine (x : Q).

Record Figure : Type := {
  data : list Trace;
  annotations : list Annotation;
  xaxis_title : Text;
  yaxis_title : Text
}.

Definition note_figure (t : Text) : Figure :=
  {| data := []; annotations := [Note t]; xaxis_title := []; yaxis_title := [] |}.

(** The placeholder of every [update]. *)
Definition error_figure : Figure :=
  note_figure [Lit "An error occurred while updating this chart"].

(** [dimension.replace('_', ' ').title()]: a method of strings only. *)
Definition title_of (v : Value) : Result Frag :=
  match v with
  | VStr s => Ok (Title s)
  | _ => Raise (Exception "AttributeError" "object has no attribute 'replace'")
  end.

(** [.iloc[i]] of a column. *)
Definition iloc (c : Column) (i : nat) : Result Value :=
  match c with
  | NumCol l =>
      match nth_error l i with
      | Some q => Ok (VNum q)
      | None => Raise (IndexError "single positional indexer is out-of-bounds")
      end
  | TextCol l =>
      match nth_error l i with
      | Some s => Ok (VStr s)
      | None => Raise (IndexError "single positional indexer is out-of-bounds")
      end
  end.

(** [a - b], [a + b] and [a * b] on two Python scalars that must be numbers. *)
Definition vsub (a b : Value) : Result Q :=
  x <- number a ;; y <- number b ;; Ok (x - y).

Definition vadd (a b : Value) : Result Q :=
  x <- number a ;; y <- number b ;; Ok (x + y).

(** [column * m] for a float [m]. *)
Definition col_scale (c : Column) (m : Q) : Result Column :=
  l <- numeric c ;; Ok (NumCol (map (fun v => v * m) l)).

(** [np.minimum(column, m)]. *)
Definition col_minimum (c : Column) (m : Q) : Result Column :=
  l <- numeric c ;; Ok (NumCol (map (fun v => Qmin v m) l)).

Fixpoint map2 (f : Q -> Q -> Q) (a b : list Q) : list Q :=
  match a, b with
  | u :: a', v :: b' => f u v :: map2 f a' b'
  | _, _ => []
  end.

(** [column + column], row by row. *)
Definition col_add (a b : Column) : Result Column :=
  u <- numeric a ;; v <- numeric b ;; Ok (NumCol (map2 Qplus u v)).

Definition value_eqb (a b : Value) : bool :=
  match a, b with
  | VNone, VNone => true
  | VNum p, VNum q => Qeq_bool p q
  | VStr s, VStr t => String.eqb s t
  | _, _ => false
  end.

(** [kwargs.get(key, default)] followed by the [is None] test of every
    feature: a missing key and a [None] both give the default. *)
Definition get_or_default (o : option Value) (default : Value) : Value :=
  match o with
  | None => default
  | Some VNone => default
  | Some v => v
  end.

(** [f"Error updating chart: {str(e)}\n{traceback.format_exc()}"]. *)
Definition error_msg (format_exc : Exn -> string) (e : Exn) : Text :=
  [Lit "Error updating chart: "; Lit (str_of_exn e); Lit "
"; Lit (format_exc e)].

(** What running the body of a function leaves: the texts it printed on the
    standard output, and the value it returned or the exception that goes on
    to its caller. *)
Record Run (A : Type) : Type := {
  stdout : list Text;
  outcome : Result A
}.
Arguments stdout {A} r.
Arguments outcome {A} r.

(** Statements that print nothing. *)
Definition silent {A : Type} (r : Result A) : Run A :=
  {| stdout := []; outcome := r |}.

(** [print(t)], then [return v]. *)
Definition print_and_return {A : Type} (t : Text) (v : A) : Run A :=
  {| stdout := [t]; outcome := Ok v |}.

(** [try: body] with [except Exception as e: handler]: the handler runs when
    the body raises, after what the body printed, and an exception of the
    handler itself is not caught.  [Exn] stands for the instances of
    [Exception]; what the clause does not catch ([KeyboardInterrupt],
    [SystemExit]) is not covered. *)
Definition try_except {A : Type} (body : Run A) (handler : Exn -> Run A) : Run A :=
  match outcome body with
  | Ok _ => body
  | Raise e => {| stdout := stdout body ++ stdout (handler e);
                  outcome := outcome (handler e) |}
  end.

(** The words of the specification for a control: the feature works with
    the default of the control when the control is absent or [None], and
    with the value of the control otherwise. *)
Inductive reads (default : Value) : option Value -> Value -> Prop :=
  | reads_absent : reads default None default
  | reads_none : reads default (Some VNone) default
  | reads_value (v : Value) : v <> VNone -> reads default (Some v) v.

End Dash.

(* ================================================================== *)
(** ** policy.py: the policy simulation scatter (simulation mode a) *)
(* ================================================================== *)

Module Policy.
Import Num Dash.

Definition dimension_default : Value := VStr "environment".

(** The [weights] dictionary of [_update_logic]. *)
Definition weights : list (string * Q) :=
  [ ("environment", 15 # 100); ("education", 15 # 100); ("jobs", 20 # 100);
    ("safety", 10 # 100); ("income", 10 # 100); ("housing", 10 # 100);
    ("health", 10 # 100); ("work_life_balance", 5 # 100);
    ("social_connections", 5 # 100) ]%string.

(** [weights[k]] for the literal keys of the dictionary. *)
Fixpoint weight_in (k : string) (w : list (string * Q)) : Q :=
  match w with
  | [] => 0
  | (k', v) :: t => if String.eqb k' k then v else weight_in k t
  end.

Definition weight (k : string) : Q := weight_in k weights.

(** The nine products of the weighted sum, in the order they are written:
    the column that is read, and the weight it is multiplied by. *)
Definition sum_terms : list (string * string) :=
  [ ("environment_sim", "environment"); ("education_sim", "education");
    ("jobs_sim", "jobs"); ("safety", "safety"); ("income", "income");
    ("housing", "housing"); ("health", "health");
    ("work_life_balance", "work_life_balance");
    ("social_connections", "social_connections") ]%string.

Definition product (df : DataFrame) (t : string * string) : Result Column :=
  c <- getitem df (fst t) ;; col_scale c (weight (snd t)).

(** [p1 + p2 + ... + p9], evaluated from the left. *)
Definition weighted_sum (df : DataFrame) : Result Column :=
  match sum_terms with
  | [] => Ok (NumCol [])
  | t :: rest =>
      fold_left (fun acc t' => a <- acc ;; p <- product df t' ;; col_add a p)
                rest (product df t)
  end.

(** [df_sim[k + '_sim'] = df_sim[k] * (1 + boost / 100)]. *)
Definition apply_boost (df_sim : DataFrame) (k : string) (boost : Value)
  : Result DataFrame :=
  c <- getitem df_sim k ;;
  b <- number boost ;;
  s <- col_scale c (1 + b / 100) ;;
  Ok (setitem df_sim (k ++ "_sim") s).

(** [df_sim[k] = np.minimum(df_sim[k], 100)]. *)
Definition cap (df_sim : DataFrame) (k : string) : Result DataFrame :=
  c <- getitem df_sim k ;;
  m <- col_minimum c 100 ;;
  Ok (setitem df_sim k m).

(** Lines 215 to 260: the simulated table. *)
Definition simulate (df : DataFrame) (dimension environment_boost education_boost
                                      jobs_boost : Value) : Result DataFrame :=
  let df_sim := df in
  df_sim <- apply_boost df_sim "environment" environment_boost ;;
  df_sim <- apply_boost df_sim "education" education_boost ;;
  df_sim <- apply_boost df_sim "jobs" jobs_boost ;;
  df_sim <- cap df_sim "environment_sim" ;;
  df_sim <- cap df_sim "education_sim" ;;
  df_sim <- cap df_sim "jobs_sim" ;;
  ls <- weighted_sum df_sim ;;
  let df_sim := setitem df_sim "life_satisfaction_sim" ls in
  d <- (if value_eqb dimension (VStr "environment") then getitem df_sim "environment_sim"
        else if value_eqb dimension (VStr "education") then getitem df_sim "education_sim"
        else if value_eqb dimension (VStr "jobs") then getitem df_sim "jobs_sim"
        else getitem_value df_sim dimension) ;;
  Ok (setitem df_sim "dimension_sim" d).

(** [v > 0] for a boost, which is a number once [simulate] has returned. *)
Definition positive (v : Value) : bool :=
  match v with
  | VNum q => if Qlt_le_dec 0 q then true else false
  | _ => false
  end.

(** [abs(a - b) > 0.1] on two cells, compared as exact numbers. *)
Definition moved (a b : Value) : Result bool :=
  d <- vsub a b ;;
  Ok (if Qlt_le_dec (1 # 10) (Qabs d) then true else false).

(** [df_sim.iloc[i][k]]. *)
Definition at_row (df : DataFrame) (i : nat) (k : string) : Result Value :=
  c <- getitem df k ;; iloc c i.

Definition at_row_value (df : DataFrame) (i : nat) (k : Value) : Result Value :=
  c <- getitem_value df k ;; iloc c i.

(** One turn of the arrow loop, for row [i]; the second test of the [or] is
    evaluated only when the first one is false. *)
Definition arrow_for (df df_sim : DataFrame) (dimension : Value) (i : nat)
  : Result (list Annotation) :=
  xs <- at_row df_sim i "dimension_sim" ;;
  x0 <- at_row_value df i dimension ;;
  m <- moved xs x0 ;;
  go <- (if m : bool then Ok true
         else ys <- at_row df_sim i "life_satisfaction_sim" ;;
              y0 <- at_row df i "life_satisfaction" ;;
              moved ys y0) ;;
  if go : bool then
    xs <- at_row df_sim i "dimension_sim" ;;
    ys <- at_row df_sim i "life_satisfaction_sim" ;;
    x0 <- at_row_value df i dimension ;;
    y0 <- at_row df i "life_satisfaction" ;;
    Ok [Arrow (coord_of xs) (coord_of ys) (coord_of x0) (coord_of y0)]
  else Ok [].

Fixpoint arrows (df df_sim : DataFrame) (dimension : Value) (rows : list nat)
  : Result (list Annotation) :=
  match rows with
  | [] => Ok []
  | i :: rest =>
      a <- arrow_for df df_sim dimension i ;;
      r <- arrows df df_sim dimension rest ;;
      Ok (a ++ r)
  end.

Definition no_data_figure : Figure := note_figure [Lit "No data available"].

(** The values offered by the dimension dropdown. *)
Definition dimension_options : list string :=
  [ "environment"; "education"; "jobs"; "safety"; "income"; "housing"; "health";
    "work_life_balance"; "social_connections" ]%string.

(** The nine dimension columns of a base table. *)
Record Dimensions : Type := {
  environment : list Q;
  education : list Q;
  jobs : list Q;
  safety : list Q;
  income : list Q;
  housing : list Q;
  health : list Q;
  work_life_balance : list Q;
  social_connections : list Q
}.

(** [df] has these nine numeric columns, with one cell per row. *)
Definition holds (df : DataFrame) (b : Dimensions) : Prop :=
  getitem df "environment" = Ok (NumCol (environment b)) /\
  getitem df "education" = Ok (NumCol (education b)) /\
  getitem df "jobs" = Ok (NumCol (jobs b)) /\
  getitem df "safety" = Ok (NumCol (safety b)) /\
  getitem df "income" = Ok (NumCol (income b)) /\
  getitem df "housing" = Ok (NumCol (housing b)) /\
  getitem df "health" = Ok (NumCol (health b)) /\
  getitem df "work_life_balance" = Ok (NumCol (work_life_balance b)) /\
  getitem df "social_connections" = Ok (NumCol (social_connections b)) /\
  Forall (fun l : list Q => List.length l = height df)
    [ environment b; education b; jobs b; safety b; income b; housing b;
      health b; work_life_balance b; social_connections b ].

(** The words of the specification for mode (a): the boosted value of a
    dimension, and the life-satisfaction proxy of a row. *)
Definition spec_boosted (raw boost : Q) : Q := Qmin 100 (raw * (1 + boost / 100)).

Definition spec_proxy (environment education jobs safety income housing health
                       work_life_balance social_connections : Q) : Q :=
  (15 # 100) * environment + (15 # 100) * education + (20 # 100) * jobs
  + (10 # 100) * safety + (10 # 100) * income + (10 # 100) * housing
  + (10 # 100) * health + (5 # 100) * work_life_balance
  + (5 # 100) * social_connections.

(** The column that the two steps of a boost (the product, then the cap)
    make of a base column. *)
Definition boosted (l : list Q) (boost : Q) : list Q :=
  map (fun v => Qmin v 100) (map (fun v => v * (1 + boost / 100)) l).

(** The nine products and their sum, on the columns of a simulated table. *)
Definition sum_of (e d j sa inc ho he w so : list Q) : list Q :=
  map2 Qplus (map2 Qplus (map2 Qplus (map2 Qplus (map2 Qplus (map2 Qplus (map2 Qplus (map2 Qplus
    (map (fun v => v * weight "environment") e)
    (map (fun v => v * weight "education") d))
    (map (fun v => v * weight "jobs") j))
    (map (fun v => v * weight "safety") sa))
    (map (fun v => v * weight "income") inc))
    (map (fun v => v * weight "housing") ho))
    (map (fun v => v * weight "health") he))
    (map (fun v => v * weight "work_life_balance") w))
    (map (fun v => v * weight "social_connections") so).

(** The cell of row [i] in a numeric column that [df] has. *)
Definition cell (df : DataFrame) (k : string) (i : nat) : option Q :=
  match lookup k (cols df) with
  | Some (NumCol l) => nth_error l i
  | _ => None
  end.

(** Lines 213 to 322 of [_update_logic]: what it does with the filtered
    table once the four controls have their values. *)
Definition chart (df : DataFrame) (dimension environment_boost education_boost
                                   jobs_boost : Value) : Result Figure :=
  df_sim <- simulate df dimension environment_boost education_boost jobs_boost ;;
  x <- getitem_value df dimension ;;
  y <- getitem df "life_satisfaction" ;;
  t <- getitem df "country" ;;
  title <- title_of dimension ;;
  let current :=
    {| kind := Scatter; name := [Lit "Current Position"];
       x := data_of x; y := data_of y; text := data_of t; marker_color := [] |} in
  if positive environment_boost || positive education_boost || positive jobs_boost
  then
    xs <- getitem df_sim "dimension_sim" ;;
    ys <- getitem df_sim "life_satisfaction_sim" ;;
    ts <- getitem df_sim "country" ;;
    let simulated :=
      {| kind := Scatter; name := [Lit "Simulated Position"];
         x := data_of xs; y := data_of ys; text := data_of ts; marker_color := [] |} in
    ar <- arrows df df_sim dimension (seq 0 (height df)) ;;
    Ok {| data := [current; simulated]; annotations := ar;
          xaxis_title := [title]; yaxis_title := [Lit "Life Satisfaction"] |}
  else
    Ok {| data := [current]; annotations := [];
          xaxis_title := [title]; yaxis_title := [Lit "Life Satisfaction"] |}.

Section Feature.

(** The filter inputs of the callback, and the two helpers of the project
    that are imported by the feature. *)
Variable Filters : Type.
Variable get_data : Result DataFrame.
(** Modelled from the spec: [components.filter_component.filter_data], which
    returns the rows that satisfy the named filter predicates and reads
    nothing else of the keyword arguments. *)
Variable filter_data : DataFrame -> Filters -> Result DataFrame.
Variable format_exc : Exn -> string.

(** The keyword arguments of the callback: a control may be absent. *)
Record Kwargs : Type := {
  dimension_control : option Value;
  environment_slider : option Value;
  education_slider : option Value;
  jobs_slider : option Value;
  filters : Filters
}.

Definition _update_logic (kwargs : Kwargs) : Result Figure :=
  data <- get_data ;;
  df <- filter_data data (filters kwargs) ;;
  if Nat.eqb (height df) 0 then Ok no_data_figure
  else
    let dimension := get_or_default (dimension_control kwargs) dimension_default in
    let environment_boost := get_or_default (environment_slider kwargs) (VNum 0) in
    let education_boost := get_or_default (education_slider kwargs) (VNum 0) in
    let jobs_boost := get_or_default (jobs_slider kwargs) (VNum 0) in
    chart df dimension environment_boost education_boost jobs_boost.

Definition update (kwargs : Kwargs) : Figure * Text :=
  match _update_logic kwargs with
  | Ok figure => (figure, [])
  | Raise e => (error_figure, error_msg format_exc e)
  end.

(** [update] statement by statement: the placeholder is built first, the core
    logic runs inside the [try], and the handler formats the error text,
    prints it and returns it with the placeholder. *)
Definition update_run (kwargs : Kwargs) : Run (Figure * Text) :=
  let empty_fig := error_figure in
  try_except
    (silent (figure <- _update_logic kwargs ;; Ok (figure, [])))
    (fun e => let msg := error_msg format_exc e in
              print_and_return msg (empty_fig, msg)).

End Feature.

End Policy.

(* ================================================================== *)
(** ** simulator.py: the simulation insight (simulation mode b) *)
(* ================================================================== *)

Module Simulator.
Import Num Dash.

Definition country_default : Value := VStr "United States".
Definition dimension_default : Value := VStr "environment".
Definition improvement_default : Value := VNum 10.

Definition top_countries : list string := ["Finland"; "Denmark"]%string.

(** What [_update_logic] returns besides the figure: the text of a narrative,
    paragraph by paragraph. *)
Definition Narrative := list Text.

(** [improvement * correlation * 0.3]. *)
Definition estimate (improvement : Value) (correlation : float) : Result float :=
  i <- number improvement ;;
  Ok (fmul (fmul (Some i) correlation) (Some (3 # 10))).

(** [current_life_sat + estimated_life_sat_increase]. *)
Definition add_estimate (current : Value) (increase : float) : Result float :=
  c <- number current ;; Ok (fadd (Some c) increase).

(** A trace of one point; the marker of the point (its colour, its size and
    its symbol) is left out. *)
Definition point (name : Text) (x y : Coord) : Trace :=
  {| kind := Scatter; name := name; x := [x]; y := [y]; text := [];
     marker_color := [] |}.

Section Feature.

Variable Filters : Type.
Variable get_data : Result DataFrame.
(** Modelled from the spec: [components.filter_component.filter_data], which
    returns the rows that satisfy the named filter predicates and reads
    nothing else of the keyword arguments. *)
Variable filter_data : DataFrame -> Filters -> Result DataFrame.
Variable format_exc : Exn -> string.
(** pandas' [Series.corr] with its default method, the Pearson correlation
    of two numeric columns; NaN when it is undefined. *)
Variable pearson : list Q -> list Q -> float.

Record Kwargs : Type := {
  country_control : option Value;
  dimension_control : option Value;
  improvement_control : option Value;
  filters : Filters
}.

(** [a.corr(b)]: the columns are converted to floats first. *)
Definition corr (a b : Column) : Result float :=
  match a, b with
  | NumCol u, NumCol v => Ok (pearson u v)
  | _, _ => Raise (Exception "ValueError" "could not convert string to float")
  end.

(** The values of the simulation: lines 202 to 210. *)
Record Simulation : Type := {
  current_life_sat : Value;
  current_dimension_val : Value;
  estimated_life_sat_increase : float;
  new_life_sat : float;
  new_dimension_val : Q
}.

Definition simulate (df country_data : DataFrame) (dimension improvement : Value)
  : Result Simulation :=
  ls_c <- getitem country_data "life_satisfaction" ;;
  current_life_sat <- iloc ls_c 0 ;;
  d_c <- getitem_value country_data dimension ;;
  current_dimension_val <- iloc d_c 0 ;;
  a <- getitem df "life_satisfaction" ;;
  b <- getitem_value df dimension ;;
  correlation <- corr a b ;;
  estimated <- estimate improvement correlation ;;
  new_life_sat <- add_estimate current_life_sat estimated ;;
  new_dimension_val <- vadd current_dimension_val improvement ;;
  Ok {| current_life_sat := current_life_sat;
        current_dimension_val := current_dimension_val;
        estimated_life_sat_increase := estimated;
        new_life_sat := new_life_sat;
        new_dimension_val := new_dimension_val |}.

(** The comparison sentence on Finland and Denmark, empty unless both are in
    the table. *)
Definition top_performer_text (df : DataFrame) (dimension : Value) (title : string)
  : Result Text :=
  c <- getitem df "country" ;;
  let finland_data := select_rows (eq_mask c (VStr "Finland")) df in
  let denmark_data := select_rows (eq_mask c (VStr "Denmark")) df in
  if negb (Nat.eqb (height finland_data) 0) && negb (Nat.eqb (height denmark_data) 0)
  then
    fc <- getitem_value finland_data dimension ;; finland_val <- iloc fc 0 ;;
    dc <- getitem_value denmark_data dimension ;; denmark_val <- iloc dc 0 ;;
    fl <- getitem finland_data "life_satisfaction" ;; finland_life_sat <- iloc fl 0 ;;
    dl <- getitem denmark_data "life_satisfaction" ;; denmark_life_sat <- iloc dl 0 ;;
    fv <- number finland_val ;; fs <- number finland_life_sat ;;
    dv <- number denmark_val ;; ds <- number denmark_life_sat ;;
    Ok [Lit "Finland scores "; Fix1 (Some fv); Lit " in "; Title title;
        Lit " with "; Fix1 (Some fs);
        Lit " life satisfaction, while Denmark achieves "; Fix1 (Some dv);
        Lit " and "; Fix1 (Some ds); Lit " respectively."]
  else Ok [].

Definition narrative_of (country : Value) (title : string) (improvement : Value)
  (s : Simulation) (top_text : Text) : Result Narrative :=
  cd <- number (current_dimension_val s) ;;
  cl <- number (current_life_sat s) ;;
  Ok [ [Lit "🤖 AI Simulation Insight"];
       [Lit "📈 Increasing "; Str country; Lit "'s "; Title title; Lit " score by ";
        Str improvement; Lit " points (from "; Fix1 (Some cd); Lit " to ";
        Fix1 (Some (new_dimension_val s)); Lit ") ";
        Lit "could potentially raise life satisfaction by approximately ";
        Fix1 (estimated_life_sat_increase s); Lit " points ";
        Lit "(from "; Fix1 (Some cl); Lit " to "; Fix1 (new_life_sat s);
        Lit "). This improvement would represent a meaningful enhancement ";
        Lit "in national wellbeing, demonstrating how targeted policy interventions in ";
        TitleLower title; Lit " can create ";
        Lit "measurable gains in citizen satisfaction and quality of life."];
       ([Lit "🌍 Comparing "; Str country;
         Lit "'s simulated position to top-performing nations reveals important lessons. "]
        ++ match top_text with
           | [] => [Lit "Leading countries like Finland and Denmark consistently demonstrate that excellence in ";
                    TitleLower title;
                    Lit " correlates with higher life satisfaction scores. "]
           | _ => top_text
           end
        ++ [Lit "Their success shows that sustained investment in "; TitleLower title;
            Lit " infrastructure, policies, and programs ";
            Lit "can yield substantial returns in citizen wellbeing. This shows how targeted progress in key wellbeing areas can meaningfully enhance national life satisfaction."]) ].

(** Lines 188 to 324 of [_update_logic]: what it does with the filtered
    table once the three controls have their values. *)
Definition chart (df : DataFrame) (country dimension improvement : Value)
  : Result (Figure * Narrative) :=
  c <- getitem df "country" ;;
  let country_data := select_rows (eq_mask c country) df in
  if Nat.eqb (height country_data) 0
  then Ok (note_figure [Lit "No data available for "; Str country],
           [[Lit "No data available for "; Str country; Lit "."]])
  else
    s <- simulate df country_data dimension improvement ;;
    x <- getitem_value df dimension ;;
    y <- getitem df "life_satisfaction" ;;
    title <- title_of dimension ;;
    t <- getitem df "country" ;;
    let others :=
      {| kind := Scatter; name := [Lit "Other Countries"];
         x := data_of x; y := data_of y; text := data_of t; marker_color := ["lightgray"%string] |} in
    let top_data := select_rows (isin_mask t top_countries) df in
    top <- (if Nat.eqb (height top_data) 0 then Ok []
            else
              tx <- getitem_value top_data dimension ;;
              ty <- getitem top_data "life_satisfaction" ;;
              tt <- getitem top_data "country" ;;
              Ok [ {| kind := Scatter; name := [Lit "Top Performers"];
                      x := data_of tx; y := data_of ty; text := data_of tt;
                      marker_color := ["green"%string] |} ]) ;;
    let cur_x := coord_of (current_dimension_val s) in
    let cur_y := coord_of (current_life_sat s) in
    let new_x := CNum (Some (new_dimension_val s)) in
    let new_y := CNum (new_life_sat s) in
    let current := point [Str country; Lit " (Current)"] cur_x cur_y in
    let simulated := point [Str country; Lit " (Simulated)"] new_x new_y in
    let fig :=
      {| data := [others] ++ top ++ [current; simulated];
         annotations := [Arrow new_x new_y cur_x cur_y];
         xaxis_title := [title]; yaxis_title := [Lit "Life Satisfaction"] |} in
    let name := match dimension with VStr k => k | _ => EmptyString end in
    top_text <- top_performer_text df dimension name ;;
    narrative <- narrative_of country name improvement s top_text ;;
    Ok (fig, narrative).

Definition _update_logic (kwargs : Kwargs) : Result (Figure * Narrative) :=
  data <- get_data ;;
  df <- filter_data data (filters kwargs) ;;
  if Nat.eqb (height df) 0
  then Ok (note_figure [Lit "No data available"], [[Lit "No data available for analysis."]])
  else
    let country := get_or_default (country_control kwargs) country_default in
    let dimension := get_or_default (dimension_control kwargs) dimension_default in
    let improvement := get_or_default (improvement_control kwargs) improvement_default in
    chart df country dimension improvement.

Definition update (kwargs : Kwargs) : Figure * Narrative * Text :=
  match _update_logic kwargs with
  | Ok (figure, narrative) => (figure, narrative, [])
  | Raise e =>
      (error_figure, [[Lit "Error generating AI narrative."]], error_msg format_exc e)
  end.

(** [update] statement by statement. *)
Definition update_run (kwargs : Kwargs) : Run (Figure * Narrative * Text) :=
  let empty_fig := error_figure in
  try_except
    (silent (r <- _update_logic kwargs ;;
             let '(figure, narrative) := r in Ok (figure, narrative, [])))
    (fun e => let msg := error_msg format_exc e in
              print_and_return msg
                (empty_fig, [[Lit "Error generating AI narrative."]], msg)).

End Feature.

End Simulator.

(* ================================================================== *)
(** ** diagonosis.py: the country diagnostic and its narrative *)
(* ================================================================== *)

Module Diagnosis.
Import Num Dash.

Definition country_default : Value := VStr "Finland".

Definition gap_columns : list string :=
  [ "life_satisfaction_gap"; "health_gap"; "income_gap"; "education_gap";
    "jobs_gap"; "work_life_balance_gap"; "safety_gap"; "environment_gap";
    "social_connections_gap"; "housing_gap" ]%string.

Definition dimension_names : list (string * string) :=
  [ ("life_satisfaction_gap", "Life Satisfaction"); ("health_gap", "Health");
    ("income_gap", "Income"); ("education_gap", "Education"); ("jobs_gap", "Jobs");
    ("work_life_balance_gap", "Work-Life Balance"); ("safety_gap", "Safety");
    ("environment_gap", "Environment");
    ("social_connections_gap", "Social Connections"); ("housing_gap", "Housing") ]%string.

Fixpoint name_in (k : string) (d : list (string * string)) : string :=
  match d with
  | [] => EmptyString
  | (k', v) :: t => if String.eqb k' k then v else name_in k t
  end.

(** A (dimension, gap) pair of [dimension_gaps]. *)
Definition Gap : Type := string * Q.

(** [sort(key=lambda x: x[1], reverse=True)]: descending by gap, and stable,
    so that pairs with equal gaps keep the order they had. *)
Fixpoint insert_desc (p : Gap) (l : list Gap) : list Gap :=
  match l with
  | [] => [p]
  | h :: t => if Qlt_le_dec (snd p) (snd h) then h :: insert_desc p t
              else p :: h :: t
  end.

Definition sort_desc (l : list Gap) : list Gap := fold_right insert_desc [] l.


(** [l[-2:]]. *)
Definition last_two {A : Type} (l : list A) : list A :=
  skipn (List.length l - 2) l.

Definition is_positive (d : Gap) : bool := if Qlt_le_dec 0 (snd d) then true else false.
Definition is_negative (d : Gap) : bool := if Qlt_le_dec (snd d) 0 then true else false.

Definition dimension_gaps (dimension_labels : list string) (gap_values : list Q)
  : list Gap :=
  sort_desc (combine dimension_labels gap_values).

Definition strengths_of (sorted : list Gap) : list Gap :=
  firstn 2 (filter is_positive sorted).

Definition weaknesses_of (sorted : list Gap) : list Gap :=
  last_two (filter is_negative sorted).

(** [dimension_gaps[-1][0] if dimension_gaps else "overall wellbeing"]. *)
Definition worst_dimension_of (sorted : list Gap) : string :=
  match sorted with
  | [] => "overall wellbeing"
  | h :: t => fst (last t h)
  end.

(** The cells of a column as Python values. *)
Definition cells (c : Column) : list Value :=
  match c with
  | NumCol l => map VNum l
  | TextCol l => map VStr l
  end.

(** [a < b] on two cells of one column. *)
Definition value_ltb (a b : Value) : bool :=
  match a, b with
  | VNum p, VNum q => if Qlt_le_dec p q then true else false
  | VStr s, VStr t => String.ltb s t
  | _, _ => false
  end.

(** [groupby(key).first()]: one entry per key, with the value of its first
    row, the keys in ascending order. *)
Fixpoint first_per_key (rows seen : list (Value * Value)) : list (Value * Value) :=
  match rows with
  | [] => seen
  | (k, v) :: t =>
      if existsb (fun kv => value_eqb (fst kv) k) seen
      then first_per_key t seen
      else first_per_key t (seen ++ [(k, v)])
  end.

Fixpoint insert_by (lt : Value -> Value -> bool) (proj : Value * Value -> Value)
  (p : Value * Value) (l : list (Value * Value)) : list (Value * Value) :=
  match l with
  | [] => [p]
  | h :: t => if lt (proj h) (proj p) then h :: insert_by lt proj p t
              else p :: h :: t
  end.

Definition groupby_first (keys vals : Column) : list (Value * Value) :=
  fold_right (insert_by value_ltb fst) []
             (first_per_key (combine (cells keys) (cells vals)) []).

(** [sort_values(ascending=False)]; among equal values the order of the
    grouped keys is kept. *)
Definition sort_values_desc (s : list (Value * Value)) : list (Value * Value) :=
  fold_right (insert_by (fun a b => value_ltb b a) snd) [] s.

(** [df.groupby('country')['composite_index'].first()
       .sort_values(ascending=False).index[0]]. *)
Definition top_performer_of (df : DataFrame) : Result Value :=
  k <- getitem df "country" ;;
  v <- getitem df "composite_index" ;;
  match sort_values_desc (groupby_first k v) with
  | [] => Raise (IndexError "index 0 is out of bounds for axis 0 with size 0")
  | (c, _) :: _ => Ok c
  end.

Definition strength_line (d : Gap) : Text :=
  [Lit "• **"; Lit (fst d); Lit "**: "; Signed1 (Some (snd d));
   Lit " points above OECD average"].

Definition weakness_line (d : Gap) : Text :=
  [Lit "• **"; Lit (fst d); Lit "**: "; Signed1 (Some (snd d));
   Lit " points below OECD average"].

(** The lines of the narrative, which are joined by newlines. *)
Definition _generate_narrative (country : Value) (gap_values : list Q)
  (dimension_labels : list string) (df : DataFrame) : Result (list Text) :=
  let sorted := dimension_gaps dimension_labels gap_values in
  let strengths := strengths_of sorted in
  let weaknesses := weaknesses_of sorted in
  top_performer <- top_performer_of df ;;
  let worst_dimension := worst_dimension_of sorted in
  let header :=
    [ [Lit "## 🏛️ OECD Wellbeing Diagnostic: "; Str country]; [Lit "---"] ] in
  let strengths_part :=
    match strengths with
    | s0 :: rest =>
        [[Lit "### 💪 **Key Strengths**"]] ++ map strength_line strengths ++ [[]]
        ++ [ [Str country; Lit " demonstrates notable excellence in "; Lower (fst s0)]
             ++ match rest with
                | s1 :: _ => [Lit " and "; Lower (fst s1)]
                | [] => []
                end
             ++ [Lit ". These positive performance gaps indicate that "; Str country;
                 Lit "'s citizens experience significantly better outcomes in these dimensions compared to the typical OECD country."] ]
    | [] =>
        [ [Lit "### 💪 **Key Strengths**"];
          [Lit "• "; Str country;
           Lit " is performing at or below OECD average across most dimensions"];
          [];
          [Lit "While "; Str country;
           Lit " faces challenges across multiple wellbeing dimensions, this presents clear opportunities for targeted policy interventions to improve citizen outcomes."] ]
    end in
  let weaknesses_part :=
    match rev weaknesses with
    | w_last :: rest =>
        [[Lit "### ⚠️ **Critical Areas for Improvement**"]]
        ++ map weakness_line weaknesses ++ [[]]
        ++ [ [Lit "The data reveals significant challenges in "; Lower (fst w_last)]
             ++ match rest with
                | w_prev :: _ => [Lit " and "; Lower (fst w_prev)]
                | [] => []
                end
             ++ [Lit ". These negative gaps suggest that "; Str country;
                 Lit "'s performance in these areas falls notably short of what citizens in other OECD countries typically experience."] ]
    | [] =>
        [ [Lit "### ⚠️ **Areas for Attention**"];
          [Lit "• "; Str country;
           Lit " shows relatively balanced performance across dimensions"];
          [];
          [Str country;
           Lit " maintains consistent performance across wellbeing dimensions, though there may still be opportunities for enhancement in specific areas."] ]
    end in
  let policy_text :=
    match weaknesses with
    | _ :: _ =>
        [Lit "**Recommendation**: Prioritizing improvements in "; Lower worst_dimension;
         Lit " could significantly enhance "; Str country;
         Lit "'s overall wellbeing performance and bring outcomes closer to leading countries like ";
         Str top_performer; Lit "."]
    | [] =>
        [Lit "**Recommendation**: "; Str country;
         Lit " should focus on maintaining its current performance levels while identifying emerging opportunities to further enhance citizen wellbeing outcomes."]
    end in
  Ok (header ++ strengths_part ++ [[]] ++ weaknesses_part ++ [[]]
      ++ [[Lit "### 🎯 **Policy Insight**"]; policy_text]).

(** The loop over [gap_columns]: the gaps, the labels and the colours of the
    columns that the table has. *)
Fixpoint collect_gaps (country_data : DataFrame) (names : list string)
  : Result (list Q * list string * list string) :=
  match names with
  | [] => Ok ([], [], [])
  | gap_col :: rest =>
      match lookup gap_col (cols country_data) with
      | None => collect_gaps country_data rest
      | Some c =>
          v <- iloc c 0 ;;
          g <- number v ;;
          let colour := (if Qlt_le_dec g 0 then "#DC143C" else "#2E8B57")%string in
          r <- collect_gaps country_data rest ;;
          let '(gs, ls, cs) := r in
          Ok (g :: gs, name_in gap_col dimension_names :: ls, colour :: cs)
      end
  end.

(** Lines 118 to 185 of [_update_logic]: what it does with the filtered
    table once the country is chosen. *)
Definition chart (df : DataFrame) (selected_country : Value)
  : Result (Figure * list Text) :=
  c <- getitem df "country" ;;
  let country_data := select_rows (eq_mask c selected_country) df in
  if Nat.eqb (height country_data) 0
  then Ok (note_figure [Lit "No data available for "; Str selected_country],
           [[Lit "No data available for "; Str selected_country; Lit "."]])
  else
    r <- collect_gaps country_data gap_columns ;;
    let '(gap_values, dimension_labels, colors) := r in
    let bar :=
      {| kind := Bar; name := [];
         x := map (fun g => CNum (Some g)) gap_values;
         y := map CText dimension_labels;
         text := map (fun g => CNum (Some g)) gap_values;
         marker_color := colors |} in
    let fig :=
      {| data := [bar]; annotations := [VLine 0];
         xaxis_title := [Lit "Performance Gap (points above/below OECD average)"];
         yaxis_title := [Lit "Wellbeing Dimensions"] |} in
    narrative <- _generate_narrative selected_country gap_values dimension_labels df ;;
    Ok (fig, narrative).

Section Feature.

Variable Filters : Type.
Variable get_data : Result DataFrame.
(** Modelled from the spec: [components.filter_component.filter_data], which
    returns the rows that satisfy the named filter predicates and reads
    nothing else of the keyword arguments. *)
Variable filter_data : DataFrame -> Filters -> Result DataFrame.
Variable format_exc : Exn -> string.

Record Kwargs : Type := {
  country_control : option Value;
  filters : Filters
}.

Definition _update_logic (kwargs : Kwargs) : Result (Figure * list Text) :=
  data <- get_data ;;
  df <- filter_data data (filters kwargs) ;;
  if Nat.eqb (height df) 0
  then Ok (note_figure [Lit "No data available"], [[Lit "No data available for analysis."]])
  else
    let selected_country := get_or_default (country_control kwargs) country_default in
    chart df selected_country.

Definition update (kwargs : Kwargs) : Figure * list Text * Text :=
  match _update_logic kwargs with
  | Ok (figure, narrative) => (figure, narrative, [])
  | Raise e => (error_figure, [[Lit "Error generating narrative."]], error_msg format_exc e)
  end.

(** [update] statement by statement; the Markdown component that wraps the
    narrative is left out. *)
Definition update_run (kwargs : Kwargs) : Run (Figure * list Text * Text) :=
  let empty_fig := error_figure in
  try_except
    (silent (r <- _update_logic kwargs ;;
             let '(figure, narrative) := r in Ok (figure, narrative, [])))
    (fun e => let msg := error_msg format_exc e in
              print_and_return msg
                (empty_fig, [[Lit "Error generating narrative."]], msg)).

End Feature.

End Diagnosis.

(* ================================================================== *)
(** ** Tables used as examples *)
(* ================================================================== *)

Module Examples.
Import Num.

(** Four countries: Finland has the lowest homicide rate of the set, the
    health column and the housing column are constant. *)
Definition wide4 : Transform.DataFrame :=
  {| Transform.country := ["Finland"; "Norway"; "Chile"; "Mexico"]%string;
     Transform.country_code := ["FIN"; "NOR"; "CHL"; "MEX"]%string;
     Transform.columns :=
       [ (Transform.life_satisfaction,
            [Some (78 # 10); Some (75 # 10); Some (62 # 10); Some (60 # 10)]);
         (Transform.safety,
            [Some (5 # 10); Some (6 # 10); Some (45 # 10); Some (250 # 10)]);
         (Transform.health, [Some 80; Some 80; Some 80; Some 80]);
         (Transform.housing, [Some 20; Some 20; Some 20; Some 20]) ] |}.

(** Two countries and the ten dimensions.  Atlantis reports four measures,
    the homicide rate among them; Borduria reports the nine others.  The
    pivot keeps the ten columns, each of which has an observation. *)
Definition wide_sparse : Transform.DataFrame :=
  {| Transform.country := ["Atlantis"; "Borduria"]%string;
     Transform.country_code := ["ATL"; "BRD"]%string;
     Transform.columns :=
       [ (Transform.life_satisfaction, [Some (70 # 10); Some (65 # 10)]);
         (Transform.health, [Some 81; Some 79]);
         (Transform.income, [Some 30000; Some 28000]);
         (Transform.education, [None; Some 270]);
         (Transform.jobs, [None; Some 70]);
         (Transform.work_life_balance, [None; Some 4]);
         (Transform.safety, [Some 1; None]);
         (Transform.environment, [None; Some 90]);
         (Transform.social_connections, [None; Some 92]);
         (Transform.housing, [None; Some 20]) ] |}.

(** A loaded table of three countries, with the columns of the persisted
    format that the features read. *)
Definition nations : Dash.DataFrame :=
  {| Dash.height := 3;
     Dash.cols :=
       [ ("country", Dash.TextCol ["Finland"; "Denmark"; "United States"]);
         ("life_satisfaction", Dash.NumCol [100; 90; 60]);
         ("environment", Dash.NumCol [90; 80; 50]);
         ("education", Dash.NumCol [80; 90; 70]);
         ("jobs", Dash.NumCol [70; 75; 80]);
         ("safety", Dash.NumCol [75; 50; 25]);
         ("income", Dash.NumCol [60; 65; 100]);
         ("housing", Dash.NumCol [50; 45; 40]);
         ("health", Dash.NumCol [80; 75; 50]);
         ("work_life_balance", Dash.NumCol [70; 90; 30]);
         ("social_connections", Dash.NumCol [90; 95; 60]);
         ("composite_index", Dash.NumCol [765 # 10; 755 # 10; 565 # 10]);
         ("life_satisfaction_gap", Dash.NumCol [50 # 3; 20 # 3; - (70 # 3)]);
         ("environment_gap", Dash.NumCol [50 # 3; 20 # 3; - (70 # 3)]);
         ("education_gap", Dash.NumCol [0; 10; - 10]);
         ("jobs_gap", Dash.NumCol [- 5; 0; 5]);
         ("safety_gap", Dash.NumCol [25; 0; - 25]);
         ("income_gap", Dash.NumCol [- 15; - 10; 25]);
         ("housing_gap", Dash.NumCol [5; 0; - 5]);
         ("health_gap", Dash.NumCol [35 # 3; 20 # 3; - (55 # 3)]);
         ("work_life_balance_gap", Dash.NumCol [20 # 3; 80 # 3; - (100 # 3)]);
         ("social_connections_gap", Dash.NumCol [25 # 3; 40 # 3; - (65 # 3)]) ]%string |}.

Definition nations_dimensions : Policy.Dimensions :=
  {| Policy.environment := [90; 80; 50];
     Policy.education := [80; 90; 70];
     Policy.jobs := [70; 75; 80];
     Policy.safety := [75; 50; 25];
     Policy.income := [60; 65; 100];
     Policy.housing := [50; 45; 40];
     Policy.health := [80; 75; 50];
     Policy.work_life_balance := [70; 90; 30];
     Policy.social_connections := [90; 95; 60] |}.

(** The same table filtered down to one country. *)
Definition one_nation : Dash.DataFrame :=
  Dash.select_rows [false; false; true] nations.

(** A filter component that keeps every row, and no traceback text. *)
Definition keep_all (df : Dash.DataFrame) (_ : unit) : Dash.Result Dash.DataFrame :=
  Dash.Ok df.

Definition no_traceback (_ : Dash.Exn) : string := EmptyString.

(** The square root of a rational that is a square. *)
Definition exact_sqrt (q : Q) : option Q :=
  let r := Qred q in
  let n := Z.sqrt (Qnum r) in
  let d := Z.sqrt (Zpos (Qden r)) in
  if ((n * n =? Qnum r) && (d * d =? Zpos (Qden r)))%Z
  then Some (n # Z.to_pos d) else None.

(** Pearson's correlation coefficient for the examples: NaN on fewer than two
    points and on a constant column, as pandas has it, and the coefficient
    itself where it is rational.  (Where the coefficient is irrational this
    stand-in has no value to give; the examples do not go there.) *)
Definition pearson_example (xs ys : list Q) : float :=
  if (List.length xs <? 2)%nat then None
  else
    let mx := Qsum xs / Qlen xs in
    let my := Qsum ys / Qlen ys in
    let dx := map (fun v => v - mx) xs in
    let dy := map (fun v => v - my) ys in
    let sxy := Qsum (Dash.map2 Qmult dx dy) in
    let sxx := Qsum (Dash.map2 Qmult dx dx) in
    let syy := Qsum (Dash.map2 Qmult dy dy) in
    if Qeq_bool sxx 0 || Qeq_bool syy 0 then None
    else match exact_sqrt (sxx * syy) with
         | Some r => Some (Qred (sxy / r))
         | None => None
         end.

(** Four dimensions of a diagnostic, and their gaps. *)
Definition labels4 : list string := ["Health"; "Income"; "Jobs"; "Safety"]%string.
Definition gaps4 : list Q := [35 # 3; - 15; - 5; 25].

(** The controls of the policy simulation with every boost at zero. *)
Definition zero_boosts : Policy.Kwargs unit :=
  {| Policy.dimension_control := Some (Dash.VStr "environment");
     Policy.environment_slider := Some (Dash.VNum 0);
     Policy.education_slider := None;
     Policy.jobs_slider := Some Dash.VNone;
     Policy.filters := tt |}.

End Examples.

(* ================================================================== *)
(** ** oecd_transform.py: steps 1 and 3, and the checks of step 12 *)
(* ================================================================== *)

Module Extract.
Import Num.

(** A row of the source table, with the columns that the script reads. *)
Record Observation : Type := {
  Country : string;
  REF_AREA : string;
  Measure : string;
  Year : Z;
  OBS_VALUE : float;
  Age : string;
  Sex : string;
  Education : string
}.

(** Step 1: the rows whose three breakdowns are all "Total". *)
Definition is_total (r : Observation) : bool :=
  String.eqb (Age r) "Total" && String.eqb (Sex r) "Total"
  && String.eqb (Education r) "Total".

Definition df_totals (df : list Observation) : list Observation :=
  filter is_total df.

(** [df_totals['Measure'].isin(key_measures.keys())]. *)
Definition is_key (r : Observation) : bool :=
  existsb (String.eqb (Measure r)) (map fst Transform.key_measures).

(** The rows of one group of [groupby(['Country', 'REF_AREA', 'Measure'])]. *)
Definition same_group (a b : Observation) : bool :=
  String.eqb (Country a) (Country b) && String.eqb (REF_AREA a) (REF_AREA b)
  && String.eqb (Measure a) (Measure b).

(** [groupby(...).tail(1)]: the last row of every group, the rows kept in
    the order they had. *)
Fixpoint tail_1 (rows : list Observation) : list Observation :=
  match rows with
  | [] => []
  | r :: t => if existsb (same_group r) t then tail_1 t else r :: tail_1 t
  end.

(** The order that [sort_values('Year')] establishes. *)
Definition by_year (a b : Observation) : Prop := (Year a <= Year b)%Z.

Section Sorting.

(** [DataFrame.sort_values('Year')]: pandas sorts with quicksort by default,
    which leaves the order of rows of one year open; the sort is a parameter,
    and what is proved of [df_key] holds for every sort. *)
Variable sort_values : list Observation -> list Observation.

(** Step 3: the most recent row of every country and measure. *)
Definition df_key (df : list Observation) : list Observation :=
  tail_1 (sort_values (filter is_key (df_totals df))).

End Sorting.

(** A sort by year: insertion from the right, in which a row goes before
    the rows of its year that came after it, so that the sort is stable. *)
Fixpoint insert_by_year (r : Observation) (l : list Observation) : list Observation :=
  match l with
  | [] => [r]
  | h :: t => if (Year h <? Year r)%Z then h :: insert_by_year r t else r :: h :: t
  end.

Definition sort_by_year (l : list Observation) : list Observation :=
  fold_right insert_by_year [] l.

End Extract.

Module Validation.
Import Num Transform.

(** Every column of the pivoted table holds one cell per row. *)
Definition well_formed (df : DataFrame) : Prop :=
  List.length (country_code df) = nrows df /\
  Forall (fun dc => List.length (snd dc) = nrows df) (columns df).

(** [a >= b] on cells, False on NaN. *)
Definition fge (a b : float) : bool :=
  match a, b with
  | Some x, Some y => if Qlt_le_dec x y then false else true
  | _, _ => false
  end.

(** [df_wide[dimension_cols].min()] and [.max()]: one value per column. *)
Definition column_minima (df : DataFrame) : list float :=
  map (fun dc => smin (snd dc)) (columns df).

Definition column_maxima (df : DataFrame) : list float :=
  map (fun dc => smax (snd dc)) (columns df).

(** Step 12, the check "All scores 0-100":
    [(df.min().min() >= 0) and (df.max().max() <= 100)]. *)
Definition all_scores_0_100 (df : DataFrame) : bool :=
  fge (smin (column_minima df)) (Some 0) && fle (smax (column_maxima df)) (Some 100).

(** The table has a cell that is a number. *)
Definition has_number (df : DataFrame) : Prop :=
  exists d s x, In (d, s) (columns df) /\ In (Some x) s.

End Validation.

(* ================================================================== *)
(** ** oecd_transform.py: step 8, the gaps from the average *)
(* ================================================================== *)

Module Gaps.
Import Num Transform.

(** [(df_wide[col] - oecd_averages[col]).round(1)], where [oecd_averages] is
    [df_wide[dimension_cols].mean()], the mean of each normalised column. *)
Definition gap_column (s : list float) : list float :=
  map (fun c => fround1 (fsub c (mean s))) s.

(** The gap columns of a table, one for each dimension column. *)
Definition gap_columns (df : DataFrame) : list (Dim * list float) :=
  map (fun dc => (fst dc, gap_column (snd dc))) (columns df).

End Gaps.

(* ================================================================== *)
(** ** diagonosis.py: the gap columns that a table has *)
(* ================================================================== *)

Module Bars.
Import Dash.

(** The columns, of a list of names, that the table has:
    [gap_col in country_data.columns]. *)
Definition present (country_data : DataFrame) (names : list string) : list string :=
  filter (fun n => match lookup n (cols country_data) with
                   | Some _ => true
                   | None => false
                   end) names.

End Bars.

(* ================================================================== *)
(** ** layout.py: the registry of the features and the page *)
(* ================================================================== *)

Module Layout.
Import Dash.

(** A Dash component, with the properties that the layout reads or sets: its
    class, its id, its title, its width and its children; or a text that is
    the child of a component.  Styles are constants and are left out. *)
#[warnings="-register-all"] Inductive Component : Type :=
  | Node (class id : string) (title : Text) (width : option nat)
         (children : list Component)
  | TextNode (t : Text).

(** What calling a feature and reading its ["layout"] gives: the layout, or
    the exception of the call. *)
Definition Feature : Type := Result Component.

(** A dictionary with string keys: [d.get(k)], [k in d] and [d[k] = v]. *)
Fixpoint dict_get {A : Type} (k : string) (d : list (string * A)) : option A :=
  match d with
  | [] => None
  | (k', v) :: t => if String.eqb k' k then Some v else dict_get k t
  end.

Fixpoint dict_set {A : Type} (k : string) (v : A) (d : list (string * A))
  : list (string * A) :=
  match d with
  | [] => [(k, v)]
  | (k', v') :: t => if String.eqb k' k then (k, v) :: t else (k', v') :: dict_set k v t
  end.

(** The two dictionaries of the module. *)
Record Registry : Type := {
  component_registry : list (string * Feature);
  failed_components : list (string * string)
}.

Definition no_registry : Registry :=
  {| component_registry := []; failed_components := [] |}.

(** The features that the module imports, in the order of the imports. *)
Definition feature_names : list string :=
  [ "global_wellbeing_choropleth"; "country_radar_chart"; "gap_analysis_bar_chart";
    "policy_simulation_scatter"; "wellbeing_dimensions_comparison";
    "composite_index_ranking"; "add_an_ai_narrative_text_box";
    "produce_an_ai_narrative_text" ]%string.

Section Imports.

(** What the import of the feature of a name gives: its component function,
    or the exception of the import. *)
Variable import : string -> Result Feature.

(** One [try: from ... import component ... except Exception as e: ...]. *)
Definition import_feature (r : Registry) (name : string) : Registry :=
  match import name with
  | Ok f => {| component_registry := dict_set name f (component_registry r);
               failed_components := failed_components r |}
  | Raise e => {| component_registry := component_registry r;
                  failed_components := dict_set name (str_of_exn e) (failed_components r) |}
  end.

(** The registry once the module is loaded. *)
Definition load : Registry := fold_left import_feature feature_names no_registry.

End Imports.

Definition dquote : string := String (Ascii.ascii_of_nat 34) EmptyString.

Definition width_of (c : Component) : option nat :=
  match c with
  | Node _ _ _ w _ => w
  | TextNode _ => None
  end.

Definition children_of (c : Component) : list Component :=
  match c with
  | Node _ _ _ _ ch => ch
  | TextNode _ => []
  end.

(** [c.width = w] and [c.children = ch]; a text has no such attribute. *)
Definition set_width (c : Component) (w : nat) : Result Component :=
  match c with
  | Node cl i t _ ch => Ok (Node cl i t (Some w) ch)
  | TextNode _ => Raise (Exception "AttributeError" "'str' object has no attribute 'width'")
  end.

Definition set_children (c : Component) (ch : list Component) : Result Component :=
  match c with
  | Node cl i t w _ => Ok (Node cl i t w ch)
  | TextNode _ =>
      Raise (Exception "AttributeError" "'str' object has no attribute 'children'")
  end.

(** The button that the preview mode puts into the header of a card. *)
Definition edit_button (component_name : string) : Component :=
  Node "Button" component_name [] None
       [Node "Icon" "pencil" [] None []; TextNode [Lit "Edit"]].

(** The placeholder for a feature that is not in the registry. *)
Definition missing_card (component_name error_message : string) (width : nat)
  : Component :=
  Node "Card" EmptyString [] (Some width)
       [ Node "CardHeader" EmptyString
              [Lit "Error loading "; Lit dquote; Lit component_name; Lit dquote] None [];
         Node "Div" EmptyString [] None
              [TextNode [Lit "Details: "; Lit error_message]] ].

(** The placeholder for a feature whose layout function raises. *)
Definition failing_card (component_name : string) (e : Exn) (width : nat) : Component :=
  Node "Card" EmptyString [] (Some width)
       [ Node "CardHeader" EmptyString
              [Lit "Error in "; Lit dquote; Lit component_name; Lit dquote; Lit ": ";
               Lit (str_of_exn e)] None [];
         Node "Graph" EmptyString [] None [] ].

Definition _get_component_layout (r : Registry) (component_name : string)
  (width : nat) (preview : bool) : Result Component :=
  match dict_get component_name (component_registry r) with
  | None =>
      let error_message :=
        match dict_get component_name (failed_components r) with
        | Some m => m
        | None => "Component not found in registry."%string
        end in
      Ok (missing_card component_name error_message width)
  | Some (Raise e) => Ok (failing_card component_name e width)
  | Some (Ok layout) =>
      layout <- set_width layout width ;;
      match preview, layout with
      | true, Node cl i t w (first :: rest) =>
          first <- set_children first [edit_button component_name] ;;
          Ok (Node cl i t w (first :: rest))
      | _, _ => Ok layout
      end
  end.

(** A layout on which the function above does not raise: a component, not a
    text, whose first child, if it has one, is a component too. *)
Definition card_like (c : Component) : Prop :=
  match c with
  | Node _ _ _ _ (TextNode _ :: _) => False
  | Node _ _ _ _ _ => True
  | TextNode _ => False
  end.

(** The hero of the page; its description and its logo are constants and are
    left out. *)
Definition hero : Component :=
  Node "Hero" EmptyString [Lit "OECD Global Wellbeing Explorer"] None
       [ Node "Tag" EmptyString [Lit "**Data Updated:** 2025-10-04"] None [];
         Node "Tag" EmptyString [Lit "**Created by:** Plotly Studio"] None [];
         Node "Tag" EmptyString
              [Lit "**Data Source**: OECD Global Wellbeing Explorer data"] None [] ].

(** The heading of a section of the page, and its paragraph. *)
Definition section_block (heading : string) (paragraph : Text) : Component :=
  Node "Block" EmptyString [] (Some 100%nat)
       [ Node "H2" EmptyString [] None [TextNode [Lit heading]];
         Node "P" EmptyString [] None [TextNode paragraph] ].

Definition section_1_block : Component :=
  section_block "🌍 SECTION 1 — Global Overview"
    [Lit "Explore wellbeing across 41 OECD countries through an interactive world map, rankings, and data explorer. Use this section to see how countries compare globally and identify interesting cases for deeper analysis."].

Definition section_2_block : Component :=
  section_block "🧭 SECTION 2 — Country Diagnostic"
    [Lit "Dive into detailed wellbeing insights for any selected country. See how it performs across dimensions like health, education, and income — and discover its top strengths and critical weaknesses through AI-powered analysis."].

Definition section_3_block : Component :=
  section_block "⚙️ SECTION 3 — Policy Simulator"
    [Lit "Experiment with "; Lit dquote; Lit "what-if"; Lit dquote;
     Lit " scenarios. Adjust key wellbeing dimensions and instantly see how life satisfaction could improve. AI insights summarize how these improvements could bring the country closer to top performers like Finland and Denmark."].

(** [if f: layout_items.append(f()["layout"])] for one of the three optional
    components; its call is not guarded. *)
Definition optional_item (f : option Feature) : Result (list Component) :=
  match f with
  | None => Ok []
  | Some call => layout <- call ;; Ok [layout]
  end.

(** [layout_items.extend([...])] over the features of a section. *)
Fixpoint feature_items (r : Registry) (slots : list (string * nat)) (preview : bool)
  : Result (list Component) :=
  match slots with
  | [] => Ok []
  | (name, width) :: rest =>
      c <- _get_component_layout r name width preview ;;
      cs <- feature_items r rest preview ;;
      Ok (c :: cs)
  end.

Definition section_1 : list (string * nat) :=
  [ ("global_wellbeing_choropleth", 50); ("composite_index_ranking", 50);
    ("wellbeing_dimensions_comparison", 100) ]%string%nat.

Definition section_2 : list (string * nat) :=
  [ ("country_radar_chart", 50); ("gap_analysis_bar_chart", 50);
    ("add_an_ai_narrative_text_box", 100) ]%string%nat.

Definition section_3 : list (string * nat) :=
  [ ("policy_simulation_scatter", 50); ("produce_an_ai_narrative_text", 50) ]%string%nat.

Section Page.

Variable r : Registry.
(** The three components that are imported without an entry in the
    registry; [None] when the import failed. *)
Variable filter_component data_card_component data_table_component : option Feature.

Definition component (preview : bool) : Result (list Component) :=
  f <- optional_item filter_component ;;
  k <- optional_item data_card_component ;;
  s1 <- feature_items r section_1 preview ;;
  s2 <- feature_items r section_2 preview ;;
  s3 <- feature_items r section_3 preview ;;
  t <- optional_item data_table_component ;;
  Ok ([hero] ++ f ++ k
      ++ [section_1_block] ++ s1
      ++ [section_2_block] ++ s2
      ++ [section_3_block] ++ s3
      ++ t).

End Page.

(** 1 for an optional component that was imported, 0 for one that was not. *)
Definition count (f : option Feature) : nat :=
  match f with Some _ => 1%nat | None => 0%nat end.

End Layout.

(* ================================================================== *)
(** ** More tables and inputs used as examples *)
(* ================================================================== *)

Module Cases.
Import Num.

(** Rows of the source table: two years of the homicide rate of Finland, a
    breakdown by sex, a measure that is not selected, and one row of
    Norway. *)
Definition observation (c code m : string) (y : Z) (v : Q) (sex : string)
  : Extract.Observation :=
  {| Extract.Country := c; Extract.REF_AREA := code; Extract.Measure := m;
     Extract.Year := y; Extract.OBS_VALUE := Some v; Extract.Age := "Total";
     Extract.Sex := sex; Extract.Education := "Total" |}.

Definition observations : list Extract.Observation :=
  [ observation "Finland" "FIN" "Homicides" 2021 (12 # 10) "Total";
    observation "Finland" "FIN" "Homicides" 2019 (16 # 10) "Total";
    observation "Finland" "FIN" "Homicides" 2022 (20 # 10) "Female";
    observation "Finland" "FIN" "Voter turnout" 2023 69 "Total";
    observation "Norway" "NOR" "Life satisfaction" 2020 (73 # 10) "Total" ]%string.

(** A loaded table without any row. *)
Definition no_rows : Dash.DataFrame :=
  {| Dash.height := 0;
     Dash.cols := [ ("country", Dash.TextCol []);
                    ("life_satisfaction", Dash.NumCol []) ]%string |}.

(** The example table without its jobs column. *)
Definition nations_without_jobs : Dash.DataFrame :=
  {| Dash.height := 3;
     Dash.cols := filter (fun kc => negb (String.eqb (fst kc) "jobs"))
                         (Dash.cols Examples.nations) |}.

(** The controls of the policy simulation with a boost of the environment,
    and the figure of the core logic for them. *)
Definition environment_boost : Policy.Kwargs unit :=
  {| Policy.dimension_control := None;
     Policy.environment_slider := Some (Dash.VNum 25);
     Policy.education_slider := None;
     Policy.jobs_slider := None;
     Policy.filters := tt |}.

Definition policy_figure : Dash.Figure :=
  match Policy._update_logic unit (Dash.Ok Examples.nations) Examples.keep_all
          environment_boost with
  | Dash.Ok fig => fig
  | Dash.Raise _ => Dash.error_figure
  end.

(** The controls of the diagnostic left empty, and what the core logic
    returns for them. *)
Definition no_country : Diagnosis.Kwargs unit :=
  {| Diagnosis.country_control := None; Diagnosis.filters := tt |}.

Definition diagnostic : Dash.Figure * list Dash.Text :=
  match Diagnosis._update_logic unit (Dash.Ok Examples.nations) Examples.keep_all
          no_country with
  | Dash.Ok r => r
  | Dash.Raise _ => (Dash.error_figure, [])
  end.



End Cases.

Module Pages.
Import Dash Layout.

(** A card as a feature builds it: a header and a graph. *)
Definition card (id : string) (width : nat) : Component :=
  Node "Card" id [] (Some width)
       [ Node "CardHeader" EmptyString [Lit id] None [];
         Node "Graph" id [] None [] ].

(** An installation in which the module of the radar chart cannot be
    imported and the layout function of the ranking raises. *)
Definition import_example (name : string) : Result Feature :=
  if String.eqb name "country_radar_chart"
  then Raise (Exception "ModuleNotFoundError" "No module named 'components.country_radar_chart'")
  else if String.eqb name "composite_index_ranking"
  then Ok (Raise (KeyError "composite_index"))
  else Ok (Ok (card name 100)).

End Pages.

(* ================================================================== *)
(** * Properties *)
(* ================================================================== *)

(** ** The transform *)

Module TransformFacts.
Import Num Transform.

Lemma rint_lower (x : Q) (k : Z) : inject_Z k <= x -> (k <= rint x)%Z.
Proof.
  intro H. apply Qfloor_resp_le in H. rewrite Qfloor_Z in H.
  unfold rint. destruct (Qcompare _ _); [destruct (Z.even _)|..]; lia.
Qed.

Lemma rint_upper (x : Q) (k : Z) : x <= inject_Z k -> (rint x <= k)%Z.
Proof.
  intro H.
  assert (Hn : (Qfloor x <= k)%Z).
  { apply Qfloor_resp_le in H. now rewrite Qfloor_Z in H. }
  destruct (Z.eq_dec (Qfloor x) k) as [E | E].
  - assert (Hx : x - inject_Z (Qfloor x) < 1 # 2).
    { rewrite E. lra. }
    unfold rint. destruct (Qcompare _ _) eqn:C.
    + apply Qeq_alt in C. lra.
    + lia.
    + apply Qgt_alt in C. lra.
  - unfold rint. destruct (Qcompare _ _); [destruct (Z.even _)|..]; lia.
Qed.

Lemma round1_bounds (x : Q) : 0 <= x <= 100 -> 0 <= round1 x <= 100.
Proof.
  intros [H0 H1]. unfold round1.
  assert (L : (0 <= rint (x * 10))%Z).
  { apply rint_lower. change (inject_Z 0) with 0. lra. }
  assert (U : (rint (x * 10) <= 1000)%Z).
  { apply rint_upper. change (inject_Z 1000) with 1000. lra. }
  rewrite Zle_Qle in L, U.
  change (inject_Z 0) with 0 in L. change (inject_Z 1000) with 1000 in U.
  split.
  - apply Qle_shift_div_l; lra.
  - apply Qle_shift_div_r; lra.
Qed.

Lemma Qlen_cons (x : Q) (xs : list Q) : Qlen (x :: xs) == Qlen xs + 1.
Proof.
  unfold Qlen. cbn [List.length]. rewrite Nat2Z.inj_succ, <- Z.add_1_r.
  rewrite inject_Z_plus. reflexivity.
Qed.

Lemma Qlen_nonneg (xs : list Q) : 0 <= Qlen xs.
Proof.
  unfold Qlen. change 0 with (inject_Z 0). rewrite <- Zle_Qle. lia.
Qed.

Lemma Qlen_pos (x : Q) (xs : list Q) : 0 < Qlen (x :: xs).
Proof. rewrite Qlen_cons. pose proof (Qlen_nonneg xs). lra. Qed.

Lemma Qsum_bounds (lo hi : Q) (xs : list Q) :
  Forall (fun x => lo <= x <= hi) xs ->
  lo * Qlen xs <= Qsum xs <= hi * Qlen xs.
Proof.
  induction 1 as [| x xs Hx _ IH].
  - change (Qlen []) with 0. change (Qsum []) with 0. lra.
  - rewrite Qlen_cons. unfold Qsum in *. cbn [fold_right]. lra.
Qed.

Lemma mean_within (lo hi : Q) (s : list float) :
  valid s <> [] ->
  Forall (fun x => lo <= x <= hi) (valid s) ->
  within lo hi (mean s).
Proof.
  intros Hne Hall. unfold mean.
  destruct (valid s) as [| x xs] eqn:E; [congruence |].
  pose proof (Qsum_bounds lo hi _ Hall) as [L U].
  pose proof (Qlen_pos x xs) as P.
  cbv iota. unfold within. split.
  - apply Qle_shift_div_l; lra.
  - apply Qle_shift_div_r; lra.
Qed.

Lemma valid_In (s : list float) (x : Q) : In (Some x) s <-> In x (valid s).
Proof.
  induction s as [| [y |] t IH]; simpl.
  - tauto.
  - rewrite <- IH. split; intros [H | H]; auto; left; congruence.
  - rewrite <- IH. split; [intros [H | H]; [discriminate | auto] | auto].
Qed.

Lemma count_lt_eq_le (xs : list Q) (x : Q) :
  (count_lt xs x + count_eq xs x <= List.length xs)%nat.
Proof.
  unfold count_lt, count_eq.
  induction xs as [| y t IH]; simpl; [lia |].
  destruct (Qcompare y x); simpl; lia.
Qed.

Lemma count_eq_pos (xs : list Q) (x : Q) : In x xs -> (1 <= count_eq xs x)%nat.
Proof.
  unfold count_eq. induction xs as [| y t IH]; simpl; [tauto |].
  intros [-> | H].
  - rewrite (proj1 (Qeq_alt x x) (Qeq_refl x)). simpl. lia.
  - specialize (IH H). destruct (Qcompare y x); simpl; lia.
Qed.

Lemma rank_avg_bounds (xs : list Q) (x : Q) :
  In x xs -> 1 <= rank_avg xs x <= Qlen xs.
Proof.
  intro H. unfold rank_avg, Qlen.
  pose proof (count_lt_eq_le xs x) as A.
  pose proof (count_eq_pos xs x H) as B.
  assert (A' : inject_Z (Z.of_nat (count_lt xs x)) + inject_Z (Z.of_nat (count_eq xs x))
               <= inject_Z (Z.of_nat (List.length xs))).
  { rewrite <- inject_Z_plus, <- Zle_Qle. lia. }
  assert (B' : 1 <= inject_Z (Z.of_nat (count_eq xs x))).
  { change 1 with (inject_Z 1). rewrite <- Zle_Qle. lia. }
  assert (C' : 0 <= inject_Z (Z.of_nat (count_lt xs x))).
  { change 0 with (inject_Z 0). rewrite <- Zle_Qle. lia. }
  split.
  - setoid_replace ((inject_Z (Z.of_nat (count_eq xs x)) + 1) / 2)
      with ((1 # 2) * inject_Z (Z.of_nat (count_eq xs x)) + (1 # 2)) by field. lra.
  - setoid_replace ((inject_Z (Z.of_nat (count_eq xs x)) + 1) / 2)
      with ((1 # 2) * inject_Z (Z.of_nat (count_eq xs x)) + (1 # 2)) by field. lra.
Qed.

(** A cell of the inverted scale is a number of [0, 100), never 100. *)
Lemma invert_cell_range (xs : list Q) (x : Q) :
  In x xs ->
  0 <= (1 - rank_avg xs x / Qlen xs) * 100 /\
  (1 - rank_avg xs x / Qlen xs) * 100 <= 100 - 100 / Qlen xs.
Proof.
  intro H. pose proof (rank_avg_bounds xs x H) as [L U].
  assert (P : 0 < Qlen xs) by lra.
  set (n := Qlen xs) in *. set (r := rank_avg xs x) in *.
  assert (E : r / n <= 1) by (apply Qle_shift_div_r; lra).
  assert (F : 1 / n <= r / n).
  { unfold Qdiv. apply Qmult_le_compat_r; [lra |].
    apply Qlt_le_weak, Qinv_lt_0_compat, P. }
  split; [lra |].
  setoid_replace (100 / n) with (100 * (1 / n)) by (field; lra). lra.
Qed.

Lemma Qmin_list_spec (xs : list Q) (m : Q) :
  Qmin_list m xs <= m /\ forall y, In y xs -> Qmin_list m xs <= y.
Proof.
  unfold Qmin_list. revert m.
  induction xs as [| a t IH]; intro m; simpl.
  - split; [lra | tauto].
  - destruct (Qlt_le_dec a m) as [H | H].
    + destruct (IH a) as [A B]. split; [lra |].
      intros y [<- | Hy]; auto.
    + destruct (IH m) as [A B]. split; [lra |].
      intros y [<- | Hy]; [lra | auto].
Qed.

Lemma Qmax_list_spec (xs : list Q) (m : Q) :
  m <= Qmax_list m xs /\ forall y, In y xs -> y <= Qmax_list m xs.
Proof.
  unfold Qmax_list. revert m.
  induction xs as [| a t IH]; intro m; simpl.
  - split; [lra | tauto].
  - destruct (Qlt_le_dec m a) as [H | H].
    + destruct (IH a) as [A B]. split; [lra |].
      intros y [<- | Hy]; auto.
    + destruct (IH m) as [A B]. split; [lra |].
      intros y [<- | Hy]; [lra | auto].
Qed.

(** On a list whose members all equal [v], the extrema equal [v]. *)
Lemma Qmin_list_const (v : Q) (xs : list Q) (m : Q) :
  m == v -> (forall y, In y xs -> y == v) -> Qmin_list m xs == v.
Proof.
  unfold Qmin_list. revert m.
  induction xs as [| a t IH]; intros m Hm H; simpl; [exact Hm |].
  destruct (Qlt_le_dec a m); apply IH; auto; intros; apply H; simpl; auto.
Qed.

Lemma Qmax_list_const (v : Q) (xs : list Q) (m : Q) :
  m == v -> (forall y, In y xs -> y == v) -> Qmax_list m xs == v.
Proof.
  unfold Qmax_list. revert m.
  induction xs as [| a t IH]; intros m Hm H; simpl; [exact Hm |].
  destruct (Qlt_le_dec m a); apply IH; auto; intros; apply H; simpl; auto.
Qed.


Lemma minmax_cell_range (mn mx x : Q) :
  mn < mx -> mn <= x <= mx -> 0 <= (x - mn) / (mx - mn) * 100 <= 100.
Proof.
  intros H [L U].
  assert (A : 0 <= (x - mn) / (mx - mn)) by (apply Qle_shift_div_l; lra).
  assert (B : (x - mn) / (mx - mn) <= 1) by (apply Qle_shift_div_r; lra).
  lra.
Qed.

Lemma invert_scale_range (s : list float) :
  Forall (fun c => c = None \/ in_range c) (invert_scale s).
Proof.
  unfold invert_scale, rank_pct. rewrite map_map.
  apply Forall_forall. intros c Hc. apply in_map_iff in Hc as [[x |] [<- Hin]].
  - right. apply valid_In in Hin.
    pose proof (invert_cell_range _ _ Hin) as [A B].
    assert (P : 0 < Qlen (valid s)).
    { pose proof (rank_avg_bounds _ _ Hin). lra. }
    assert (Q0 : 0 < 100 / Qlen (valid s)) by (apply Qlt_shift_div_l; lra).
    unfold in_range, within, fmul, fsub, lift2. split; lra.
  - now left.
Qed.

Lemma minmax_scale_range (s : list float) :
  Forall (fun c => c = None \/ in_range c) (minmax_scale s).
Proof.
  unfold minmax_scale, smin, smax.
  destruct (valid s) as [| v vs] eqn:E.
  - simpl. apply Forall_forall. intros c Hc. apply in_map_iff in Hc as [_ [<- _]].
    right. unfold in_range, within. lra.
  - unfold fgt. destruct (Qlt_le_dec _ _) as [H | H].
    + apply Forall_forall. intros c Hc. apply in_map_iff in Hc as [[x |] [<- Hin]].
      * right. apply valid_In in Hin. rewrite E in Hin.
        destruct (Qmin_list_spec vs v) as [A B].
        destruct (Qmax_list_spec vs v) as [C D].
        assert (R : Qmin_list v vs <= x <= Qmax_list v vs).
        { destruct Hin as [<- | Hin]; split; auto. }
        unfold in_range, within, fmul, fdiv, fsub, lift2.
        apply minmax_cell_range; assumption.
      * now left.
    + apply Forall_forall. intros c Hc. apply in_map_iff in Hc as [_ [<- _]].
      right. unfold in_range, within. lra.
Qed.

Lemma fround1_range (c : float) :
  c = None \/ in_range c -> fround1 c = None \/ in_range (fround1 c).
Proof.
  intros [-> | H]; [now left | right].
  destruct c as [x |]; [| contradiction].
  apply round1_bounds, H.
Qed.

Lemma measure_info_total (d : Dim) : measure_info d <> [].
Proof. destruct d; discriminate. Qed.

Lemma normalize_column_eq (d : Dim) (s : list float) :
  normalize_column d s = if should_invert d then invert_scale s else minmax_scale s.
Proof. destruct d; reflexivity. Qed.

Lemma normalize_column_range (d : Dim) (s : list float) :
  Forall (fun c => c = None \/ in_range c) (normalize_column d s).
Proof.
  rewrite normalize_column_eq.
  destruct (should_invert d); [apply invert_scale_range | apply minmax_scale_range].
Qed.

Lemma transform_columns (df : DataFrame) :
  columns (table (transform df))
  = map (fun dc => (fst dc, finish_column (fst dc) (snd dc))) (columns (drop_sparse df)).
Proof.
  unfold transform, round_columns, normalize, fill_missing, finish_column.
  cbn [table columns]. rewrite !map_map. reflexivity.
Qed.

Lemma finish_column_range (d : Dim) (s : list float) :
  Forall (fun c => c = None \/ in_range c) (finish_column d s).
Proof.
  unfold finish_column. apply Forall_forall. intros c Hc.
  apply in_map_iff in Hc as [c0 [<- Hin]].
  apply fround1_range.
  pose proof (normalize_column_range d (fill_column s)) as H.
  rewrite Forall_forall in H. auto.
Qed.

(** Every cell of every dimension column of the output is NaN or a number of
    [0, 100]. *)
Lemma transform_cells_range (df : DataFrame) (d : Dim) (s : list float) :
  In (d, s) (columns (table (transform df))) ->
  Forall (fun c => c = None \/ in_range c) s.
Proof.
  rewrite transform_columns. intro H.
  apply in_map_iff in H as [[d0 s0] [E _]]. cbn [fst snd] in E.
  inversion E; subst. apply finish_column_range.
Qed.

Lemma mean_range (r : list float) :
  Forall (fun c => c = None \/ in_range c) r ->
  mean r = None \/ in_range (mean r).
Proof.
  intro H. destruct (valid r) as [| x xs] eqn:E.
  - left. unfold mean. now rewrite E.
  - right. apply mean_within; [congruence |].
    apply Forall_forall. intros y Hy. apply valid_In in Hy.
    rewrite Forall_forall in H. destruct (H _ Hy) as [? | R]; [discriminate | exact R].
Qed.

(** Every composite index of the output is NaN or a number of [0, 100]. *)
Lemma transform_composite_range (df : DataFrame) :
  Forall (fun c => c = None \/ in_range c) (composite_index (transform df)).
Proof.
  unfold transform. cbn [composite_index]. unfold composite_of, rows.
  rewrite map_map. apply Forall_forall. intros c Hc.
  apply in_map_iff in Hc as [i [<- _]].
  apply fround1_range, mean_range.
  unfold row_cells. apply Forall_forall. intros c Hc.
  apply in_map_iff in Hc as [[d s] [<- Hin]]. cbn [snd].
  pose proof (transform_cells_range df d s Hin) as H.
  rewrite Forall_forall in H.
  destruct (nth_in_or_default i s None) as [I | ->]; [auto | now left].
Qed.

Lemma fill_column_cases (s : list float) :
  (valid s <> [] /\ Forall (fun c => c <> None) (fill_column s)) \/
  (valid s = [] /\ Forall (eq None) (fill_column s)).
Proof.
  unfold fill_column, fillna, mean.
  destruct (valid s) as [| x xs] eqn:E.
  - right. split; [reflexivity |].
    assert (A : Forall (eq None) s).
    { apply Forall_forall. intros [y |] Hy; [| reflexivity].
      apply valid_In in Hy. rewrite E in Hy. destruct Hy. }
    destruct (existsb isna s); [| exact A].
    apply Forall_forall. intros c Hc. apply in_map_iff in Hc as [c0 [<- Hin]].
    rewrite Forall_forall in A. now rewrite <- (A _ Hin).
  - left. split; [discriminate |].
    destruct (existsb isna s) eqn:X.
    + apply Forall_forall. intros c Hc. apply in_map_iff in Hc as [[y |] [<- _]]; discriminate.
    + apply Forall_forall. intros [y |] Hy; [discriminate |].
      assert (existsb isna s = true) by (apply existsb_exists; exists None; auto).
      congruence.
Qed.

Lemma valid_all_none (s : list float) : Forall (eq None) s -> valid s = [].
Proof.
  induction 1 as [| c t Hc _ IH]; [reflexivity |]. subst c. exact IH.
Qed.

Lemma invert_scale_keeps (s : list float) :
  (Forall (fun c => c <> None) s -> Forall (fun c => c <> None) (invert_scale s)) /\
  (Forall (eq None) s -> Forall (eq None) (invert_scale s)).
Proof.
  unfold invert_scale, rank_pct. rewrite map_map. split; intro H.
  - apply Forall_forall. intros c Hc. apply in_map_iff in Hc as [[x |] [<- Hin]].
    + discriminate.
    + rewrite Forall_forall in H. now specialize (H _ Hin).
  - apply Forall_forall. intros c Hc. apply in_map_iff in Hc as [c0 [<- Hin]].
    rewrite Forall_forall in H. now rewrite <- (H _ Hin).
Qed.

Lemma minmax_scale_keeps (s : list float) :
  Forall (fun c => c <> None) s \/ Forall (eq None) s ->
  Forall (fun c => c <> None) (minmax_scale s).
Proof.
  intro H. unfold minmax_scale.
  destruct (fgt (smax s) (smin s)) eqn:G.
  - destruct H as [H | H].
    + unfold smin, smax in *.
      destruct (valid s) as [| v vs]; [discriminate |].
      apply Forall_forall. intros c Hc. apply in_map_iff in Hc as [[x |] [<- Hin]].
      * discriminate.
      * rewrite Forall_forall in H. now specialize (H _ Hin).
    + unfold smin, smax in G. rewrite (valid_all_none _ H) in G. discriminate.
  - apply Forall_forall. intros c Hc. apply in_map_iff in Hc as [_ [<- _]]. discriminate.
Qed.

(** A finished column is made of numbers of [0, 100], unless it is an
    inverted column without any observation, which stays NaN. *)
Lemma finish_column_cases (d : Dim) (s : list float) :
  Forall in_range (finish_column d s) \/
  (should_invert d = true /\ valid s = [] /\ Forall (eq None) (finish_column d s)).
Proof.
  pose proof (finish_column_range d s) as R.
  assert (K : Forall (fun c => c <> None) (finish_column d s) -> Forall in_range (finish_column d s)).
  { intro N. rewrite Forall_forall in *. intros c Hc.
    destruct (R _ Hc) as [E | ?]; [| assumption]. now destruct (N _ Hc). }
  assert (M : forall t, Forall (fun c => c <> None) t -> Forall (fun c => c <> None) (map fround1 t)).
  { intros t Ht. apply Forall_forall. intros c Hc. apply in_map_iff in Hc as [[x |] [<- Hin]].
    - discriminate.
    - rewrite Forall_forall in Ht. now specialize (Ht _ Hin). }
  unfold finish_column in *. rewrite normalize_column_eq in *.
  destruct (should_invert d).
  - destruct (fill_column_cases s) as [[_ F] | [V F]].
    + left. apply K, M, invert_scale_keeps, F.
    + right. split; [reflexivity |]. split; [exact V |].
      apply (proj2 (invert_scale_keeps _)) in F.
      apply Forall_forall. intros c Hc. apply in_map_iff in Hc as [c0 [<- Hin]].
      rewrite Forall_forall in F. now rewrite <- (F _ Hin).
  - left. apply K, M, minmax_scale_keeps.
    destruct (fill_column_cases s) as [[_ F] | [_ F]]; auto.
Qed.

Lemma invert_scale_below_100 (s : list float) (x : Q) :
  In (Some x) (invert_scale s) -> x < 100.
Proof.
  unfold invert_scale, rank_pct. rewrite map_map. intro H.
  apply in_map_iff in H as [[y |] [E Hin]]; [| discriminate].
  apply valid_In in Hin.
  pose proof (invert_cell_range _ _ Hin) as [A B].
  assert (P : 0 < Qlen (valid s)).
  { pose proof (rank_avg_bounds _ _ Hin). lra. }
  assert (Q0 : 0 < 100 / Qlen (valid s)) by (apply Qlt_shift_div_l; lra).
  unfold fmul, fsub, lift2 in E. injection E as <-. lra.
Qed.

Lemma mean_const (v : Q) (s : list float) (m : Q) :
  (forall x, In (Some x) s -> x == v) -> mean s = Some m -> m == v.
Proof.
  intros H E. unfold mean in E.
  destruct (valid s) as [| y ys] eqn:V; [discriminate |].
  injection E as <-.
  assert (A : Forall (fun x => v <= x <= v) (y :: ys)).
  { apply Forall_forall. intros x Hx. rewrite <- V in Hx. apply valid_In in Hx.
    specialize (H _ Hx). lra. }
  pose proof (Qsum_bounds v v _ A) as [L U].
  pose proof (Qlen_pos y ys) as P.
  assert (S : Qsum (y :: ys) == v * Qlen (y :: ys)) by lra.
  rewrite S. field. lra.
Qed.

Lemma fill_column_const (v : Q) (s : list float) :
  (forall x, In (Some x) s -> x == v) ->
  forall x, In (Some x) (fill_column s) -> x == v.
Proof.
  intros H x Hx. unfold fill_column, fillna in Hx.
  destruct (existsb isna s); [| auto].
  apply in_map_iff in Hx as [[y |] [E Hin]].
  - injection E as <-. auto.
  - eapply mean_const; eauto.
Qed.

Lemma minmax_scale_const (v : Q) (s : list float) :
  (forall x, In (Some x) s -> x == v) ->
  minmax_scale s = map (fun _ => Some 50) s.
Proof.
  intro H. unfold minmax_scale, smin, smax.
  destruct (valid s) as [| y ys] eqn:V; [reflexivity |].
  assert (A : forall z, In z (y :: ys) -> z == v).
  { intros z Hz. rewrite <- V in Hz. apply valid_In in Hz. auto. }
  assert (Hy : y == v) by (apply A; simpl; auto).
  assert (Hys : forall z, In z ys -> z == v) by (intros; apply A; simpl; auto).
  pose proof (Qmin_list_const v ys y Hy Hys) as Emin.
  pose proof (Qmax_list_const v ys y Hy Hys) as Emax.
  unfold fgt. destruct (Qlt_le_dec _ _) as [L | L]; [lra | reflexivity].
Qed.

Lemma finish_column_const (d : Dim) (v : Q) (s : list float) :
  should_invert d = false ->
  (forall x, In (Some x) s -> x == v) ->
  Forall (is_num 50) (finish_column d s).
Proof.
  intros I H. unfold finish_column. rewrite normalize_column_eq, I.
  rewrite (minmax_scale_const v) by (apply fill_column_const, H).
  rewrite map_map. apply Forall_forall. intros c Hc.
  apply in_map_iff in Hc as [_ [<- _]]. vm_compute. reflexivity.
Qed.

(** C1.  The claim says that after the transform every dimension value of
    every surviving country lies in [0, 100].  On the table [wide_sparse] the
    only surviving country, Borduria, has no homicide observation and the
    country that had one is removed: the mean that should fill the cell is
    NaN, the percentile rank of NaN is NaN, and the safety value of Borduria
    in the output is NaN, which is not a number of [0, 100]; the composite
    index of Borduria is the rounded mean of its nine other values, 38.9. *)
Theorem C1_unobserved_inverted_column_is_nan :
  country (table (transform Examples.wide_sparse)) = ["Borduria"%string] /\
  value_of (table (transform Examples.wide_sparse)) "Borduria" safety = Some None /\
  ~ in_range None /\
  exists q, composite_for (transform Examples.wide_sparse) "Borduria" = Some (Some q) /\
            q == 389 # 10.
Proof.
  split; [vm_compute; reflexivity |].
  split; [vm_compute; reflexivity |].
  split; [intros [] |].
  eexists. split; [vm_compute; reflexivity | reflexivity].
Qed.

(** C2.  The claim says that the country with the lowest raw value of an
    inverted dimension receives exactly 100.  Finland has the lowest homicide
    rate of [wide4]; its percentile rank is 1/4 and its safety value in the
    output is 75.0, not 100. *)
Theorem C2_lowest_homicides_scores_75 :
  value_of (fill_missing (drop_sparse Examples.wide4)) "Finland" safety = Some (Some (5 # 10)) /\
  smin [Some (5 # 10); Some (6 # 10); Some (45 # 10); Some (250 # 10)] = Some (5 # 10) /\
  exists q, value_of (table (transform Examples.wide4)) "Finland" safety = Some (Some q) /\
            q == 75 /\ ~ q == 100.
Proof.
  split; [vm_compute; reflexivity |].
  split; [vm_compute; reflexivity |].
  eexists. split; [vm_compute; reflexivity |].
  split; [reflexivity | discriminate].
Qed.

(** A dimension that is not inverted, with a cell for every surviving country
    and one value [v] in all of them: the guard of the min-max branch gives
    every country 50.0.  (No cell is missing, so that no mean is taken.) *)
Lemma constant_column_gives_50 (df : DataFrame) (i : nat) (d : Dim)
  (s : list float) (v : Q) :
  nth_error (columns (drop_sparse df)) i = Some (d, s) ->
  should_invert d = false ->
  Forall (is_num v) s ->
  exists s', nth_error (columns (table (transform df))) i = Some (d, s') /\
             List.length s' = List.length s /\
             Forall (is_num 50) s'.
Proof.
  intros Hn Hi Hc.
  assert (Hv : forall x, In (Some x) s -> x == v).
  { intros x Hx. rewrite Forall_forall in Hc. exact (Hc _ Hx). }
  exists (finish_column d s). split; [| split].
  - rewrite transform_columns, nth_error_map, Hn. reflexivity.
  - unfold finish_column. rewrite length_map, normalize_column_eq, Hi.
    rewrite (minmax_scale_const v) by (apply fill_column_const, Hv).
    rewrite length_map. unfold fill_column, fillna.
    destruct (existsb isna s); [apply length_map | reflexivity].
  - apply (finish_column_const d v); assumption.
Qed.

(** C3.  The claim says that a constant column gives every country 50.0,
    for inverted dimensions as well.  The guard for [max_val > min_val] is
    written in the min-max branch only.  In [wide4] no cell is missing, the
    health column (not inverted) is 80 for the four countries and the housing
    column (inverted) is 20 for the four countries: health becomes 50.0 for
    every country, housing becomes 37.5 for every country, the average
    percentile rank of four equal values being 2.5 / 4. *)
Theorem C3_inverted_constant_column_scores_37_5 :
  should_invert health = false /\
  column_of health (columns (drop_sparse Examples.wide4))
    = Some [Some 80; Some 80; Some 80; Some 80] /\
  (exists s', column_of health (columns (table (transform Examples.wide4))) = Some s' /\
              List.length s' = 4%nat /\ Forall (is_num 50) s') /\
  should_invert housing = true /\
  column_of housing (columns (drop_sparse Examples.wide4))
    = Some [Some 20; Some 20; Some 20; Some 20] /\
  (exists s', column_of housing (columns (table (transform Examples.wide4))) = Some s' /\
              List.length s' = 4%nat /\ Forall (is_num (375 # 10)) s' /\
              Forall (fun c => ~ is_num 50 c) s').
Proof.
  split; [reflexivity |].
  split; [vm_compute; reflexivity |].
  split.
  { eexists. split; [vm_compute; reflexivity |].
    split; [reflexivity |]. repeat constructor. }
  split; [reflexivity |].
  split; [vm_compute; reflexivity |].
  eexists. split; [vm_compute; reflexivity |].
  split; [reflexivity |].
  split; repeat constructor; discriminate.
Qed.

End TransformFacts.

(** ** Tables of the dashboard *)

Module DashFacts.
Import Num Dash.

Lemma lookup_assign_same (k : string) (c : Column) (l : list (string * Column)) :
  lookup k (assign k c l) = Some c.
Proof.
  induction l as [| [k' c'] t IH]; simpl.
  - now rewrite String.eqb_refl.
  - destruct (String.eqb k' k) eqn:E; simpl.
    + now rewrite String.eqb_refl.
    + now rewrite E.
Qed.

Lemma lookup_assign_other (k k' : string) (c : Column) (l : list (string * Column)) :
  k' <> k -> lookup k' (assign k c l) = lookup k' l.
Proof.
  intro N. induction l as [| [k0 c0] t IH]; simpl.
  - destruct (String.eqb_spec k k'); [congruence | reflexivity].
  - destruct (String.eqb_spec k0 k) as [-> | Hk]; simpl.
    + destruct (String.eqb_spec k k'); [congruence | reflexivity].
    + destruct (String.eqb k0 k'); [reflexivity | exact IH].
Qed.

Lemma getitem_setitem_same (df : DataFrame) (k : string) (c : Column) :
  getitem (setitem df k c) k = Ok c.
Proof. unfold getitem, setitem. cbn [cols]. now rewrite lookup_assign_same. Qed.

Lemma getitem_setitem_other (df : DataFrame) (k k' : string) (c : Column) :
  k' <> k -> getitem (setitem df k c) k' = getitem df k'.
Proof.
  intro N. unfold getitem, setitem. cbn [cols]. now rewrite lookup_assign_other.
Qed.

Lemma length_map2 (f : Q -> Q -> Q) (a b : list Q) :
  List.length (map2 f a b) = Nat.min (List.length a) (List.length b).
Proof.
  revert b. induction a as [| u a IH]; intros [| v b]; simpl; auto.
Qed.

Lemma nth_map2 (f : Q -> Q -> Q) (a b : list Q) (i : nat) :
  (i < List.length a)%nat -> (i < List.length b)%nat ->
  nth i (map2 f a b) 0 = f (nth i a 0) (nth i b 0).
Proof.
  revert b i. induction a as [| u a IH]; intros [| v b] [| i]; simpl; intros; try lia; auto.
  apply IH; lia.
Qed.

Lemma nth_map_Q (f : Q -> Q) (a : list Q) (i : nat) :
  (i < List.length a)%nat -> nth i (map f a) 0 = f (nth i a 0).
Proof.
  intro H. rewrite (nth_indep _ 0 (f 0)) by (now rewrite length_map).
  apply map_nth.
Qed.

End DashFacts.

(** ** The policy simulation (mode a) *)

Module PolicyFacts.
Import Num Dash DashFacts Policy.

Ltac neq_str := let H := fresh in intro H; discriminate H.

Ltac step_get :=
  repeat first
    [ rewrite getitem_setitem_same
    | rewrite getitem_setitem_other by neq_str ].

Lemma simulate_columns (df : DataFrame) (b : Dimensions) (k : string) (be bd bj : Q) :
  holds df b -> In k dimension_options ->
  exists df_sim,
    simulate df (VStr k) (VNum be) (VNum bd) (VNum bj) = Ok df_sim /\
    getitem df_sim "environment_sim" = Ok (NumCol (boosted (environment b) be)) /\
    getitem df_sim "education_sim" = Ok (NumCol (boosted (education b) bd)) /\
    getitem df_sim "jobs_sim" = Ok (NumCol (boosted (jobs b) bj)) /\
    getitem df_sim "life_satisfaction_sim"
      = Ok (NumCol (sum_of (boosted (environment b) be) (boosted (education b) bd)
                           (boosted (jobs b) bj) (safety b) (income b) (housing b)
                           (health b) (work_life_balance b) (social_connections b))) /\
    getitem df_sim "dimension_sim"
      = (if String.eqb k "environment" then Ok (NumCol (boosted (environment b) be))
         else if String.eqb k "education" then Ok (NumCol (boosted (education b) bd))
         else if String.eqb k "jobs" then Ok (NumCol (boosted (jobs b) bj))
         else getitem df k) /\
    (forall k', In k' dimension_options -> getitem df_sim k' = getitem df k').
Proof.
  intros (He & Hd & Hj & Hsa & Hin & Hho & Hhe & Hw & Hso & _) Hk.
  unfold simulate, apply_boost, cap.
  rewrite He. cbn [bind number col_scale numeric].
  step_get. rewrite Hd. cbn [bind number col_scale numeric].
  step_get. rewrite Hj. cbn [bind number col_scale numeric].
  step_get. cbn [bind col_minimum numeric].
  step_get. cbn [bind col_minimum numeric].
  step_get. cbn [bind col_minimum numeric].
  unfold weighted_sum, sum_terms, product. cbn [fold_left fst snd].
  step_get. rewrite Hsa, Hin, Hho, Hhe, Hw, Hso.
  cbn [bind col_scale col_add numeric].
  fold (boosted (environment b) be) (boosted (education b) bd) (boosted (jobs b) bj).
  fold (sum_of (boosted (environment b) be) (boosted (education b) bd)
               (boosted (jobs b) bj) (safety b) (income b) (housing b)
               (health b) (work_life_balance b) (social_connections b)).
  set (S := sum_of _ _ _ _ _ _ _ _ _).
  set (E := boosted (environment b) be).
  set (D := boosted (education b) bd).
  set (J := boosted (jobs b) bj).
  assert (Hother : forall k', In k' dimension_options ->
     getitem (setitem (setitem (setitem (setitem (setitem (setitem (setitem df
       "environment_sim" (NumCol (map (fun v => v * (1 + be / 100)) (environment b))))
       "education_sim" (NumCol (map (fun v => v * (1 + bd / 100)) (education b))))
       "jobs_sim" (NumCol (map (fun v => v * (1 + bj / 100)) (jobs b))))
       "environment_sim" (NumCol E)) "education_sim" (NumCol D)) "jobs_sim" (NumCol J))
       "life_satisfaction_sim" (NumCol S)) k' = getitem df k').
  { intros k' Hk'. simpl in Hk'.
    repeat (destruct Hk' as [<- | Hk']; [step_get; reflexivity |]). destruct Hk'. }
  simpl in Hk.
  repeat (destruct Hk as [Hk | Hk];
    [ subst k; unfold value_eqb, getitem_value;
      simpl (String.eqb _ _); simpl (_ ++ _)%string; step_get;
      rewrite ?Hsa, ?Hin, ?Hho, ?Hhe, ?Hw, ?Hso;
      cbn [bind]; eexists; split; [reflexivity |];
      step_get; repeat split; try reflexivity;
      intros k' Hk'; rewrite getitem_setitem_other;
      [ apply Hother, Hk'
      | simpl in Hk'; intuition (subst; discriminate) ] | ]).
  destruct Hk.
Qed.

Lemma cell_of_getitem (df : DataFrame) (k : string) (l : list Q) (i : nat) :
  getitem df k = Ok (NumCol l) -> (i < List.length l)%nat ->
  cell df k i = Some (nth i l 0).
Proof.
  unfold getitem, cell. destruct (lookup k (cols df)) as [c |]; [| discriminate].
  intros E H. injection E as ->. now apply nth_error_nth'.
Qed.

Lemma cell_ext (df df' : DataFrame) (k : string) (i : nat) :
  getitem df' k = getitem df k -> cell df' k i = cell df k i.
Proof.
  unfold getitem, cell.
  destruct (lookup k (cols df')), (lookup k (cols df)); intro E;
    try discriminate; [injection E as -> |]; reflexivity.
Qed.

Lemma length_boosted (l : list Q) (b : Q) : List.length (boosted l b) = List.length l.
Proof. unfold boosted. now rewrite !length_map. Qed.

Lemma nth_boosted (l : list Q) (b : Q) (i : nat) :
  (i < List.length l)%nat ->
  nth i (boosted l b) 0 = Qmin (nth i l 0 * (1 + b / 100)) 100.
Proof.
  intro H. unfold boosted.
  rewrite nth_map_Q by (now rewrite length_map). now rewrite nth_map_Q.
Qed.

Lemma boosted_is_spec (raw b : Q) : Qmin (raw * (1 + b / 100)) 100 == spec_boosted raw b.
Proof. unfold spec_boosted. apply Q.min_comm. Qed.

Lemma length_sum_of (n : nat) (e d j sa inc ho he w so : list Q) :
  Forall (fun l : list Q => List.length l = n) [e; d; j; sa; inc; ho; he; w; so] ->
  List.length (sum_of e d j sa inc ho he w so) = n.
Proof.
  intro H. repeat (apply Forall_cons_iff in H as [? H]).
  unfold sum_of. rewrite !length_map2, !length_map. lia.
Qed.

Lemma nth_sum_of (n i : nat) (e d j sa inc ho he w so : list Q) :
  Forall (fun l : list Q => List.length l = n) [e; d; j; sa; inc; ho; he; w; so] ->
  (i < n)%nat ->
  nth i (sum_of e d j sa inc ho he w so) 0
  == spec_proxy (nth i e 0) (nth i d 0) (nth i j 0) (nth i sa 0) (nth i inc 0)
                (nth i ho 0) (nth i he 0) (nth i w 0) (nth i so 0).
Proof.
  intros H Hi. repeat (apply Forall_cons_iff in H as [? H]).
  unfold sum_of.
  repeat (rewrite nth_map2 by (rewrite ?length_map2, ?length_map; lia)).
  repeat (rewrite nth_map_Q by lia).
  unfold spec_proxy.
  change (weight "environment") with (15 # 100).
  change (weight "education") with (15 # 100).
  change (weight "jobs") with (20 # 100).
  change (weight "safety") with (10 # 100).
  change (weight "income") with (10 # 100).
  change (weight "housing") with (10 # 100).
  change (weight "health") with (10 # 100).
  change (weight "work_life_balance") with (5 # 100).
  change (weight "social_connections") with (5 # 100).
  ring.
Qed.

(** The rows of a simulated table, for a base table that has the nine
    dimensions. *)
Lemma simulate_rows (df : DataFrame) (b : Dimensions) (k : string) (be bd bj : Q) :
  holds df b -> In k dimension_options ->
  exists df_sim,
    simulate df (VStr k) (VNum be) (VNum bd) (VNum bj) = Ok df_sim /\
    forall i, (i < height df)%nat ->
      let e := Qmin (nth i (environment b) 0 * (1 + be / 100)) 100 in
      let d := Qmin (nth i (education b) 0 * (1 + bd / 100)) 100 in
      let j := Qmin (nth i (jobs b) 0 * (1 + bj / 100)) 100 in
      cell df_sim "environment_sim" i = Some e /\
      cell df_sim "education_sim" i = Some d /\
      cell df_sim "jobs_sim" i = Some j /\
      (exists ls, cell df_sim "life_satisfaction_sim" i = Some ls /\
         ls == spec_proxy e d j (nth i (safety b) 0) (nth i (income b) 0)
                 (nth i (housing b) 0) (nth i (health b) 0)
                 (nth i (work_life_balance b) 0) (nth i (social_connections b) 0)) /\
      cell df_sim "dimension_sim" i
        = (if String.eqb k "environment" then Some e
           else if String.eqb k "education" then Some d
           else if String.eqb k "jobs" then Some j
           else cell df k i) /\
      (forall k', In k' dimension_options -> cell df_sim k' i = cell df k' i).
Proof.
  intros Hb Hk.
  destruct (simulate_columns df b k be bd bj Hb Hk)
    as (df_sim & Hs & He & Hd & Hj & Hl & Hdim & Hother).
  exists df_sim. split; [exact Hs |]. intros i Hi e d j.
  destruct Hb as (Be & Bd & Bj & Bsa & Bin & Bho & Bhe & Bw & Bso & Len).
  pose proof Len as Len'.
  repeat (apply Forall_cons_iff in Len' as [? Len']).
  assert (Ce : cell df_sim "environment_sim" i = Some e).
  { rewrite (cell_of_getitem _ _ _ _ He) by (rewrite length_boosted; lia).
    now rewrite nth_boosted by lia. }
  assert (Cd : cell df_sim "education_sim" i = Some d).
  { rewrite (cell_of_getitem _ _ _ _ Hd) by (rewrite length_boosted; lia).
    now rewrite nth_boosted by lia. }
  assert (Cj : cell df_sim "jobs_sim" i = Some j).
  { rewrite (cell_of_getitem _ _ _ _ Hj) by (rewrite length_boosted; lia).
    now rewrite nth_boosted by lia. }
  assert (LenB : Forall (fun l : list Q => List.length l = height df)
            [ boosted (environment b) be; boosted (education b) bd;
              boosted (jobs b) bj; safety b; income b; housing b; health b;
              work_life_balance b; social_connections b ]).
  { repeat constructor; rewrite ?length_boosted; assumption. }
  split; [exact Ce |]. split; [exact Cd |]. split; [exact Cj |]. split; [| split].
  - eexists. split.
    + apply (cell_of_getitem _ _ _ _ Hl). rewrite (length_sum_of (height df)); assumption.
    + rewrite (nth_sum_of (height df)) by assumption.
      rewrite !nth_boosted by lia. reflexivity.
  - unfold cell in *. unfold getitem in Hdim.
    destruct (String.eqb k "environment"); [| destruct (String.eqb k "education");
      [| destruct (String.eqb k "jobs")]].
    + destruct (lookup "dimension_sim" (cols df_sim)); [| discriminate].
      injection Hdim as ->. rewrite <- Ce.
      unfold getitem in He. destruct (lookup "environment_sim" (cols df_sim)); [| discriminate].
      now injection He as ->.
    + destruct (lookup "dimension_sim" (cols df_sim)); [| discriminate].
      injection Hdim as ->. rewrite <- Cd.
      unfold getitem in Hd. destruct (lookup "education_sim" (cols df_sim)); [| discriminate].
      now injection Hd as ->.
    + destruct (lookup "dimension_sim" (cols df_sim)); [| discriminate].
      injection Hdim as ->. rewrite <- Cj.
      unfold getitem in Hj. destruct (lookup "jobs_sim" (cols df_sim)); [| discriminate].
      now injection Hj as ->.
    + destruct (lookup "dimension_sim" (cols df_sim)), (lookup k (cols df));
        try discriminate; [injection Hdim as -> |]; reflexivity.
  - intros k' Hk'. apply cell_ext, Hother, Hk'.
Qed.

(** C4.  In mode (a), on every base table that has the nine dimensions and
    for all boosts: the simulation returns, each of the three boosted
    dimensions is [min(100, raw * (1 + boost/100))] and so is at most 100, the
    dimension columns of the base are unchanged, the plotted dimension is the
    boosted column for a boosted dimension and the base column otherwise, and
    the simulated life satisfaction is the weighted sum of the nine with the
    weights of the specification. *)
Theorem C4_mode_a_boost_cap_and_weighted_sum (df : DataFrame) (b : Dimensions)
  (k : string) (be bd bj : Q) :
  holds df b -> In k dimension_options ->
  exists df_sim,
    simulate df (VStr k) (VNum be) (VNum bd) (VNum bj) = Ok df_sim /\
    forall i, (i < height df)%nat ->
      exists e d j ls,
        cell df_sim "environment_sim" i = Some e /\
        e == spec_boosted (nth i (environment b) 0) be /\
        cell df_sim "education_sim" i = Some d /\
        d == spec_boosted (nth i (education b) 0) bd /\
        cell df_sim "jobs_sim" i = Some j /\
        j == spec_boosted (nth i (jobs b) 0) bj /\
        e <= 100 /\ d <= 100 /\ j <= 100 /\
        cell df_sim "life_satisfaction_sim" i = Some ls /\
        ls == spec_proxy e d j (nth i (safety b) 0) (nth i (income b) 0)
                (nth i (housing b) 0) (nth i (health b) 0)
                (nth i (work_life_balance b) 0) (nth i (social_connections b) 0) /\
        cell df_sim "dimension_sim" i
          = (if String.eqb k "environment" then Some e
             else if String.eqb k "education" then Some d
             else if String.eqb k "jobs" then Some j
             else cell df k i) /\
        (forall k', In k' dimension_options -> cell df_sim k' i = cell df k' i).
Proof.
  intros Hb Hk.
  destruct (simulate_rows df b k be bd bj Hb Hk) as (df_sim & Hs & Hrows).
  exists df_sim. split; [exact Hs |]. intros i Hi.
  destruct (Hrows i Hi) as (Ce & Cd & Cj & (ls & Cl & El) & Cdim & Co).
  exists (Qmin (nth i (environment b) 0 * (1 + be / 100)) 100),
         (Qmin (nth i (education b) 0 * (1 + bd / 100)) 100),
         (Qmin (nth i (jobs b) 0 * (1 + bj / 100)) 100), ls.
  split; [exact Ce |]. split; [apply boosted_is_spec |].
  split; [exact Cd |]. split; [apply boosted_is_spec |].
  split; [exact Cj |]. split; [apply boosted_is_spec |].
  split; [apply Q.le_min_r |]. split; [apply Q.le_min_r |].
  split; [apply Q.le_min_r |].
  split; [exact Cl |]. split; [exact El |]. split; [exact Cdim | exact Co].
Qed.

Lemma nations_hold : holds Examples.nations Examples.nations_dimensions.
Proof. repeat split; repeat constructor. Qed.

Lemma C4_mode_a_boost_cap_and_weighted_sum_witness :
  exists df_sim,
    simulate Examples.nations (VStr "safety") (VNum 50) (VNum 0) (VNum 10) = Ok df_sim /\
    forall i, (i < 3)%nat ->
      exists e d j ls,
        cell df_sim "environment_sim" i = Some e /\
        e == spec_boosted (nth i [90; 80; 50] 0) 50 /\
        cell df_sim "education_sim" i = Some d /\
        d == spec_boosted (nth i [80; 90; 70] 0) 0 /\
        cell df_sim "jobs_sim" i = Some j /\
        j == spec_boosted (nth i [70; 75; 80] 0) 10 /\
        e <= 100 /\ d <= 100 /\ j <= 100 /\
        cell df_sim "life_satisfaction_sim" i = Some ls /\
        ls == spec_proxy e d j (nth i [75; 50; 25] 0) (nth i [60; 65; 100] 0)
                (nth i [50; 45; 40] 0) (nth i [80; 75; 50] 0)
                (nth i [70; 90; 30] 0) (nth i [90; 95; 60] 0) /\
        cell df_sim "dimension_sim" i = cell Examples.nations "safety" i /\
        (forall k', In k' dimension_options -> cell df_sim k' i = cell Examples.nations k' i).
Proof.
  apply (C4_mode_a_boost_cap_and_weighted_sum Examples.nations
           Examples.nations_dimensions "safety" 50 0 10).
  - repeat split; repeat constructor.
  - simpl. tauto.
Defined.

Lemma boosted_cell_range (raw boost : Q) :
  0 <= raw -> 0 <= boost ->
  0 <= Qmin (raw * (1 + boost / 100)) 100 <= 100.
Proof.
  intros Hr Hb. split; [| apply Q.le_min_r].
  apply Q.min_glb; [| lra].
  apply Qmult_le_0_compat; [exact Hr |].
  assert (0 <= boost / 100) by (apply Qle_shift_div_l; lra). lra.
Qed.

(** C9.  In mode (a), for every row whose nine dimension values lie in
    [0, 100] and for all nonnegative boosts, the simulation returns and the
    simulated life satisfaction of the row lies in [0, 100]. *)
Theorem C9_mode_a_proxy_within_0_100 (df : DataFrame) (b : Dimensions)
  (k : string) (be bd bj : Q) (i : nat) :
  holds df b -> In k dimension_options ->
  0 <= be -> 0 <= bd -> 0 <= bj ->
  (i < height df)%nat ->
  Forall (fun l : list Q => 0 <= nth i l 0 <= 100)
    [ environment b; education b; jobs b; safety b; income b; housing b;
      health b; work_life_balance b; social_connections b ] ->
  exists df_sim ls,
    simulate df (VStr k) (VNum be) (VNum bd) (VNum bj) = Ok df_sim /\
    cell df_sim "life_satisfaction_sim" i = Some ls /\
    0 <= ls <= 100.
Proof.
  intros Hb Hk He Hd Hj Hi R.
  destruct (simulate_rows df b k be bd bj Hb Hk) as (df_sim & Hs & Hrows).
  destruct (Hrows i Hi) as (_ & _ & _ & (ls & Cl & El) & _).
  exists df_sim, ls. split; [exact Hs |]. split; [exact Cl |].
  repeat (apply Forall_cons_iff in R as [? R]).
  pose proof (boosted_cell_range (nth i (environment b) 0) be) as Re.
  pose proof (boosted_cell_range (nth i (education b) 0) bd) as Rd.
  pose proof (boosted_cell_range (nth i (jobs b) 0) bj) as Rj.
  rewrite El. unfold spec_proxy. lra.
Qed.

Lemma C9_mode_a_proxy_within_0_100_witness :
  exists df_sim ls,
    simulate Examples.nations (VStr "jobs") (VNum 50) (VNum 25) (VNum 0) = Ok df_sim /\
    cell df_sim "life_satisfaction_sim" 1 = Some ls /\
    0 <= ls <= 100.
Proof.
  apply (C9_mode_a_proxy_within_0_100 Examples.nations Examples.nations_dimensions
           "jobs" 50 25 0 1).
  - repeat split; repeat constructor.
  - simpl. tauto.
  - lra.
  - lra.
  - lra.
  - simpl. lia.
  - repeat constructor; simpl; lra.
Defined.

End PolicyFacts.

(** ** The simulation insight (mode b) *)

Module SimulatorFacts.
Import Num Dash DashFacts Simulator.

(** What the simulation of mode (b) returns on a table that has the life
    satisfaction and the chosen dimension as numeric columns. *)
Lemma simulate_values (pearson : list Q -> list Q -> float)
  (df country_data : DataFrame) (k : string) (imp cur_ls cur_d : Q)
  (r1 r2 ls dcol : list Q) :
  getitem country_data "life_satisfaction" = Ok (NumCol (cur_ls :: r1)) ->
  getitem country_data k = Ok (NumCol (cur_d :: r2)) ->
  getitem df "life_satisfaction" = Ok (NumCol ls) ->
  getitem df k = Ok (NumCol dcol) ->
  simulate pearson df country_data (VStr k) (VNum imp)
  = Ok {| current_life_sat := VNum cur_ls;
          current_dimension_val := VNum cur_d;
          estimated_life_sat_increase :=
            fmul (fmul (Some imp) (pearson ls dcol)) (Some (3 # 10));
          new_life_sat :=
            fadd (Some cur_ls) (fmul (fmul (Some imp) (pearson ls dcol)) (Some (3 # 10)));
          new_dimension_val := cur_d + imp |}.
Proof.
  intros H1 H2 H3 H4. unfold simulate, getitem_value.
  rewrite H1, H2, H3, H4. reflexivity.
Qed.

(** C6.  In mode (b), on a table that has the two columns: the simulation
    returns; the simulated dimension value is the value of the country plus
    the improvement, whatever the sum is (nothing caps it at 100); the
    simulated life satisfaction is the life satisfaction of the country plus
    improvement x correlation x 0.3, the correlation being taken between the
    life-satisfaction column and the dimension column of the whole filtered
    table; it is NaN when the correlation is. *)
Theorem C6_mode_b_uncapped_sum_and_correlation (pearson : list Q -> list Q -> float)
  (df country_data : DataFrame) (k : string) (imp cur_ls cur_d : Q)
  (r1 r2 ls dcol : list Q) :
  getitem country_data "life_satisfaction" = Ok (NumCol (cur_ls :: r1)) ->
  getitem country_data k = Ok (NumCol (cur_d :: r2)) ->
  getitem df "life_satisfaction" = Ok (NumCol ls) ->
  getitem df k = Ok (NumCol dcol) ->
  exists s,
    simulate pearson df country_data (VStr k) (VNum imp) = Ok s /\
    new_dimension_val s = cur_d + imp /\
    (100 < cur_d + imp -> 100 < new_dimension_val s) /\
    (forall r, pearson ls dcol = Some r ->
       exists q, new_life_sat s = Some q /\ q == cur_ls + imp * r * (3 # 10)) /\
    (pearson ls dcol = None -> new_life_sat s = None).
Proof.
  intros H1 H2 H3 H4. eexists. split; [eapply simulate_values; eassumption |].
  cbn [new_dimension_val new_life_sat].
  split; [reflexivity |]. split; [auto |]. split.
  - intros r ->. eexists. split; [reflexivity |]. reflexivity.
  - intros ->. reflexivity.
Qed.

Lemma C6_mode_b_uncapped_sum_and_correlation_witness :
  exists s,
    simulate Examples.pearson_example Examples.nations
      (select_rows [true; false; false] Examples.nations)
      (VStr "environment") (VNum 25) = Ok s /\
    new_dimension_val s = 90 + 25 /\
    (100 < 90 + 25 -> 100 < new_dimension_val s) /\
    (forall r, Examples.pearson_example [100; 90; 60] [90; 80; 50] = Some r ->
       exists q, new_life_sat s = Some q /\ q == 100 + 25 * r * (3 # 10)) /\
    (Examples.pearson_example [100; 90; 60] [90; 80; 50] = None -> new_life_sat s = None).
Proof.
  apply (C6_mode_b_uncapped_sum_and_correlation Examples.pearson_example
           Examples.nations (select_rows [true; false; false] Examples.nations)
           "environment" 25 100 90 [] [] [100; 90; 60] [90; 80; 50]);
    reflexivity.
Defined.

(** On the example table the simulated point of Finland, 90 + 25 = 115, is
    plotted beyond 100. *)
Example finland_plus_25_is_plotted_at_115 :
  exists fig narrative,
    update unit (Ok Examples.nations) Examples.keep_all Examples.no_traceback
      Examples.pearson_example
      {| country_control := Some (VStr "Finland");
         dimension_control := Some (VStr "environment");
         improvement_control := Some (VNum 25);
         filters := tt |} = (fig, narrative, []) /\
    In (point [Str (VStr "Finland"); Lit " (Simulated)"]
              (CNum (Some 115)) (CNum (Some (1075 # 10)))) (data fig).
Proof.
  eexists _, _. split; [vm_compute; reflexivity |].
  simpl. tauto.
Qed.

End SimulatorFacts.

(** ** Zero inputs, in both modes *)

Module ZeroInputFacts.
Import Num Dash DashFacts.

(** C5, as stated, fails in both modes.  Mode (a), all boosts zero, on the
    example table: the simulated life satisfaction of Finland is the weighted
    sum of its nine dimensions, 74, while the life satisfaction of its base
    record is 100.  Mode (b), improvement zero, on the table filtered down to
    the United States: the correlation over one row is NaN, and the simulated
    life satisfaction that is plotted is NaN, while the base value is 60. *)
Lemma C5_zero_inputs_counterexample :
  (exists df_sim q,
     Policy.simulate Examples.nations (VStr "environment") (VNum 0) (VNum 0) (VNum 0)
       = Ok df_sim /\
     Policy.cell df_sim "life_satisfaction_sim" 0 = Some q /\
     Policy.cell Examples.nations "life_satisfaction" 0 = Some 100 /\
     q == 74 /\ ~ q == 100) /\
  (exists fig narrative,
     Simulator.update unit (Ok Examples.one_nation) Examples.keep_all
       Examples.no_traceback Examples.pearson_example
       {| Simulator.country_control := Some (VStr "United States");
          Simulator.dimension_control := Some (VStr "environment");
          Simulator.improvement_control := Some (VNum 0);
          Simulator.filters := tt |} = (fig, narrative, []) /\
     In (Simulator.point [Str (VStr "United States"); Lit " (Current)"]
           (CNum (Some 50)) (CNum (Some 60))) (data fig) /\
     In (Simulator.point [Str (VStr "United States"); Lit " (Simulated)"]
           (CNum (Some 50)) (CNum None)) (data fig)).
Proof.
  split.
  - eexists _, _. split; [vm_compute; reflexivity |].
    split; [vm_compute; reflexivity |]. split; [reflexivity |].
    split; [reflexivity | discriminate].
  - eexists _, _. split; [vm_compute; reflexivity |].
    split; simpl; tauto.
Qed.

Lemma positive_zero (z : Q) : z == 0 -> Policy.positive (VNum z) = false.
Proof.
  intro H. unfold Policy.positive. destruct (Qlt_le_dec 0 z); [lra | reflexivity].
Qed.

Lemma zero_boost_cell (raw z : Q) :
  z == 0 -> raw <= 100 -> Qmin (raw * (1 + z / 100)) 100 == raw.
Proof.
  intros Hz Hr. rewrite Hz.
  setoid_replace (raw * (1 + 0 / 100)) with raw by field.
  apply Q.min_l, Hr.
Qed.

(** C5, amended.  Mode (a): when the three boosts are zero, on a non-empty
    table that has the columns, the simulated value of each boosted
    dimension equals the base value wherever that is at most 100, no
    simulated position is drawn, and the figure that [update] returns holds
    the current positions only, which are the values of the base table
    (the weighted-sum life satisfaction is computed but not output).
    Mode (b): when the improvement is zero, the simulated dimension value
    equals the base value and, when the correlation is a number, the
    simulated life satisfaction equals the base life satisfaction. *)
Theorem C5_zero_inputs_keep_base_values
  (Filters : Type) (get_data : Result DataFrame)
  (filter_data : DataFrame -> Filters -> Result DataFrame)
  (format_exc : Exn -> string) (kwargs : Policy.Kwargs Filters)
  (data df : DataFrame) (b : Policy.Dimensions) (k : string)
  (dcol y t : Column) (ze zd zj : Q)
  (pearson : list Q -> list Q -> float) (df' country_data : DataFrame)
  (k' : string) (z cur_ls cur_d r : Q) (r1 r2 ls dcol' : list Q) :
  get_data = Ok data ->
  filter_data data (Policy.filters Filters kwargs) = Ok df ->
  height df <> 0%nat ->
  Policy.holds df b -> In k Policy.dimension_options ->
  getitem df k = Ok dcol ->
  getitem df "life_satisfaction" = Ok y ->
  getitem df "country" = Ok t ->
  get_or_default (Policy.dimension_control Filters kwargs) Policy.dimension_default = VStr k ->
  get_or_default (Policy.environment_slider Filters kwargs) (VNum 0) = VNum ze ->
  get_or_default (Policy.education_slider Filters kwargs) (VNum 0) = VNum zd ->
  get_or_default (Policy.jobs_slider Filters kwargs) (VNum 0) = VNum zj ->
  ze == 0 -> zd == 0 -> zj == 0 ->
  getitem country_data "life_satisfaction" = Ok (NumCol (cur_ls :: r1)) ->
  getitem country_data k' = Ok (NumCol (cur_d :: r2)) ->
  getitem df' "life_satisfaction" = Ok (NumCol ls) ->
  getitem df' k' = Ok (NumCol dcol') ->
  z == 0 ->
  pearson ls dcol' = Some r ->
  (exists df_sim,
     Policy.simulate df (VStr k) (VNum ze) (VNum zd) (VNum zj) = Ok df_sim /\
     forall i, (i < height df)%nat ->
       (nth i (Policy.environment b) 0 <= 100 ->
        exists e, Policy.cell df_sim "environment_sim" i = Some e /\
                  e == nth i (Policy.environment b) 0) /\
       (nth i (Policy.education b) 0 <= 100 ->
        exists e, Policy.cell df_sim "education_sim" i = Some e /\
                  e == nth i (Policy.education b) 0) /\
       (nth i (Policy.jobs b) 0 <= 100 ->
        exists e, Policy.cell df_sim "jobs_sim" i = Some e /\
                  e == nth i (Policy.jobs b) 0)) /\
  Policy.update Filters get_data filter_data format_exc kwargs
  = ({| data := [ {| kind := Scatter; name := [Lit "Current Position"];
                     x := data_of dcol; y := data_of y; text := data_of t;
                     marker_color := [] |} ];
        annotations := [];
        xaxis_title := [Title k];
        yaxis_title := [Lit "Life Satisfaction"] |}, []) /\
  (exists s,
     Simulator.simulate pearson df' country_data (VStr k') (VNum z) = Ok s /\
     Simulator.new_dimension_val s == cur_d /\
     exists q, Simulator.new_life_sat s = Some q /\ q == cur_ls).
Proof.
  intros Hg Hf Hh Hb Hk Hd Hy Ht Cd Ce Cu Cj Ze Zd Zj B1 B2 B3 B4 Zz Hr.
  destruct (PolicyFacts.simulate_rows df b k ze zd zj Hb Hk) as (df_sim & Hs & Hrows).
  split; [| split].
  - exists df_sim. split; [exact Hs |]. intros i Hi.
    destruct (Hrows i Hi) as (Xe & Xd & Xj & _).
    split; [| split]; intro Hle; eexists; (split; [eassumption |]);
      apply zero_boost_cell; assumption.
  - unfold Policy.update, Policy._update_logic, Policy.chart.
    rewrite Hg. cbn [bind]. rewrite Hf. cbn [bind].
    destruct (Nat.eqb_spec (height df) 0) as [E | _]; [contradiction |].
    rewrite Cd, Ce, Cu, Cj, Hs. cbn [bind getitem_value title_of].
    rewrite Hd, Hy, Ht. cbn [bind].
    rewrite !positive_zero by assumption. reflexivity.
  - eexists. split; [eapply SimulatorFacts.simulate_values; eassumption |].
    cbn [Simulator.new_dimension_val Simulator.new_life_sat].
    rewrite Hr. split; [rewrite Zz; ring |].
    eexists. split; [reflexivity |]. rewrite Zz. ring.
Qed.

Lemma C5_zero_inputs_keep_base_values_witness :
  (exists df_sim,
     Policy.simulate Examples.nations (VStr "environment") (VNum 0) (VNum 0) (VNum 0)
       = Ok df_sim /\
     forall i, (i < 3)%nat ->
       (nth i [90; 80; 50] 0 <= 100 ->
        exists e, Policy.cell df_sim "environment_sim" i = Some e /\
                  e == nth i [90; 80; 50] 0) /\
       (nth i [80; 90; 70] 0 <= 100 ->
        exists e, Policy.cell df_sim "education_sim" i = Some e /\
                  e == nth i [80; 90; 70] 0) /\
       (nth i [70; 75; 80] 0 <= 100 ->
        exists e, Policy.cell df_sim "jobs_sim" i = Some e /\
                  e == nth i [70; 75; 80] 0)) /\
  Policy.update unit (Ok Examples.nations) Examples.keep_all Examples.no_traceback
    Examples.zero_boosts
  = ({| data := [ {| kind := Scatter; name := [Lit "Current Position"];
                     x := data_of (NumCol [90; 80; 50]);
                     y := data_of (NumCol [100; 90; 60]);
                     text := data_of (TextCol ["Finland"; "Denmark"; "United States"]%string);
                     marker_color := [] |} ];
        annotations := [];
        xaxis_title := [Title "environment"];
        yaxis_title := [Lit "Life Satisfaction"] |}, []) /\
  (exists s,
     Simulator.simulate Examples.pearson_example Examples.nations
       (select_rows [false; false; true] Examples.nations)
       (VStr "environment") (VNum 0) = Ok s /\
     Simulator.new_dimension_val s == 50 /\
     exists q, Simulator.new_life_sat s = Some q /\ q == 60).
Proof.
  apply (C5_zero_inputs_keep_base_values unit (Ok Examples.nations) Examples.keep_all
           Examples.no_traceback Examples.zero_boosts Examples.nations Examples.nations
           Examples.nations_dimensions "environment"
           (NumCol [90; 80; 50]) (NumCol [100; 90; 60])
           (TextCol ["Finland"; "Denmark"; "United States"]%string) 0 0 0
           Examples.pearson_example Examples.nations
           (select_rows [false; false; true] Examples.nations)
           "environment" 0 60 50 1 [] [] [100; 90; 60] [90; 80; 50]);
    try reflexivity.
  - discriminate.
  - repeat split; repeat constructor.
  - simpl. tauto.
Defined.

End ZeroInputFacts.

(** ** The diagnostic narrative *)

Module DiagnosisFacts.
Import Num Dash DashFacts Diagnosis.
























(** The selection on the example: Safety and Health are the strengths,
    Jobs and Income the weaknesses, in that order, Income is the weakest
    dimension and Finland the top performer. *)
Example selection_on_example :
  let sorted := dimension_gaps Examples.labels4 Examples.gaps4 in
  map fst (strengths_of sorted) = ["Safety"; "Health"]%string /\
  map fst (weaknesses_of sorted) = ["Jobs"; "Income"]%string /\
  worst_dimension_of sorted = "Income"%string /\
  top_performer_of Examples.nations = Ok (VStr "Finland").
Proof. vm_compute. repeat split. Qed.

End DiagnosisFacts.

(** ** The callbacks *)

Module UpdateFacts.
Import Num Dash DashFacts.

Section Boundary.

Variable Filters : Type.
Variable get_data : Result DataFrame.
Variable filter_data : DataFrame -> Filters -> Result DataFrame.
Variable format_exc : Exn -> string.
Variable pearson : list Q -> list Q -> float.

(** C8.  For every input of the three callbacks, whatever the table loader
    and the filter component do, the call of [update] returns a value and no
    exception goes on to Dash.  When the core logic returns, [update] prints
    nothing and returns its result with the empty error text.  When the core
    logic raises [e], [update] prints the error text and returns the
    placeholder, a figure without traces whose one annotation reads "An
    error occurred while updating this chart", together with the error text
    "Error updating chart: " followed by [str(e)], a newline and the
    traceback.  In both cases the values returned are those of [update].
    What the table loader raises, and what the filter component raises, is
    what the core logic raises, so that it is reported in the same way. *)
Theorem C8_update_catches_every_exception
  (kp : Policy.Kwargs Filters) (ks : Simulator.Kwargs Filters)
  (kd : Diagnosis.Kwargs Filters) :
  (forall e, get_data = Raise e ->
     Policy._update_logic Filters get_data filter_data kp = Raise e /\
     Simulator._update_logic Filters get_data filter_data pearson ks = Raise e /\
     Diagnosis._update_logic Filters get_data filter_data kd = Raise e) /\
  (forall data e, get_data = Ok data ->
     (filter_data data (Policy.filters Filters kp) = Raise e ->
      Policy._update_logic Filters get_data filter_data kp = Raise e) /\
     (filter_data data (Simulator.filters Filters ks) = Raise e ->
      Simulator._update_logic Filters get_data filter_data pearson ks = Raise e) /\
     (filter_data data (Diagnosis.filters Filters kd) = Raise e ->
      Diagnosis._update_logic Filters get_data filter_data kd = Raise e)) /\
  ((exists fig,
      Policy._update_logic Filters get_data filter_data kp = Ok fig /\
      Policy.update_run Filters get_data filter_data format_exc kp
      = {| stdout := []; outcome := Ok (fig, []) |}) \/
   (exists e,
      Policy._update_logic Filters get_data filter_data kp = Raise e /\
      Policy.update_run Filters get_data filter_data format_exc kp
      = {| stdout := [ [Lit "Error updating chart: "; Lit (str_of_exn e); Lit "
"; Lit (format_exc e)] ];
           outcome :=
             Ok ({| data := [];
                    annotations :=
                      [Note [Lit "An error occurred while updating this chart"]];
                    xaxis_title := []; yaxis_title := [] |},
                 [Lit "Error updating chart: "; Lit (str_of_exn e); Lit "
"; Lit (format_exc e)]) |})) /\
  outcome (Policy.update_run Filters get_data filter_data format_exc kp)
  = Ok (Policy.update Filters get_data filter_data format_exc kp) /\
  ((exists fig narrative,
      Simulator._update_logic Filters get_data filter_data pearson ks = Ok (fig, narrative) /\
      Simulator.update_run Filters get_data filter_data format_exc pearson ks
      = {| stdout := []; outcome := Ok (fig, narrative, []) |}) \/
   (exists e,
      Simulator._update_logic Filters get_data filter_data pearson ks = Raise e /\
      Simulator.update_run Filters get_data filter_data format_exc pearson ks
      = {| stdout := [ [Lit "Error updating chart: "; Lit (str_of_exn e); Lit "
"; Lit (format_exc e)] ];
           outcome :=
             Ok ({| data := [];
                    annotations :=
                      [Note [Lit "An error occurred while updating this chart"]];
                    xaxis_title := []; yaxis_title := [] |},
                 [[Lit "Error generating AI narrative."]],
                 [Lit "Error updating chart: "; Lit (str_of_exn e); Lit "
"; Lit (format_exc e)]) |})) /\
  outcome (Simulator.update_run Filters get_data filter_data format_exc pearson ks)
  = Ok (Simulator.update Filters get_data filter_data format_exc pearson ks) /\
  ((exists fig narrative,
      Diagnosis._update_logic Filters get_data filter_data kd = Ok (fig, narrative) /\
      Diagnosis.update_run Filters get_data filter_data format_exc kd
      = {| stdout := []; outcome := Ok (fig, narrative, []) |}) \/
   (exists e,
      Diagnosis._update_logic Filters get_data filter_data kd = Raise e /\
      Diagnosis.update_run Filters get_data filter_data format_exc kd
      = {| stdout := [ [Lit "Error updating chart: "; Lit (str_of_exn e); Lit "
"; Lit (format_exc e)] ];
           outcome :=
             Ok ({| data := [];
                    annotations :=
                      [Note [Lit "An error occurred while updating this chart"]];
                    xaxis_title := []; yaxis_title := [] |},
                 [[Lit "Error generating narrative."]],
                 [Lit "Error updating chart: "; Lit (str_of_exn e); Lit "
"; Lit (format_exc e)]) |})) /\
  outcome (Diagnosis.update_run Filters get_data filter_data format_exc kd)
  = Ok (Diagnosis.update Filters get_data filter_data format_exc kd).
Proof.
  split.
  { intros e H. unfold Policy._update_logic, Simulator._update_logic,
      Diagnosis._update_logic. rewrite H. repeat split. }
  split.
  { intros data e H. unfold Policy._update_logic, Simulator._update_logic,
      Diagnosis._update_logic. rewrite H. cbn [bind].
    repeat split; intros ->; reflexivity. }
  unfold Policy.update_run, Policy.update, Simulator.update_run, Simulator.update,
    Diagnosis.update_run, Diagnosis.update, try_except, silent, print_and_return.
  destruct (Policy._update_logic Filters get_data filter_data kp) as [fig | e];
    destruct (Simulator._update_logic Filters get_data filter_data pearson ks)
      as [[sfig snar] | se];
    destruct (Diagnosis._update_logic Filters get_data filter_data kd)
      as [[dfig dnar] | de];
    cbn [bind outcome stdout app];
    repeat split;
    first [ left; eexists; split; reflexivity
          | left; eexists; eexists; split; reflexivity
          | right; eexists; split; reflexivity ].
Qed.

(** The value that a feature works with for a control. *)
Lemma reads_get (default v : Value) (o : option Value) :
  reads default o v -> get_or_default o default = v.
Proof.
  intros [| | w Hw]; try reflexivity. destruct w; [congruence | |]; reflexivity.
Qed.

Lemma reads_not_none (default v : Value) (o : option Value) :
  default <> VNone -> reads default o v -> v <> VNone.
Proof.
  intros Hd [| | w Hw]; assumption.
Qed.

Lemma get_some (default v : Value) : v <> VNone -> get_or_default (Some v) default = v.
Proof.
  destruct v; [congruence | |]; reflexivity.
Qed.

(** C10.  A feature works with the default of a control when the control is
    absent or [None], and with the value of the control otherwise:
    "environment" for a dimension, 0 for a boost, "United States" and 10 for
    the country and the improvement of the simulation, "Finland" for the
    country of the diagnostic.  With [d], [e], [u], [j] the values that the
    policy simulation so works with, its core logic is what lines 213 to 322
    make of the filtered table and of these values, so that a [None] gives
    what the default gives and no error of its own; and the call of [update]
    returns what the call with these values in the controls returns.  The
    same holds for the simulation insight and for the diagnostic. *)
Theorem C10_none_is_replaced_by_the_default
  (dimension environment education jobs : option Value)
  (country sim_dimension improvement : option Value) (diag_country : option Value)
  (d e u j c sd i dc : Value) (fl : Filters) :
  reads (VStr "environment") dimension d ->
  reads (VNum 0) environment e ->
  reads (VNum 0) education u ->
  reads (VNum 0) jobs j ->
  reads (VStr "United States") country c ->
  reads (VStr "environment") sim_dimension sd ->
  reads (VNum 10) improvement i ->
  reads (VStr "Finland") diag_country dc ->
  Policy._update_logic Filters get_data filter_data
    {| Policy.dimension_control := dimension;
       Policy.environment_slider := environment;
       Policy.education_slider := education;
       Policy.jobs_slider := jobs; Policy.filters := fl |}
  = (data <- get_data ;;
     df <- filter_data data fl ;;
     if Nat.eqb (height df) 0 then Ok (note_figure [Lit "No data available"])
     else Policy.chart df d e u j) /\
  Policy.update Filters get_data filter_data format_exc
    {| Policy.dimension_control := dimension;
       Policy.environment_slider := environment;
       Policy.education_slider := education;
       Policy.jobs_slider := jobs; Policy.filters := fl |}
  = Policy.update Filters get_data filter_data format_exc
      {| Policy.dimension_control := Some d;
         Policy.environment_slider := Some e;
         Policy.education_slider := Some u;
         Policy.jobs_slider := Some j; Policy.filters := fl |} /\
  Simulator._update_logic Filters get_data filter_data pearson
    {| Simulator.country_control := country;
       Simulator.dimension_control := sim_dimension;
       Simulator.improvement_control := improvement; Simulator.filters := fl |}
  = (data <- get_data ;;
     df <- filter_data data fl ;;
     if Nat.eqb (height df) 0
     then Ok (note_figure [Lit "No data available"],
              [[Lit "No data available for analysis."]])
     else Simulator.chart pearson df c sd i) /\
  Simulator.update Filters get_data filter_data format_exc pearson
    {| Simulator.country_control := country;
       Simulator.dimension_control := sim_dimension;
       Simulator.improvement_control := improvement; Simulator.filters := fl |}
  = Simulator.update Filters get_data filter_data format_exc pearson
      {| Simulator.country_control := Some c;
         Simulator.dimension_control := Some sd;
         Simulator.improvement_control := Some i; Simulator.filters := fl |} /\
  Diagnosis._update_logic Filters get_data filter_data
    {| Diagnosis.country_control := diag_country; Diagnosis.filters := fl |}
  = (data <- get_data ;;
     df <- filter_data data fl ;;
     if Nat.eqb (height df) 0
     then Ok (note_figure [Lit "No data available"],
              [[Lit "No data available for analysis."]])
     else Diagnosis.chart df dc) /\
  Diagnosis.update Filters get_data filter_data format_exc
    {| Diagnosis.country_control := diag_country; Diagnosis.filters := fl |}
  = Diagnosis.update Filters get_data filter_data format_exc
      {| Diagnosis.country_control := Some dc; Diagnosis.filters := fl |}.
Proof.
  intros Rd Re Ru Rj Rc Rs Ri Rk.
  assert (Nd : d <> VNone) by (eapply reads_not_none; [| exact Rd]; discriminate).
  assert (Ne : e <> VNone) by (eapply reads_not_none; [| exact Re]; discriminate).
  assert (Nu : u <> VNone) by (eapply reads_not_none; [| exact Ru]; discriminate).
  assert (Nj : j <> VNone) by (eapply reads_not_none; [| exact Rj]; discriminate).
  assert (Nc : c <> VNone) by (eapply reads_not_none; [| exact Rc]; discriminate).
  assert (Ns : sd <> VNone) by (eapply reads_not_none; [| exact Rs]; discriminate).
  assert (Ni : i <> VNone) by (eapply reads_not_none; [| exact Ri]; discriminate).
  assert (Nk : dc <> VNone) by (eapply reads_not_none; [| exact Rk]; discriminate).
  apply reads_get in Rd, Re, Ru, Rj, Rc, Rs, Ri, Rk.
  unfold Policy.update, Simulator.update, Diagnosis.update.
  unfold Policy._update_logic, Simulator._update_logic, Diagnosis._update_logic.
  cbn [Policy.dimension_control Policy.environment_slider Policy.education_slider
       Policy.jobs_slider Policy.filters Simulator.country_control
       Simulator.dimension_control Simulator.improvement_control Simulator.filters
       Diagnosis.country_control Diagnosis.filters].
  unfold Policy.dimension_default, Simulator.country_default,
    Simulator.dimension_default, Simulator.improvement_default,
    Diagnosis.country_default, Policy.no_data_figure.
  rewrite Rd, Re, Ru, Rj, Rc, Rs, Ri, Rk.
  rewrite !get_some by assumption.
  repeat split; reflexivity.
Qed.

End Boundary.

Lemma C10_none_is_replaced_by_the_default_witness :
  Policy._update_logic unit (Ok Examples.nations) Examples.keep_all
    {| Policy.dimension_control := Some VNone;
       Policy.environment_slider := None;
       Policy.education_slider := Some (VNum 5);
       Policy.jobs_slider := Some VNone; Policy.filters := tt |}
  = (data <- Ok Examples.nations ;;
     df <- Examples.keep_all data tt ;;
     if Nat.eqb (height df) 0 then Ok (note_figure [Lit "No data available"])
     else Policy.chart df (VStr "environment") (VNum 0) (VNum 5) (VNum 0)) /\
  Policy.update unit (Ok Examples.nations) Examples.keep_all Examples.no_traceback
    {| Policy.dimension_control := Some VNone;
       Policy.environment_slider := None;
       Policy.education_slider := Some (VNum 5);
       Policy.jobs_slider := Some VNone; Policy.filters := tt |}
  = Policy.update unit (Ok Examples.nations) Examples.keep_all Examples.no_traceback
      {| Policy.dimension_control := Some (VStr "environment");
         Policy.environment_slider := Some (VNum 0);
         Policy.education_slider := Some (VNum 5);
         Policy.jobs_slider := Some (VNum 0); Policy.filters := tt |} /\
  Simulator._update_logic unit (Ok Examples.nations) Examples.keep_all
    Examples.pearson_example
    {| Simulator.country_control := None;
       Simulator.dimension_control := Some (VStr "jobs");
       Simulator.improvement_control := Some VNone; Simulator.filters := tt |}
  = (data <- Ok Examples.nations ;;
     df <- Examples.keep_all data tt ;;
     if Nat.eqb (height df) 0
     then Ok (note_figure [Lit "No data available"],
              [[Lit "No data available for analysis."]])
     else Simulator.chart Examples.pearson_example df
            (VStr "United States") (VStr "jobs") (VNum 10)) /\
  Simulator.update unit (Ok Examples.nations) Examples.keep_all Examples.no_traceback
    Examples.pearson_example
    {| Simulator.country_control := None;
       Simulator.dimension_control := Some (VStr "jobs");
       Simulator.improvement_control := Some VNone; Simulator.filters := tt |}
  = Simulator.update unit (Ok Examples.nations) Examples.keep_all Examples.no_traceback
      Examples.pearson_example
      {| Simulator.country_control := Some (VStr "United States");
         Simulator.dimension_control := Some (VStr "jobs");
         Simulator.improvement_control := Some (VNum 10); Simulator.filters := tt |} /\
  Diagnosis._update_logic unit (Ok Examples.nations) Examples.keep_all
    {| Diagnosis.country_control := Some VNone; Diagnosis.filters := tt |}
  = (data <- Ok Examples.nations ;;
     df <- Examples.keep_all data tt ;;
     if Nat.eqb (height df) 0
     then Ok (note_figure [Lit "No data available"],
              [[Lit "No data available for analysis."]])
     else Diagnosis.chart df (VStr "Finland")) /\
  Diagnosis.update unit (Ok Examples.nations) Examples.keep_all Examples.no_traceback
    {| Diagnosis.country_control := Some VNone; Diagnosis.filters := tt |}
  = Diagnosis.update unit (Ok Examples.nations) Examples.keep_all Examples.no_traceback
      {| Diagnosis.country_control := Some (VStr "Finland"); Diagnosis.filters := tt |}.
Proof.
  apply (C10_none_is_replaced_by_the_default unit (Ok Examples.nations)
           Examples.keep_all Examples.no_traceback Examples.pearson_example
           (Some VNone) None (Some (VNum 5)) (Some VNone)
           None (Some (VStr "jobs")) (Some VNone) (Some VNone)
           (VStr "environment") (VNum 0) (VNum 5) (VNum 0)
           (VStr "United States") (VStr "jobs") (VNum 10) (VStr "Finland") tt);
    first [ apply reads_absent | apply reads_none | apply reads_value; discriminate ].
Defined.

(** With every control at [None] the three features draw their defaults on
    the example table, and the error text is empty: the policy simulation
    plots the environment column, the simulation insight moves the United
    States by 10 points, and the diagnostic is that of Finland. *)
Example none_controls_draw_the_defaults :
  (exists fig,
     Policy.update unit (Ok Examples.nations) Examples.keep_all Examples.no_traceback
       {| Policy.dimension_control := Some VNone;
          Policy.environment_slider := Some VNone;
          Policy.education_slider := Some VNone;
          Policy.jobs_slider := Some VNone; Policy.filters := tt |} = (fig, []) /\
     xaxis_title fig = [Title "environment"] /\
     map x (data fig) = [data_of (NumCol [90; 80; 50])]) /\
  (exists fig narrative,
     Simulator.update unit (Ok Examples.nations) Examples.keep_all Examples.no_traceback
       Examples.pearson_example
       {| Simulator.country_control := Some VNone;
          Simulator.dimension_control := Some VNone;
          Simulator.improvement_control := Some VNone;
          Simulator.filters := tt |} = (fig, narrative, []) /\
     xaxis_title fig = [Title "environment"] /\
     In (Simulator.point [Str (VStr "United States"); Lit " (Current)"]
           (CNum (Some 50)) (CNum (Some 60))) (data fig) /\
     exists y, In (Simulator.point [Str (VStr "United States"); Lit " (Simulated)"]
                     (CNum (Some (50 + 10))) y) (data fig)) /\
  (exists fig narrative,
     Diagnosis.update unit (Ok Examples.nations) Examples.keep_all Examples.no_traceback
       {| Diagnosis.country_control := Some VNone; Diagnosis.filters := tt |}
     = (fig, narrative, []) /\
     nth_error narrative 0
     = Some [Lit "## 🏛️ OECD Wellbeing Diagnostic: "; Str (VStr "Finland")]).
Proof.
  split; [| split].
  - eexists. split; [vm_compute; reflexivity |]. split; reflexivity.
  - eexists. eexists. split; [vm_compute; reflexivity |].
    split; [reflexivity |]. split; [simpl; tauto |].
    eexists. simpl. right. right. right. left. reflexivity.
  - eexists. eexists. split; [vm_compute; reflexivity |]. reflexivity.
Qed.

(** A table loader that raises is caught like the core logic: nothing goes
    on to Dash, the error text is printed and returned with the placeholder. *)
Example loader_failure_is_caught :
  Policy.update_run unit (Raise (Exception "FileNotFoundError" "data.csv"))
    Examples.keep_all Examples.no_traceback
    {| Policy.dimension_control := None; Policy.environment_slider := None;
       Policy.education_slider := None; Policy.jobs_slider := None;
       Policy.filters := tt |}
  = {| stdout := [ [Lit "Error updating chart: "; Lit "data.csv"; Lit "
"; Lit EmptyString] ];
       outcome :=
         Ok ({| data := [];
                annotations := [Note [Lit "An error occurred while updating this chart"]];
                xaxis_title := []; yaxis_title := [] |},
             [Lit "Error updating chart: "; Lit "data.csv"; Lit "
"; Lit EmptyString]) |}.
Proof. reflexivity. Qed.

(** A boost that is a text makes the core logic raise; [update] returns the
    placeholder and the error text, and does not raise. *)
Example text_boost_is_caught :
  Policy.update unit (Ok Examples.nations) Examples.keep_all Examples.no_traceback
    {| Policy.dimension_control := None;
       Policy.environment_slider := Some (VStr "high");
       Policy.education_slider := None; Policy.jobs_slider := None;
       Policy.filters := tt |}
  = (error_figure,
     error_msg Examples.no_traceback (TypeError "unsupported operand type(s)")).
Proof. reflexivity. Qed.

(** A dimension that the table lacks makes the simulation raise a key error;
    [update] returns the placeholder, the fixed narrative and the error text. *)
Example unknown_dimension_is_caught :
  Simulator.update unit (Ok Examples.nations) Examples.keep_all Examples.no_traceback
    Examples.pearson_example
    {| Simulator.country_control := None;
       Simulator.dimension_control := Some (VStr "wealth");
       Simulator.improvement_control := None; Simulator.filters := tt |}
  = (error_figure, [[Lit "Error generating AI narrative."]],
     error_msg Examples.no_traceback (KeyError "wealth")).
Proof. reflexivity. Qed.

End UpdateFacts.

(** ** The transform, column by column *)

Module NormalisationFacts.
Import Num Transform Validation TransformFacts.

Lemma rint_eq (x y : Q) : x == y -> rint x = rint y.
Proof.
  intro E. unfold rint. rewrite (Qfloor_comp _ _ E).
  assert (C : Qcompare (x - inject_Z (Qfloor y)) (1 # 2)
              = Qcompare (y - inject_Z (Qfloor y)) (1 # 2)).
  { apply Qcompare_comp; [rewrite E |]; reflexivity. }
  now rewrite C.
Qed.

Lemma rint_floor_le (x : Q) : (Qfloor x <= rint x <= Qfloor x + 1)%Z.
Proof.
  unfold rint. destruct (Qcompare _ _); [destruct (Z.even _) |..]; lia.
Qed.

Lemma rint_mono (x y : Q) : x <= y -> (rint x <= rint y)%Z.
Proof.
  intro H. pose proof (Qfloor_resp_le _ _ H) as F.
  destruct (Z.eq_dec (Qfloor x) (Qfloor y)) as [E | N].
  - unfold rint. rewrite E.
    destruct (Qcompare (x - inject_Z (Qfloor y)) (1 # 2)) eqn:Cx;
    destruct (Qcompare (y - inject_Z (Qfloor y)) (1 # 2)) eqn:Cy;
      try (destruct (Z.even (Qfloor y))); try lia;
      exfalso;
      repeat match goal with
             | C : Qcompare _ _ = Eq |- _ => apply Qeq_alt in C
             | C : Qcompare _ _ = Lt |- _ => apply Qlt_alt in C
             | C : Qcompare _ _ = Gt |- _ => apply Qgt_alt in C
             end;
      lra.
  - pose proof (rint_floor_le x). pose proof (rint_floor_le y). lia.
Qed.

Lemma round1_eq (x y : Q) : x == y -> round1 x == round1 y.
Proof.
  intro E. unfold round1. rewrite (rint_eq (x * 10) (y * 10)); [reflexivity |].
  now rewrite E.
Qed.

Lemma round1_mono (x y : Q) : x <= y -> round1 x <= round1 y.
Proof.
  intro H. unfold round1.
  assert (M : (rint (x * 10) <= rint (y * 10))%Z) by (apply rint_mono; lra).
  rewrite Zle_Qle in M.
  unfold Qdiv. apply Qmult_le_compat_r; [exact M | discriminate].
Qed.

Lemma fill_column_length (s : list float) : List.length (fill_column s) = List.length s.
Proof.
  unfold fill_column, fillna. destruct (existsb isna s); [apply length_map | reflexivity].
Qed.

Lemma fill_column_observed (s : list float) (i : nat) (x : Q) :
  nth_error s i = Some (Some x) -> nth_error (fill_column s) i = Some (Some x).
Proof.
  intro H. unfold fill_column, fillna. destruct (existsb isna s); [| exact H].
  rewrite nth_error_map. unfold float in *. rewrite H. reflexivity.
Qed.

Lemma normalize_column_length (d : Dim) (s : list float) :
  List.length (normalize_column d s) = List.length s.
Proof.
  rewrite normalize_column_eq. destruct (should_invert d).
  - unfold invert_scale, rank_pct. now rewrite !length_map.
  - unfold minmax_scale. destruct (fgt _ _); now rewrite length_map.
Qed.

Lemma finish_column_length (d : Dim) (s : list float) :
  List.length (finish_column d s) = List.length s.
Proof.
  unfold finish_column.
  now rewrite length_map, normalize_column_length, fill_column_length.
Qed.

Lemma Qmin_list_in (xs : list Q) (m : Q) : In (Qmin_list m xs) (m :: xs).
Proof.
  unfold Qmin_list. revert m. induction xs as [| a t IH]; intro m; simpl.
  - now left.
  - destruct (Qlt_le_dec a m).
    + right. apply IH.
    + destruct (IH m) as [H | H]; [now left | right; now right].
Qed.

Lemma Qmax_list_in (xs : list Q) (m : Q) : In (Qmax_list m xs) (m :: xs).
Proof.
  unfold Qmax_list. revert m. induction xs as [| a t IH]; intro m; simpl.
  - now left.
  - destruct (Qlt_le_dec m a).
    + right. apply IH.
    + destruct (IH m) as [H | H]; [now left | right; now right].
Qed.

(** [Series.min()] is an observed value that no observed value is below. *)
Lemma smin_spec (s : list float) (m : Q) :
  smin s = Some m -> In (Some m) s /\ forall x, In (Some x) s -> m <= x.
Proof.
  unfold smin. destruct (valid s) as [| v vs] eqn:E; [discriminate |].
  intro H. injection H as <-. split.
  - apply valid_In. rewrite E. apply Qmin_list_in.
  - intros x Hx. apply valid_In in Hx. rewrite E in Hx.
    destruct (Qmin_list_spec vs v) as [A B].
    destruct Hx as [<- | Hx]; auto.
Qed.

Lemma smax_spec (s : list float) (m : Q) :
  smax s = Some m -> In (Some m) s /\ forall x, In (Some x) s -> x <= m.
Proof.
  unfold smax. destruct (valid s) as [| v vs] eqn:E; [discriminate |].
  intro H. injection H as <-. split.
  - apply valid_In. rewrite E. apply Qmax_list_in.
  - intros x Hx. apply valid_In in Hx. rewrite E in Hx.
    destruct (Qmax_list_spec vs v) as [A B].
    destruct Hx as [<- | Hx]; auto.
Qed.

Lemma smin_some (s : list float) (x : Q) : In (Some x) s -> exists m, smin s = Some m.
Proof.
  intro H. apply valid_In in H. unfold smin.
  destruct (valid s); [destruct H | eauto].
Qed.

Lemma smax_some (s : list float) (x : Q) : In (Some x) s -> exists m, smax s = Some m.
Proof.
  intro H. apply valid_In in H. unfold smax.
  destruct (valid s); [destruct H | eauto].
Qed.

(** The cells of a filled column lie between the bounds of the observed
    cells. *)
Lemma fill_column_between (lo hi : Q) (s : list float) :
  (forall z, In (Some z) s -> lo <= z <= hi) ->
  forall z, In (Some z) (fill_column s) -> lo <= z <= hi.
Proof.
  intros H z Hz. unfold fill_column, fillna in Hz.
  destruct (existsb isna s); [| auto].
  apply in_map_iff in Hz as [[y |] [E Hin]].
  - injection E as <-. auto.
  - assert (V : valid s <> []).
    { unfold mean in E. destruct (valid s); [discriminate | discriminate]. }
    assert (W : within lo hi (mean s)).
    { apply mean_within; [exact V |]. apply Forall_forall. intros x Hx.
      apply valid_In in Hx. auto. }
    rewrite E in W. exact W.
Qed.

Lemma fill_column_keeps (s : list float) (x : Q) :
  In (Some x) s -> In (Some x) (fill_column s).
Proof.
  intro H. apply In_nth_error in H as [i Hi].
  eapply nth_error_In, fill_column_observed, Hi.
Qed.

Lemma valid_nil_all_none (s : list float) : valid s = [] -> Forall (eq None) s.
Proof.
  intro E. apply Forall_forall. intros [y |] Hy; [| reflexivity].
  apply valid_In in Hy. rewrite E in Hy. destruct Hy.
Qed.

Lemma Forall2_map_self {A : Type} (P : A -> A -> Prop) (f : A -> A) (l : list A) :
  (forall a, In a l -> P a (f a)) -> Forall2 P l (map f l).
Proof.
  induction l as [| a t IH]; intro H; simpl; constructor.
  - apply H. now left.
  - apply IH. intros b Hb. apply H. now right.
Qed.

(** ** Boolean masks *)

Lemma select_cons {A : Type} (b : bool) (mask : list bool) (a : A) (l : list A) :
  select (b :: mask) (a :: l) = if b then a :: select mask l else select mask l.
Proof. unfold select. simpl. now destruct b. Qed.

Lemma select_all_true {A : Type} (mask : list bool) (l : list A) :
  Forall (eq true) mask -> (List.length l <= List.length mask)%nat -> select mask l = l.
Proof.
  intro H. revert l. induction H as [| b mask Hb _ IH]; intros [| a l] Hl; simpl in Hl;
    try reflexivity; try lia.
  subst b. rewrite select_cons, IH by lia. reflexivity.
Qed.

Lemma select_nil_all_false {A : Type} (mask : list bool) (l : list A) :
  List.length l = List.length mask -> select mask l = [] -> Forall (eq false) mask.
Proof.
  revert l. induction mask as [| b mask IH]; intros [| a l] Hl H; simpl in Hl;
    try discriminate; constructor.
  - rewrite select_cons in H. destruct b; [discriminate | reflexivity].
  - rewrite select_cons in H. destruct b; [discriminate |].
    apply (IH l); [lia | exact H].
Qed.

Lemma select_length {A : Type} (mask : list bool) (l : list A) :
  List.length l = List.length mask ->
  List.length (select mask l) = List.length (filter (fun b : bool => b) mask).
Proof.
  revert l. induction mask as [| b mask IH]; intros [| a l] Hl; simpl in Hl;
    try discriminate; try reflexivity.
  rewrite select_cons. destruct b; simpl; rewrite IH by lia; reflexivity.
Qed.

Lemma rows_length (df : DataFrame) : List.length (rows df) = nrows df.
Proof. unfold rows. now rewrite length_map, length_seq. Qed.

Lemma missing_pct_length (df : DataFrame) :
  List.length (missing_pct_by_country df) = nrows df.
Proof. unfold missing_pct_by_country. now rewrite length_map, rows_length. Qed.

Lemma select_rows_well_formed (mask : list bool) (df : DataFrame) :
  well_formed df -> List.length mask = nrows df -> well_formed (select_rows mask df).
Proof.
  intros [Hc Hs] Hm. unfold well_formed, nrows, select_rows in *. cbn [country country_code columns].
  split.
  - rewrite !select_length by congruence. reflexivity.
  - apply Forall_forall. intros dc Hdc. apply in_map_iff in Hdc as [[d s] [<- Hin]].
    cbn [fst snd]. rewrite Forall_forall in Hs. specialize (Hs _ Hin). cbn [snd] in Hs.
    rewrite !select_length by congruence. reflexivity.
Qed.

Lemma drop_sparse_well_formed (df : DataFrame) :
  well_formed df -> well_formed (drop_sparse df).
Proof.
  intro H. unfold drop_sparse.
  destruct (select _ (country df)); [exact H |].
  apply select_rows_well_formed; [exact H |].
  now rewrite length_map, missing_pct_length.
Qed.

Lemma drop_sparse_dimensions (df : DataFrame) :
  map fst (columns (drop_sparse df)) = map fst (columns df).
Proof.
  unfold drop_sparse. destruct (select _ (country df)); [reflexivity |].
  unfold select_rows. cbn [columns]. rewrite map_map. reflexivity.
Qed.

Lemma transform_nrows (df : DataFrame) :
  nrows (table (transform df)) = nrows (drop_sparse df).
Proof. reflexivity. Qed.

Lemma transform_well_formed (df : DataFrame) :
  well_formed df -> well_formed (table (transform df)).
Proof.
  intro H. apply drop_sparse_well_formed in H. destruct H as [Hc Hs].
  split; [exact Hc |].
  rewrite transform_columns, transform_nrows.
  apply Forall_forall. intros dc Hdc. apply in_map_iff in Hdc as [[d s] [<- Hin]].
  cbn [fst snd]. rewrite finish_column_length.
  rewrite Forall_forall in Hs. apply (Hs _ Hin).
Qed.

(** The share of missing cells of a row against the 50% threshold, on
    integers. *)
Lemma half_missing (c n : nat) :
  n <> 0%nat ->
  let p := Some (inject_Z (Z.of_nat c) / inject_Z (Z.of_nat n) * 100) in
  fle p (Some 50) = (2 * c <=? n)%nat /\ fgt p (Some 50) = negb (2 * c <=? n)%nat.
Proof.
  intros Hn p. subst p.
  assert (N : 0 < inject_Z (Z.of_nat n)).
  { change 0 with (inject_Z 0). rewrite <- Zlt_Qlt. lia. }
  set (C := inject_Z (Z.of_nat c)) in *. set (M := inject_Z (Z.of_nat n)) in *.
  unfold fle, fgt.
  destruct (Nat.leb_spec (2 * c) n) as [L | L].
  - assert (A : 2 * C <= M).
    { subst C M. change 2 with (inject_Z 2). rewrite <- inject_Z_mult, <- Zle_Qle. lia. }
    assert (B : C / M <= 1 # 2) by (apply Qle_shift_div_r; lra).
    destruct (Qlt_le_dec 50 (C / M * 100)); [lra | now split].
  - assert (A : M < 2 * C).
    { subst C M. change 2 with (inject_Z 2). rewrite <- inject_Z_mult, <- Zlt_Qlt. lia. }
    assert (B : 1 # 2 < C / M) by (apply Qlt_shift_div_l; lra).
    destruct (Qlt_le_dec 50 (C / M * 100)); [now split | lra].
Qed.

(** X2.  On a table whose columns hold one cell per country and that has a
    dimension that is not inverted, the composite index has one value per
    surviving country and every value is a number of [0, 100]. *)
Theorem composite_index_is_a_score (df : DataFrame) :
  well_formed df ->
  (exists d s, In (d, s) (columns df) /\ should_invert d = false) ->
  List.length (composite_index (transform df)) = nrows (table (transform df)) /\
  Forall in_range (composite_index (transform df)).
Proof.
  intros W (d & s & Hin & Hinv).
  pose proof (transform_well_formed df W) as [_ Wt].
  assert (Hd : exists s', In (d, s') (columns (table (transform df)))).
  { assert (D : In d (map fst (columns (drop_sparse df)))).
    { rewrite drop_sparse_dimensions. apply in_map_iff. now exists (d, s). }
    apply in_map_iff in D as [[d0 s0] [E H0]]. cbn [fst] in E. subst d0.
    exists (finish_column d s0). rewrite transform_columns.
    apply in_map_iff. now exists (d, s0). }
  destruct Hd as [s' Hs'].
  assert (R : Forall in_range s').
  { rewrite transform_columns in Hs'. apply in_map_iff in Hs' as [[d0 s0] [E _]].
    cbn [fst snd] in E. injection E as -> <-.
    destruct (finish_column_cases d s0) as [H | (I & _)]; [exact H | congruence]. }
  assert (L : List.length s' = nrows (table (transform df))).
  { rewrite Forall_forall in Wt. apply (Wt _ Hs'). }
  unfold transform in *. cbn [composite_index table] in *.
  set (t := round_columns (normalize (fill_missing (drop_sparse df)))) in *.
  unfold composite_of. split; [now rewrite length_map, rows_length |].
  unfold rows. rewrite map_map. apply Forall_forall. intros c Hc.
  apply in_map_iff in Hc as [i [<- Hi]]. apply in_seq in Hi.
  assert (Hcell : in_range (nth i s' None)).
  { rewrite Forall_forall in R. apply R, nth_In. lia. }
  assert (Hrow : In (nth i s' None) (row_cells t i)).
  { unfold row_cells. apply in_map_iff. now exists (d, s'). }
  assert (Hall : Forall (fun c => c = None \/ in_range c) (row_cells t i)).
  { unfold row_cells. apply Forall_forall. intros c Hc.
    apply in_map_iff in Hc as [[d1 s1] [<- H1]]. cbn [snd].
    pose proof (transform_cells_range df d1 s1 H1) as H.
    rewrite Forall_forall in H.
    destruct (nth_in_or_default i s1 None) as [I | ->]; [auto | now left]. }
  destruct (nth i s' None) as [x |] eqn:Ex; [| destruct Hcell].
  assert (V : valid (row_cells t i) <> []).
  { apply valid_In in Hrow. intro E. rewrite E in Hrow. destruct Hrow. }
  destruct (mean_range _ Hall) as [E | M].
  - unfold mean in E. destruct (valid (row_cells t i)); [congruence | discriminate].
  - destruct (mean (row_cells t i)) as [m |]; [| destruct M].
    apply round1_bounds, M.
Qed.

(** X5.  The removal of sparse countries keeps exactly the rows in which at
    most half of the dimension cells are missing, in their order; a table
    without any dimension column is left as it is. *)
Theorem drop_sparse_keeps_the_half_observed (df : DataFrame) :
  well_formed df ->
  (columns df = [] -> drop_sparse df = df) /\
  (columns df <> [] ->
   drop_sparse df
   = select_rows (map (fun r => (2 * count_na r <=? List.length (columns df))%nat) (rows df))
                 df).
Proof.
  intros [Wc Ws]. split.
  - intro E. unfold drop_sparse, missing_pct_by_country, dimension_cols.
    rewrite E. cbn [map List.length Nat.eqb].
    rewrite !map_map. cbn [fgt].
    assert (S : forall l : list string,
               select (map (fun _ : list float => false) (rows df)) l = []).
    { intro l. unfold select. generalize (rows df). intro r. revert l.
      induction r as [| a r IH]; intros [| x l]; simpl; auto. }
    now rewrite S.
  - intro Hne.
    assert (Hn : List.length (columns df) <> 0%nat) by (destruct (columns df); [congruence | discriminate]).
    assert (Hfle : map (fun p => fle p (Some 50)) (missing_pct_by_country df)
                   = map (fun r => (2 * count_na r <=? List.length (columns df))%nat) (rows df)).
    { unfold missing_pct_by_country, dimension_cols. rewrite map_map, length_map.
      apply map_ext. intro r.
      destruct (Nat.eqb_spec (List.length (columns df)) 0); [contradiction |].
      apply (half_missing (count_na r) _ Hn). }
    assert (Hfgt : map (fun p => fgt p (Some 50)) (missing_pct_by_country df)
                   = map (fun r => negb (2 * count_na r <=? List.length (columns df))%nat) (rows df)).
    { unfold missing_pct_by_country, dimension_cols. rewrite map_map, length_map.
      apply map_ext. intro r.
      destruct (Nat.eqb_spec (List.length (columns df)) 0); [contradiction |].
      apply (half_missing (count_na r) _ Hn). }
    unfold drop_sparse. cbv zeta. rewrite Hfle, Hfgt.
    destruct (select _ (country df)) eqn:S; [| reflexivity].
    apply select_nil_all_false in S; [| now rewrite length_map, rows_length].
    assert (T : Forall (eq true)
                  (map (fun r => (2 * count_na r <=? List.length (columns df))%nat) (rows df))).
    { apply Forall_forall. intros b Hb. apply in_map_iff in Hb as [r [<- Hr]].
      rewrite Forall_forall in S.
      assert (F : false = negb (2 * count_na r <=? List.length (columns df))%nat).
      { apply S, in_map_iff. now exists r. }
      destruct (2 * count_na r <=? List.length (columns df))%nat; [reflexivity | discriminate]. }
    assert (Lm : List.length (map (fun r => (2 * count_na r <=? List.length (columns df))%nat)
                                  (rows df)) = nrows df).
    { now rewrite length_map, rows_length. }
    unfold select_rows. destruct df as [cn cc cols]. cbn [country country_code columns] in *.
    unfold nrows in *. cbn [country] in *.
    rewrite !select_all_true by (try exact T; lia). f_equal.
    symmetry. etransitivity; [| apply map_id]. apply map_ext_in. intros [d s] Hin. cbn [fst snd].
    rewrite Forall_forall in Ws. specialize (Ws _ Hin). cbn [snd] in Ws.
    rewrite select_all_true by (try exact T; lia). reflexivity.
Qed.

(** ** Cell by cell *)

Lemma minmax_scale_nth (t : list float) (i : nat) (z : Q) :
  nth_error t i = Some (Some z) ->
  exists mn mx,
    smin t = Some mn /\ smax t = Some mx /\
    nth_error (minmax_scale t) i
    = Some (Some (if Qlt_le_dec mn mx then (z - mn) / (mx - mn) * 100 else 50)).
Proof.
  intro H. assert (Hin : In (Some z) t) by (eapply nth_error_In, H).
  destruct (smin_some t z Hin) as [mn Emn]. destruct (smax_some t z Hin) as [mx Emx].
  exists mn, mx. split; [exact Emn |]. split; [exact Emx |].
  unfold minmax_scale. rewrite Emn, Emx. unfold fgt.
  destruct (Qlt_le_dec mn mx); rewrite nth_error_map; unfold float in *; rewrite H; reflexivity.
Qed.

Lemma invert_scale_nth (t : list float) (i : nat) (z : Q) :
  nth_error t i = Some (Some z) ->
  nth_error (invert_scale t) i
  = Some (Some ((1 - rank_avg (valid t) z / Qlen (valid t)) * 100)).
Proof.
  intro H. unfold invert_scale, rank_pct. rewrite !nth_error_map.
  unfold float in *. rewrite H. reflexivity.
Qed.

Lemma count_lt_eq (xs : list Q) (x y : Q) : x == y -> count_lt xs x = count_lt xs y.
Proof.
  intro E. unfold count_lt. f_equal. apply filter_ext. intro z.
  now rewrite (Qcompare_comp z z (Qeq_refl z) x y E).
Qed.

Lemma count_eq_eq (xs : list Q) (x y : Q) : x == y -> count_eq xs x = count_eq xs y.
Proof.
  intro E. unfold count_eq. f_equal. apply filter_ext. intro z.
  now rewrite (Qcompare_comp z z (Qeq_refl z) x y E).
Qed.

Lemma count_below (xs : list Q) (x y : Q) :
  x < y -> (count_lt xs x + count_eq xs x <= count_lt xs y)%nat.
Proof.
  intro H. unfold count_lt, count_eq.
  induction xs as [| z t IH]; simpl; [lia |].
  destruct (Qcompare z x) eqn:Cx; destruct (Qcompare z y) eqn:Cy; simpl; try lia;
    exfalso;
    repeat match goal with
           | C : Qcompare _ _ = Eq |- _ => apply Qeq_alt in C
           | C : Qcompare _ _ = Lt |- _ => apply Qlt_alt in C
           | C : Qcompare _ _ = Gt |- _ => apply Qgt_alt in C
           end; lra.
Qed.

(** The average rank does not decrease with the value. *)
Lemma rank_avg_mono (xs : list Q) (x y : Q) :
  x <= y -> rank_avg xs x <= rank_avg xs y.
Proof.
  intro H. unfold rank_avg.
  destruct (Qlt_le_dec x y) as [L | L].
  - pose proof (count_below xs x y L) as B.
    assert (B' : inject_Z (Z.of_nat (count_lt xs x)) + inject_Z (Z.of_nat (count_eq xs x))
                 <= inject_Z (Z.of_nat (count_lt xs y))).
    { rewrite <- inject_Z_plus, <- Zle_Qle. lia. }
    assert (P : 0 <= inject_Z (Z.of_nat (count_eq xs x))).
    { change 0 with (inject_Z 0). rewrite <- Zle_Qle. lia. }
    assert (P' : 0 <= inject_Z (Z.of_nat (count_eq xs y))).
    { change 0 with (inject_Z 0). rewrite <- Zle_Qle. lia. }
    setoid_replace ((inject_Z (Z.of_nat (count_eq xs x)) + 1) / 2)
      with ((1 # 2) * inject_Z (Z.of_nat (count_eq xs x)) + (1 # 2)) by field.
    setoid_replace ((inject_Z (Z.of_nat (count_eq xs y)) + 1) / 2)
      with ((1 # 2) * inject_Z (Z.of_nat (count_eq xs y)) + (1 # 2)) by field.
    lra.
  - assert (E : x == y) by lra.
    rewrite (count_lt_eq xs x y E), (count_eq_eq xs x y E). lra.
Qed.

Lemma finish_column_nth (d : Dim) (s : list float) (i : nat) (z : Q) :
  nth_error (normalize_column d (fill_column s)) i = Some (Some z) ->
  nth_error (finish_column d s) i = Some (Some (round1 z)).
Proof.
  intro H. unfold finish_column. rewrite nth_error_map. unfold float in *.
  rewrite H. reflexivity.
Qed.

(** What the normalisation makes of an observed cell: a number of [0, 100]
    at the same place. *)
Lemma normalized_observed (d : Dim) (t : list float) (i : nat) (x : Q) :
  nth_error t i = Some (Some x) ->
  exists z, nth_error (normalize_column d t) i = Some (Some z) /\ 0 <= z <= 100.
Proof.
  intro H.
  assert (E : exists z, nth_error (normalize_column d t) i = Some (Some z)).
  { rewrite normalize_column_eq. destruct (should_invert d).
    - eexists. apply invert_scale_nth, H.
    - destruct (minmax_scale_nth t i x H) as (mn & mx & _ & _ & N). eexists. exact N. }
  destruct E as [z Hz]. exists z. split; [exact Hz |].
  pose proof (normalize_column_range d t) as R. rewrite Forall_forall in R.
  destruct (R _ (nth_error_In _ _ Hz)) as [R' | R']; [discriminate | exact R'].
Qed.

Lemma transform_without_fill_columns (df : DataFrame) :
  columns (table (transform_without_fill df))
  = map (fun dc => (fst dc, map fround1 (normalize_column (fst dc) (snd dc))))
        (columns (drop_sparse df)).
Proof.
  unfold transform_without_fill, round_columns, normalize.
  cbn [table columns]. rewrite !map_map. reflexivity.
Qed.

(** X1.  A cell that is observed among the surviving countries becomes a
    number of [0, 100] in the output, at the same place of the column of the
    same dimension, and the column keeps its number of cells.  This holds
    whether the fill of step 5 takes effect or not; so a NaN of the output
    stands where the surviving table has no observation. *)
Theorem observed_cells_become_scores (df : DataFrame) (k : nat) (d : Dim)
  (s : list float) (i : nat) (x : Q) :
  nth_error (columns (drop_sparse df)) k = Some (d, s) ->
  nth_error s i = Some (Some x) ->
  (exists s' q,
     nth_error (columns (table (transform df))) k = Some (d, s') /\
     List.length s' = List.length s /\
     nth_error s' i = Some (Some q) /\ 0 <= q <= 100) /\
  (exists s' q,
     nth_error (columns (table (transform_without_fill df))) k = Some (d, s') /\
     List.length s' = List.length s /\
     nth_error s' i = Some (Some q) /\ 0 <= q <= 100).
Proof.
  intros Hk Hi. split.
  - destruct (normalized_observed d _ i x (fill_column_observed s i x Hi)) as (z & Hz & R).
    exists (finish_column d s), (round1 z).
    split; [rewrite transform_columns, nth_error_map, Hk; reflexivity |].
    split; [apply finish_column_length |].
    split; [apply finish_column_nth, Hz | apply round1_bounds, R].
  - destruct (normalized_observed d s i x Hi) as (z & Hz & R).
    exists (map fround1 (normalize_column d s)), (round1 z).
    split; [rewrite transform_without_fill_columns, nth_error_map, Hk; reflexivity |].
    split; [rewrite length_map; apply normalize_column_length |].
    split; [| apply round1_bounds, R].
    rewrite nth_error_map. unfold float in *. rewrite Hz. reflexivity.
Qed.

Lemma observed_cells_become_scores_witness :
  (exists s' q,
     nth_error (columns (table (transform Examples.wide_sparse))) 3 = Some (education, s') /\
     List.length s' = List.length [Some 270] /\
     nth_error s' 0 = Some (Some q) /\ 0 <= q <= 100) /\
  (exists s' q,
     nth_error (columns (table (transform_without_fill Examples.wide_sparse))) 3
     = Some (education, s') /\
     List.length s' = List.length [Some 270] /\
     nth_error s' 0 = Some (Some q) /\ 0 <= q <= 100).
Proof.
  apply (observed_cells_become_scores Examples.wide_sparse 3 education [Some 270] 0 270).
  - vm_compute. reflexivity.
  - reflexivity.
Defined.

(** X4.  Normalisation keeps the order of the observed values of a column:
    of two countries, the one with the higher raw value has the higher or
    equal score in a dimension that is not inverted, and the lower or equal
    score in an inverted dimension. *)
Theorem normalisation_keeps_or_reverses_the_order (df : DataFrame) (k : nat) (d : Dim)
  (s : list float) (i j : nat) (x y : Q) :
  nth_error (columns (drop_sparse df)) k = Some (d, s) ->
  nth_error s i = Some (Some x) ->
  nth_error s j = Some (Some y) ->
  x <= y ->
  exists s' p q,
    nth_error (columns (table (transform df))) k = Some (d, s') /\
    nth_error s' i = Some (Some p) /\
    nth_error s' j = Some (Some q) /\
    (if should_invert d then q <= p else p <= q).
Proof.
  intros Hk Hi Hj Hxy.
  apply fill_column_observed in Hi, Hj.
  set (t := fill_column s) in *.
  assert (Hcol : nth_error (columns (table (transform df))) k = Some (d, finish_column d s)).
  { rewrite transform_columns, nth_error_map, Hk. reflexivity. }
  destruct (should_invert d) eqn:I.
  - pose proof (invert_scale_nth t i x Hi) as Ni.
    pose proof (invert_scale_nth t j y Hj) as Nj.
    eexists _, _, _. split; [exact Hcol |].
    split; [apply finish_column_nth; rewrite normalize_column_eq, I; exact Ni |].
    split; [apply finish_column_nth; rewrite normalize_column_eq, I; exact Nj |].
    apply round1_mono.
    assert (Hin : In x (valid t)) by (apply valid_In; eapply nth_error_In, Hi).
    pose proof (rank_avg_bounds _ _ Hin) as [B1 B2].
    assert (P : 0 < Qlen (valid t)) by lra.
    pose proof (rank_avg_mono (valid t) x y Hxy) as M.
    assert (D : rank_avg (valid t) x / Qlen (valid t) <= rank_avg (valid t) y / Qlen (valid t)).
    { unfold Qdiv. apply Qmult_le_compat_r; [exact M |].
      apply Qlt_le_weak, Qinv_lt_0_compat, P. }
    lra.
  - destruct (minmax_scale_nth t i x Hi) as (mn & mx & Emn & Emx & Ni).
    destruct (minmax_scale_nth t j y Hj) as (mn' & mx' & Emn' & Emx' & Nj).
    rewrite Emn in Emn'. rewrite Emx in Emx'. injection Emn' as <-. injection Emx' as <-.
    eexists _, _, _. split; [exact Hcol |].
    split; [apply finish_column_nth; rewrite normalize_column_eq, I; exact Ni |].
    split; [apply finish_column_nth; rewrite normalize_column_eq, I; exact Nj |].
    apply round1_mono. destruct (Qlt_le_dec mn mx) as [L | L]; [| lra].
    assert (D : (x - mn) / (mx - mn) <= (y - mn) / (mx - mn)).
    { unfold Qdiv. apply Qmult_le_compat_r; [lra |].
      apply Qlt_le_weak, Qinv_lt_0_compat. lra. }
    lra.
Qed.

(** X3.  In a dimension that is not inverted and whose observed values are
    not all equal, the countries that hold the highest observed value score
    100.0 and the countries that hold the lowest score 0.0. *)
Theorem best_scores_100_and_worst_scores_0 (df : DataFrame) (k : nat) (d : Dim)
  (s : list float) (lo hi : Q) :
  nth_error (columns (drop_sparse df)) k = Some (d, s) ->
  should_invert d = false ->
  In (Some lo) s -> In (Some hi) s -> lo < hi ->
  (forall z, In (Some z) s -> lo <= z <= hi) ->
  exists s',
    nth_error (columns (table (transform df))) k = Some (d, s') /\
    forall i z, nth_error s i = Some (Some z) ->
      exists q, nth_error s' i = Some (Some q) /\
                (z == hi -> q == 100) /\ (z == lo -> q == 0).
Proof.
  intros Hk I Hlo Hhi Hlt Hall.
  exists (finish_column d s). split.
  { rewrite transform_columns, nth_error_map, Hk. reflexivity. }
  intros i z Hi. apply fill_column_observed in Hi.
  set (t := fill_column s) in *.
  destruct (minmax_scale_nth t i z Hi) as (mn & mx & Emn & Emx & Ni).
  destruct (smin_spec t mn Emn) as [Imn Lmn].
  destruct (smax_spec t mx Emx) as [Imx Lmx].
  pose proof (fill_column_between lo hi s Hall) as B.
  assert (Amn : mn == lo).
  { pose proof (B _ Imn). pose proof (Lmn lo (fill_column_keeps s lo Hlo)). lra. }
  assert (Amx : mx == hi).
  { pose proof (B _ Imx). pose proof (Lmx hi (fill_column_keeps s hi Hhi)). lra. }
  destruct (Qlt_le_dec mn mx) as [L | L]; [| lra].
  eexists. split; [apply finish_column_nth; rewrite normalize_column_eq, I; exact Ni |].
  cbn [fround1 option_map]. split; intro E.
  - rewrite (round1_eq _ 100); [reflexivity |]. rewrite E, Amn, Amx. field. lra.
  - rewrite (round1_eq _ 0); [reflexivity |]. rewrite E, Amn, Amx. field. lra.
Qed.

Lemma composite_index_is_a_score_witness :
  List.length (composite_index (transform Examples.wide4))
  = nrows (table (transform Examples.wide4)) /\
  Forall in_range (composite_index (transform Examples.wide4)).
Proof.
  apply (composite_index_is_a_score Examples.wide4).
  - split; [reflexivity | repeat constructor].
  - exists life_satisfaction. eexists. split; [left; reflexivity | reflexivity].
Defined.

Lemma drop_sparse_keeps_the_half_observed_witness :
  (columns Examples.wide_sparse = [] -> drop_sparse Examples.wide_sparse = Examples.wide_sparse) /\
  (columns Examples.wide_sparse <> [] ->
   drop_sparse Examples.wide_sparse
   = select_rows (map (fun r => (2 * count_na r <=? List.length (columns Examples.wide_sparse))%nat)
                      (rows Examples.wide_sparse))
                 Examples.wide_sparse).
Proof.
  apply (drop_sparse_keeps_the_half_observed Examples.wide_sparse).
  split; [reflexivity | repeat constructor].
Defined.

Lemma normalisation_keeps_or_reverses_the_order_witness :
  exists s' p q,
    nth_error (columns (table (transform Examples.wide4))) 1 = Some (safety, s') /\
    nth_error s' 0 = Some (Some p) /\
    nth_error s' 3 = Some (Some q) /\
    (if should_invert safety then q <= p else p <= q).
Proof.
  apply (normalisation_keeps_or_reverses_the_order Examples.wide4 1 safety
           [Some (5 # 10); Some (6 # 10); Some (45 # 10); Some (250 # 10)] 0 3
           (5 # 10) (250 # 10)).
  - vm_compute. reflexivity.
  - reflexivity.
  - reflexivity.
  - discriminate.
Defined.

Lemma best_scores_100_and_worst_scores_0_witness :
  exists s',
    nth_error (columns (table (transform Examples.wide4))) 0 = Some (life_satisfaction, s') /\
    forall i z,
      nth_error [Some (78 # 10); Some (75 # 10); Some (62 # 10); Some (60 # 10)] i
      = Some (Some z) ->
      exists q, nth_error s' i = Some (Some q) /\
                (z == 78 # 10 -> q == 100) /\ (z == 60 # 10 -> q == 0).
Proof.
  apply (best_scores_100_and_worst_scores_0 Examples.wide4 0 life_satisfaction
           [Some (78 # 10); Some (75 # 10); Some (62 # 10); Some (60 # 10)]
           (60 # 10) (78 # 10)).
  - vm_compute. reflexivity.
  - reflexivity.
  - simpl. tauto.
  - simpl. tauto.
  - reflexivity.
  - intros z H. simpl in H.
    repeat (destruct H as [H | H]; [injection H as <-; split; discriminate |]).
    destruct H.
Defined.

(** X6.  The check "All scores 0-100" of the last step passes on the output
    exactly when the output holds a number: a cell that is NaN does not make
    it fail, and it fails only on an output without any number. *)
Theorem all_scores_check_passes_iff_a_number (df : DataFrame) :
  all_scores_0_100 (table (transform df)) = true <-> has_number (table (transform df)).
Proof.
  set (t := table (transform df)). split.
  - unfold all_scores_0_100. intro H. apply andb_prop in H as [H _].
    unfold fge in H. destruct (smin (column_minima t)) as [m |] eqn:E; [| discriminate].
    apply smin_spec in E as [E _]. unfold column_minima in E.
    apply in_map_iff in E as [[d s] [E Hin]]. cbn [snd] in E.
    apply smin_spec in E as [E _]. now exists d, s, m.
  - intros (d & s & x & Hin & Hx).
    assert (R : forall d1 s1 z, In (d1, s1) (columns t) -> In (Some z) s1 -> 0 <= z <= 100).
    { intros d1 s1 z H1 Hz. pose proof (transform_cells_range df d1 s1 H1) as F.
      rewrite Forall_forall in F. destruct (F _ Hz) as [? | F']; [discriminate | exact F']. }
    destruct (smin_some s x Hx) as [m0 Em0]. destruct (smax_some s x Hx) as [M0 EM0].
    assert (I0 : In (Some m0) (column_minima t)).
    { unfold column_minima. apply in_map_iff. now exists (d, s). }
    assert (I1 : In (Some M0) (column_maxima t)).
    { unfold column_maxima. apply in_map_iff. now exists (d, s). }
    destruct (smin_some _ _ I0) as [m Em]. destruct (smax_some _ _ I1) as [M EM].
    unfold all_scores_0_100, fge, fle. rewrite Em, EM.
    apply smin_spec in Em as [Em _]. apply smax_spec in EM as [EM _].
    unfold column_minima in Em. apply in_map_iff in Em as [[d1 s1] [Em H1]].
    unfold column_maxima in EM. apply in_map_iff in EM as [[d2 s2] [EM H2]].
    cbn [snd] in Em, EM.
    apply smin_spec in Em as [Em _]. apply smax_spec in EM as [EM _].
    pose proof (R _ _ _ H1 Em). pose proof (R _ _ _ H2 EM).
    destruct (Qlt_le_dec m 0); [lra |]. destruct (Qlt_le_dec 100 M); [lra | reflexivity].
Qed.

(** On the table whose homicide column loses its only observation the check
    passes although the safety cell of the output is NaN. *)
Example check_passes_over_a_nan_cell :
  all_scores_0_100 (table (transform Examples.wide_sparse)) = true /\
  value_of (table (transform Examples.wide_sparse)) "Borduria" safety = Some None.
Proof. split; vm_compute; reflexivity. Qed.

(** ** The two ends of an inverted dimension *)

Lemma count_lt_lowest (xs : list Q) (x : Q) :
  (forall z, In z xs -> x <= z) -> count_lt xs x = 0%nat.
Proof.
  unfold count_lt. induction xs as [| y t IH]; intro H; [reflexivity |].
  cbn [filter]. destruct (Qcompare y x) eqn:C.
  - apply IH. intros z Hz. apply H. now right.
  - apply Qlt_alt in C. assert (x <= y) by (apply H; now left). lra.
  - apply IH. intros z Hz. apply H. now right.
Qed.

Lemma count_highest (xs : list Q) (x : Q) :
  (forall z, In z xs -> z <= x) ->
  (count_lt xs x + count_eq xs x)%nat = List.length xs.
Proof.
  unfold count_lt, count_eq. induction xs as [| y t IH]; intro H; [reflexivity |].
  cbn [filter List.length].
  assert (IH' := IH (fun z Hz => H z (or_intror Hz))).
  destruct (Qcompare y x) eqn:C; cbn [List.length]; try lia.
  apply Qgt_alt in C. assert (y <= x) by (apply H; now left). lra.
Qed.

(** Rounding to one decimal moves a number by at most 0.05. *)
Lemma rint_close (x : Q) : Qabs (inject_Z (rint x) - x) <= 1 # 2.
Proof.
  pose proof (Qfloor_le x) as L. pose proof (Qlt_floor x) as U.
  rewrite inject_Z_plus in U. change (inject_Z 1) with 1 in U.
  unfold rint. apply Qabs_Qle_condition.
  destruct (Qcompare (x - inject_Z (Qfloor x)) (1 # 2)) eqn:C.
  - apply Qeq_alt in C. destruct (Z.even (Qfloor x)).
    + split; lra.
    + rewrite inject_Z_plus. change (inject_Z 1) with 1. split; lra.
  - apply Qlt_alt in C. split; lra.
  - apply Qgt_alt in C. rewrite inject_Z_plus. change (inject_Z 1) with 1. split; lra.
Qed.

Lemma round1_close (x : Q) : Qabs (round1 x - x) <= 1 # 20.
Proof.
  pose proof (rint_close (x * 10)) as H. apply Qabs_Qle_condition in H as [H1 H2].
  unfold round1. apply Qabs_Qle_condition.
  set (r := inject_Z (rint (x * 10))) in *.
  setoid_replace (r / 10 - x) with ((r - x * 10) / 10) by field.
  split.
  - apply Qle_shift_div_l; lra.
  - apply Qle_shift_div_r; lra.
Qed.

(** X19.  In an inverted dimension with a cell for every surviving country
    the score of a country follows from its place alone.  With [n] countries
    and [m] of them holding the value of the country: when that value is the
    lowest of the column the score is [(1 - (m + 1) / (2 n)) * 100] to one
    decimal, and when it is the highest the score is [(m - 1) / (2 n) * 100]
    to one decimal, which is exactly 0.0 when the country holds it alone.
    "To one decimal" is stated as a distance below 0.1, which does not
    depend on the way a tie of the rounding falls. *)
Theorem inverted_scores_at_the_two_ends (df : DataFrame) (k : nat) (d : Dim)
  (s : list float) (i : nat) (x : Q) :
  nth_error (columns (drop_sparse df)) k = Some (d, s) ->
  should_invert d = true ->
  existsb isna s = false ->
  nth_error s i = Some (Some x) ->
  exists s' q,
    nth_error (columns (table (transform df))) k = Some (d, s') /\
    nth_error (columns (table (transform_without_fill df))) k = Some (d, s') /\
    nth_error s' i = Some (Some q) /\
    let t := valid s in
    let m := inject_Z (Z.of_nat (count_eq t x)) in
    ((forall z, In z t -> x <= z) ->
     Qabs (q - (1 - (m + 1) / (2 * Qlen t)) * 100) < 1 # 10) /\
    ((forall z, In z t -> z <= x) ->
     Qabs (q - (m - 1) / (2 * Qlen t) * 100) < 1 # 10 /\
     (count_eq t x = 1%nat -> q == 0)).
Proof.
  intros Hk I Full Hi.
  assert (Fs : fill_column s = s) by (unfold fill_column; now rewrite Full).
  pose proof (invert_scale_nth _ i x Hi) as N.
  exists (finish_column d s). eexists.
  split; [rewrite transform_columns, nth_error_map, Hk; reflexivity |].
  split.
  { rewrite transform_without_fill_columns, nth_error_map, Hk.
    unfold finish_column. rewrite Fs. reflexivity. }
  split.
  { apply finish_column_nth. rewrite Fs, normalize_column_eq, I. exact N. }
  cbv zeta.
  assert (Hin : In x (valid s)) by (apply valid_In; eapply nth_error_In, Hi).
  set (t := valid s) in *.
  pose proof (rank_avg_bounds t x Hin) as [B1 B2].
  assert (P : 0 < Qlen t) by lra.
  pose proof (round1_close ((1 - rank_avg t x / Qlen t) * 100)) as Cl.
  split.
  - intro L.
    assert (F : (1 - rank_avg t x / Qlen t) * 100
                == (1 - (inject_Z (Z.of_nat (count_eq t x)) + 1) / (2 * Qlen t)) * 100).
    { unfold rank_avg. rewrite (count_lt_lowest t x L).
      change (inject_Z (Z.of_nat 0)) with 0. field. lra. }
    rewrite <- F. eapply Qle_lt_trans; [exact Cl | reflexivity].
  - intro H. pose proof (count_highest t x H) as C.
    assert (C' : inject_Z (Z.of_nat (count_lt t x))
                 == Qlen t - inject_Z (Z.of_nat (count_eq t x))).
    { unfold Qlen. rewrite <- C, Nat2Z.inj_add, inject_Z_plus. ring. }
    assert (F : (1 - rank_avg t x / Qlen t) * 100
                == (inject_Z (Z.of_nat (count_eq t x)) - 1) / (2 * Qlen t) * 100).
    { unfold rank_avg. rewrite C'. field. lra. }
    split.
    + rewrite <- F. eapply Qle_lt_trans; [exact Cl | reflexivity].
    + intro U. rewrite (round1_eq _ 0); [reflexivity |].
      rewrite F, U. change (inject_Z (Z.of_nat 1)) with 1. field. lra.
Qed.

Lemma inverted_scores_at_the_two_ends_witness :
  exists s' q,
    nth_error (columns (table (transform Examples.wide4))) 1 = Some (safety, s') /\
    nth_error (columns (table (transform_without_fill Examples.wide4))) 1
    = Some (safety, s') /\
    nth_error s' 3 = Some (Some q) /\
    let t := valid [Some (5 # 10); Some (6 # 10); Some (45 # 10); Some (250 # 10)] in
    let m := inject_Z (Z.of_nat (count_eq t (250 # 10))) in
    ((forall z, In z t -> 250 # 10 <= z) ->
     Qabs (q - (1 - (m + 1) / (2 * Qlen t)) * 100) < 1 # 10) /\
    ((forall z, In z t -> z <= 250 # 10) ->
     Qabs (q - (m - 1) / (2 * Qlen t) * 100) < 1 # 10 /\
     (count_eq t (250 # 10) = 1%nat -> q == 0)).
Proof.
  apply (inverted_scores_at_the_two_ends Examples.wide4 1 safety
           [Some (5 # 10); Some (6 # 10); Some (45 # 10); Some (250 # 10)] 3 (250 # 10)).
  - vm_compute. reflexivity.
  - reflexivity.
  - reflexivity.
  - reflexivity.
Defined.

End NormalisationFacts.

(** ** The extraction of the most recent observations *)

Module ExtractFacts.
Import Num Extract.

Lemma same_group_refl (a : Observation) : same_group a a = true.
Proof. unfold same_group. now rewrite !String.eqb_refl. Qed.

Lemma same_group_sym (a b : Observation) : same_group a b = same_group b a.
Proof.
  unfold same_group.
  now rewrite (String.eqb_sym (Country a)), (String.eqb_sym (REF_AREA a)),
              (String.eqb_sym (Measure a)).
Qed.

Lemma same_group_trans (a b c : Observation) :
  same_group a b = true -> same_group b c = true -> same_group a c = true.
Proof.
  unfold same_group. intros H1 H2.
  apply andb_prop in H1 as [H1 M1]. apply andb_prop in H1 as [C1 R1].
  apply andb_prop in H2 as [H2 M2]. apply andb_prop in H2 as [C2 R2].
  apply String.eqb_eq in C1, R1, M1, C2, R2, M2.
  rewrite C1, C2, R1, R2, M1, M2, !String.eqb_refl. reflexivity.
Qed.

Lemma tail_1_subset (l : list Observation) (r : Observation) :
  In r (tail_1 l) -> In r l.
Proof.
  induction l as [| a t IH]; simpl; [tauto |].
  destruct (existsb (same_group a) t); simpl; intuition.
Qed.

(** In a list sorted by year, every row has a row of its group among the
    kept ones that is not older. *)
Lemma tail_1_latest (l : list Observation) :
  StronglySorted by_year l ->
  forall r, In r l ->
    exists r', In r' (tail_1 l) /\ same_group r r' = true /\ (Year r <= Year r')%Z.
Proof.
  induction 1 as [| a t Hs IH Ha]; intros r Hr; [destruct Hr |].
  simpl. destruct (existsb (same_group a) t) eqn:E.
  - destruct Hr as [<- | Hr]; [| auto].
    apply existsb_exists in E as [b [Hb Hab]].
    destruct (IH b Hb) as (r' & Hin & Hg & Hy).
    exists r'. split; [exact Hin |]. split; [eapply same_group_trans; eassumption |].
    rewrite Forall_forall in Ha. specialize (Ha _ Hb). unfold by_year in Ha. lia.
  - destruct Hr as [<- | Hr].
    + exists a. split; [now left |]. split; [apply same_group_refl | lia].
    + destruct (IH r Hr) as (r' & Hin & Hg & Hy). exists r'. split; [now right | auto].
Qed.

(** No two of the kept rows belong to one group. *)
Lemma tail_1_one_per_group (l : list Observation) :
  ForallOrdPairs (fun a b => same_group a b = false) (tail_1 l).
Proof.
  induction l as [| a t IH]; simpl; [constructor |].
  destruct (existsb (same_group a) t) eqn:E; [exact IH |].
  constructor; [| exact IH].
  apply Forall_forall. intros b Hb. apply tail_1_subset in Hb.
  destruct (same_group a b) eqn:G; [| reflexivity].
  assert (X : existsb (same_group a) t = true) by (apply existsb_exists; eauto).
  congruence.
Qed.

Lemma insert_by_year_perm (r : Observation) (l : list Observation) :
  Permutation (insert_by_year r l) (r :: l).
Proof.
  induction l as [| h t IH]; simpl; [reflexivity |].
  destruct (Year h <? Year r)%Z; [| reflexivity].
  rewrite IH. apply perm_swap.
Qed.

Lemma sort_by_year_perm (l : list Observation) : Permutation (sort_by_year l) l.
Proof.
  induction l as [| r t IH]; simpl; [reflexivity |].
  rewrite insert_by_year_perm. now apply perm_skip.
Qed.

Lemma insert_by_year_sorted (r : Observation) (l : list Observation) :
  StronglySorted by_year l -> StronglySorted by_year (insert_by_year r l).
Proof.
  induction 1 as [| h t Hs IH Hh]; simpl.
  - repeat constructor.
  - destruct (Z.ltb_spec (Year h) (Year r)) as [L | L].
    + constructor; [exact IH |].
      apply Forall_forall. intros x Hx.
      apply (Permutation_in _ (insert_by_year_perm r t)) in Hx.
      destruct Hx as [<- | Hx]; [unfold by_year; lia |].
      rewrite Forall_forall in Hh. auto.
    + constructor; [constructor; assumption |].
      constructor; [unfold by_year; lia |].
      apply Forall_forall. intros x Hx. rewrite Forall_forall in Hh.
      specialize (Hh _ Hx). unfold by_year in *. lia.
Qed.

Lemma sort_by_year_sorted (l : list Observation) : StronglySorted by_year (sort_by_year l).
Proof.
  induction l as [| r t IH]; simpl; [constructor | now apply insert_by_year_sorted].
Qed.

(** X7.  Whatever sort by year is used: a row is kept only if it is a row of
    the source whose three breakdowns are "Total" and whose measure is one of
    the selected measures; for every such row of the source a row of its
    country, country code and measure is kept whose year is not earlier; and
    no two kept rows share country, country code and measure. *)
Theorem df_key_holds_the_latest_row_of_each_group
  (sort_values : list Observation -> list Observation) (df : list Observation) :
  (forall l, Permutation (sort_values l) l) ->
  (forall l, StronglySorted by_year (sort_values l)) ->
  (forall r', In r' (df_key sort_values df) ->
     In r' df /\ is_total r' = true /\ is_key r' = true) /\
  (forall r, In r df -> is_total r = true -> is_key r = true ->
     exists r', In r' (df_key sort_values df) /\
                same_group r r' = true /\ (Year r <= Year r')%Z) /\
  ForallOrdPairs (fun a b => same_group a b = false) (df_key sort_values df).
Proof.
  intros Hp Hs. unfold df_key, df_totals. split; [| split].
  - intros r' H. apply tail_1_subset in H.
    apply (Permutation_in _ (Hp _)) in H.
    apply filter_In in H as [H K]. apply filter_In in H as [H T]. auto.
  - intros r Hr Ht Hk. apply tail_1_latest; [apply Hs |].
    apply (Permutation_in _ (Permutation_sym (Hp _))).
    apply filter_In. split; [| exact Hk]. apply filter_In. now split.
  - apply tail_1_one_per_group.
Qed.

Lemma df_key_holds_the_latest_row_of_each_group_witness :
  (forall r', In r' (df_key sort_by_year Cases.observations) ->
     In r' Cases.observations /\ is_total r' = true /\ is_key r' = true) /\
  (forall r, In r Cases.observations -> is_total r = true -> is_key r = true ->
     exists r', In r' (df_key sort_by_year Cases.observations) /\
                same_group r r' = true /\ (Year r <= Year r')%Z) /\
  ForallOrdPairs (fun a b => same_group a b = false)
                 (df_key sort_by_year Cases.observations).
Proof.
  apply (df_key_holds_the_latest_row_of_each_group sort_by_year Cases.observations).
  - exact sort_by_year_perm.
  - exact sort_by_year_sorted.
Defined.

(** Of the example rows, the homicide rate of Finland of 2021 and the life
    satisfaction of Norway are kept. *)
Example df_key_of_the_example :
  df_key sort_by_year Cases.observations
  = [ Cases.observation "Norway" "NOR" "Life satisfaction" 2020 (73 # 10) "Total";
      Cases.observation "Finland" "FIN" "Homicides" 2021 (12 # 10) "Total" ]%string.
Proof. reflexivity. Qed.

End ExtractFacts.

(** ** The features at their edges *)

Module FeatureFacts.
Import Num Dash DashFacts.

Lemma bind_ok {A B : Type} (m : Result A) (f : A -> Result B) (b : B) :
  bind m f = Ok b -> exists a, m = Ok a /\ f a = Ok b.
Proof. destruct m as [a | e]; simpl; [eauto | discriminate]. Qed.

Lemma getitem_ok (df : DataFrame) (k : string) (c : Column) :
  getitem df k = Ok c -> lookup k (cols df) = Some c.
Proof. unfold getitem. destruct (lookup k (cols df)); [congruence | discriminate]. Qed.

Lemma getitem_missing (df : DataFrame) (k : string) :
  lookup k (cols df) = None -> getitem df k = Raise (KeyError k).
Proof. unfold getitem. now intros ->. Qed.

(** A mask without any [True] selects no row. *)
Lemma height_select_none (mask : list bool) (df : DataFrame) :
  Forall (eq false) mask -> height (select_rows mask df) = 0%nat.
Proof.
  intro H. unfold select_rows. cbn [height].
  generalize (height df). intro n. revert n.
  induction H as [| b mask Hb _ IH]; intros [| n]; simpl; auto.
  subst b. apply IH.
Qed.

Lemma eq_mask_unknown (names : list string) (v : Value) :
  (forall n, In n names -> v <> VStr n) -> Forall (eq false) (eq_mask (TextCol names) v).
Proof.
  intro H. apply Forall_forall. intros b Hb.
  destruct v as [| q | c]; cbn [eq_mask] in Hb; apply in_map_iff in Hb as [n [<- Hn]];
    try reflexivity.
  destruct (String.eqb_spec n c) as [-> | _]; [| reflexivity].
  now destruct (H c Hn).
Qed.

Section Callbacks.

Variable Filters : Type.
Variable get_data : Result DataFrame.
Variable filter_data : DataFrame -> Filters -> Result DataFrame.
Variable format_exc : Exn -> string.
Variable pearson : list Q -> list Q -> float.

(** X8.  When the filtered table has no row, each of the three callbacks
    returns a figure that carries the note "No data available" and no trace,
    with an empty error text, whatever the controls hold; the two features
    with a narrative return "No data available for analysis." *)
Theorem empty_table_gives_the_no_data_note
  (data df : DataFrame) (fl : Filters)
  (dimension environment education jobs country improvement : option Value) :
  get_data = Ok data ->
  filter_data data fl = Ok df ->
  height df = 0%nat ->
  Policy.update Filters get_data filter_data format_exc
    {| Policy.dimension_control := dimension; Policy.environment_slider := environment;
       Policy.education_slider := education; Policy.jobs_slider := jobs;
       Policy.filters := fl |}
  = (note_figure [Lit "No data available"], []) /\
  Simulator.update Filters get_data filter_data format_exc pearson
    {| Simulator.country_control := country; Simulator.dimension_control := dimension;
       Simulator.improvement_control := improvement; Simulator.filters := fl |}
  = (note_figure [Lit "No data available"], [[Lit "No data available for analysis."]], []) /\
  Diagnosis.update Filters get_data filter_data format_exc
    {| Diagnosis.country_control := country; Diagnosis.filters := fl |}
  = (note_figure [Lit "No data available"], [[Lit "No data available for analysis."]], []).
Proof.
  intros Hg Hf Hh. split; [| split].
  - unfold Policy.update, Policy._update_logic, Policy.chart. cbn [Policy.filters].
    rewrite Hg. cbn [bind]. rewrite Hf. cbn [bind]. rewrite Hh. reflexivity.
  - unfold Simulator.update, Simulator._update_logic, Simulator.chart. cbn [Simulator.filters].
    rewrite Hg. cbn [bind]. rewrite Hf. cbn [bind]. rewrite Hh. reflexivity.
  - unfold Diagnosis.update, Diagnosis._update_logic, Diagnosis.chart. cbn [Diagnosis.filters].
    rewrite Hg. cbn [bind]. rewrite Hf. cbn [bind]. rewrite Hh. reflexivity.
Qed.

(** X11.  When the filtered table has rows but none for the selected country
    (the default country, when the control is empty), the simulation insight
    and the diagnostic each return a figure that carries the note "No data
    available for <country>", the same sentence as narrative, and an empty
    error text: an unknown country is not an error. *)
Theorem unknown_country_gives_a_note
  (data df : DataFrame) (fl : Filters) (names : list string)
  (country dimension improvement : option Value) :
  get_data = Ok data ->
  filter_data data fl = Ok df ->
  height df <> 0%nat ->
  getitem df "country" = Ok (TextCol names) ->
  (forall n, In n names ->
     get_or_default country Simulator.country_default <> VStr n /\
     get_or_default country Diagnosis.country_default <> VStr n) ->
  Simulator.update Filters get_data filter_data format_exc pearson
    {| Simulator.country_control := country; Simulator.dimension_control := dimension;
       Simulator.improvement_control := improvement; Simulator.filters := fl |}
  = (note_figure [Lit "No data available for ";
                  Str (get_or_default country Simulator.country_default)],
     [[Lit "No data available for ";
       Str (get_or_default country Simulator.country_default); Lit "."]], []) /\
  Diagnosis.update Filters get_data filter_data format_exc
    {| Diagnosis.country_control := country; Diagnosis.filters := fl |}
  = (note_figure [Lit "No data available for ";
                  Str (get_or_default country Diagnosis.country_default)],
     [[Lit "No data available for ";
       Str (get_or_default country Diagnosis.country_default); Lit "."]], []).
Proof.
  intros Hg Hf Hh Hc Hn. split.
  - unfold Simulator.update, Simulator._update_logic, Simulator.chart.
    cbn [Simulator.filters Simulator.country_control].
    rewrite Hg. cbn [bind]. rewrite Hf. cbn [bind].
    destruct (Nat.eqb_spec (height df) 0) as [E | _]; [contradiction |].
    rewrite Hc. cbn [bind].
    rewrite height_select_none; [reflexivity |].
    apply eq_mask_unknown. intros n Hin. apply (Hn n Hin).
  - unfold Diagnosis.update, Diagnosis._update_logic, Diagnosis.chart.
    cbn [Diagnosis.filters Diagnosis.country_control].
    rewrite Hg. cbn [bind]. rewrite Hf. cbn [bind].
    destruct (Nat.eqb_spec (height df) 0) as [E | _]; [contradiction |].
    rewrite Hc. cbn [bind].
    rewrite height_select_none; [reflexivity |].
    apply eq_mask_unknown. intros n Hin. apply (Hn n Hin).
Qed.

End Callbacks.

Lemma empty_table_gives_the_no_data_note_witness :
  Policy.update unit (Ok Cases.no_rows) Examples.keep_all Examples.no_traceback
    {| Policy.dimension_control := Some (VStr "jobs"); Policy.environment_slider := Some (VNum 25);
       Policy.education_slider := None; Policy.jobs_slider := None;
       Policy.filters := tt |}
  = (note_figure [Lit "No data available"], []) /\
  Simulator.update unit (Ok Cases.no_rows) Examples.keep_all Examples.no_traceback
    Examples.pearson_example
    {| Simulator.country_control := Some (VStr "Finland");
       Simulator.dimension_control := Some (VStr "jobs");
       Simulator.improvement_control := Some (VNum 5); Simulator.filters := tt |}
  = (note_figure [Lit "No data available"], [[Lit "No data available for analysis."]], []) /\
  Diagnosis.update unit (Ok Cases.no_rows) Examples.keep_all Examples.no_traceback
    {| Diagnosis.country_control := Some (VStr "Finland"); Diagnosis.filters := tt |}
  = (note_figure [Lit "No data available"], [[Lit "No data available for analysis."]], []).
Proof.
  apply (empty_table_gives_the_no_data_note unit (Ok Cases.no_rows) Examples.keep_all
           Examples.no_traceback Examples.pearson_example Cases.no_rows Cases.no_rows tt
           (Some (VStr "jobs")) (Some (VNum 25)) None None (Some (VStr "Finland"))
           (Some (VNum 5)));
    reflexivity.
Defined.

Lemma unknown_country_gives_a_note_witness :
  Simulator.update unit (Ok Examples.nations) Examples.keep_all Examples.no_traceback
    Examples.pearson_example
    {| Simulator.country_control := Some (VStr "Atlantis");
       Simulator.dimension_control := None;
       Simulator.improvement_control := None; Simulator.filters := tt |}
  = (note_figure [Lit "No data available for ";
                  Str (get_or_default (Some (VStr "Atlantis")) Simulator.country_default)],
     [[Lit "No data available for ";
       Str (get_or_default (Some (VStr "Atlantis")) Simulator.country_default);
       Lit "."]], []) /\
  Diagnosis.update unit (Ok Examples.nations) Examples.keep_all Examples.no_traceback
    {| Diagnosis.country_control := Some (VStr "Atlantis"); Diagnosis.filters := tt |}
  = (note_figure [Lit "No data available for ";
                  Str (get_or_default (Some (VStr "Atlantis")) Diagnosis.country_default)],
     [[Lit "No data available for ";
       Str (get_or_default (Some (VStr "Atlantis")) Diagnosis.country_default);
       Lit "."]], []).
Proof.
  apply (unknown_country_gives_a_note unit (Ok Examples.nations) Examples.keep_all
           Examples.no_traceback Examples.pearson_example Examples.nations Examples.nations
           tt ["Finland"; "Denmark"; "United States"]%string (Some (VStr "Atlantis"))
           None None).
  - reflexivity.
  - reflexivity.
  - discriminate.
  - reflexivity.
  - intros n H. simpl in H.
    repeat (destruct H as [<- | H]; [split; discriminate |]). destruct H.
Defined.

(** ** The policy simulation needs its nine columns *)

Lemma apply_boost_ok (d d' : DataFrame) (k : string) (b : Value) :
  Policy.apply_boost d k b = Ok d' ->
  lookup k (cols d) <> None /\
  forall k', k' <> (k ++ "_sim")%string -> lookup k' (cols d') = lookup k' (cols d).
Proof.
  unfold Policy.apply_boost. intro H.
  apply bind_ok in H as (c & Hc & H). apply bind_ok in H as (q & _ & H).
  apply bind_ok in H as (s & _ & H). injection H as <-.
  apply getitem_ok in Hc. split; [congruence |].
  intros k' N. unfold setitem. cbn [cols]. now apply lookup_assign_other.
Qed.

Lemma cap_ok (d d' : DataFrame) (k : string) :
  Policy.cap d k = Ok d' ->
  forall k', k' <> k -> lookup k' (cols d') = lookup k' (cols d).
Proof.
  unfold Policy.cap. intro H.
  apply bind_ok in H as (c & _ & H). apply bind_ok in H as (m & _ & H).
  injection H as <-. intros k' N. unfold setitem. cbn [cols]. now apply lookup_assign_other.
Qed.

Lemma product_ok (d : DataFrame) (t : string * string) (c : Column) :
  Policy.product d t = Ok c -> lookup (fst t) (cols d) <> None.
Proof.
  unfold Policy.product. intro H. apply bind_ok in H as (c0 & Hc & _).
  apply getitem_ok in Hc. congruence.
Qed.

Lemma weighted_sum_ok (d : DataFrame) (ls : Column) :
  Policy.weighted_sum d = Ok ls ->
  forall t, In t Policy.sum_terms -> lookup (fst t) (cols d) <> None.
Proof.
  unfold Policy.weighted_sum, Policy.sum_terms. cbn [fold_left]. intro H.
  repeat match goal with
         | H : bind _ _ = Ok _ |- _ =>
             let a := fresh "a" in let Ha := fresh "Ha" in
             apply bind_ok in H as (a & Ha & H)
         end.
  intros t Ht. simpl in Ht.
  repeat (destruct Ht as [<- | Ht]; [eapply product_ok; eassumption |]).
  destruct Ht.
Qed.

(** The simulated table exists only for a base table that has the nine
    dimension columns. *)
Lemma simulate_needs_the_dimensions (df df_sim : DataFrame) (dimension be bd bj : Value) :
  Policy.simulate df dimension be bd bj = Ok df_sim ->
  forall k, In k Policy.dimension_options -> lookup k (cols df) <> None.
Proof.
  unfold Policy.simulate. intro H.
  apply bind_ok in H as (d1 & H1 & H). apply bind_ok in H as (d2 & H2 & H).
  apply bind_ok in H as (d3 & H3 & H). apply bind_ok in H as (d4 & H4 & H).
  apply bind_ok in H as (d5 & H5 & H). apply bind_ok in H as (d6 & H6 & H).
  apply bind_ok in H as (ls & Hls & _).
  apply apply_boost_ok in H1 as [E1 K1]. apply apply_boost_ok in H2 as [E2 K2].
  apply apply_boost_ok in H3 as [E3 K3].
  pose proof (cap_ok _ _ _ H4) as K4. pose proof (cap_ok _ _ _ H5) as K5.
  pose proof (cap_ok _ _ _ H6) as K6.
  pose proof (weighted_sum_ok _ _ Hls) as W.
  assert (Back : forall k, In k Policy.dimension_options ->
                   lookup k (cols d6) = lookup k (cols df)).
  { intros k Hk. simpl in Hk.
    rewrite K6, K5, K4, K3, K2, K1;
      [reflexivity | | | | | |];
      repeat (destruct Hk as [<- | Hk]; [discriminate |]); destruct Hk. }
  intros k Hk.
  assert (Hk' := Hk). simpl in Hk'.
  destruct Hk' as [<- | [<- | [<- | Hk']]].
  - exact E1.
  - rewrite K1 in E2 by discriminate. exact E2.
  - rewrite K2, K1 in E3 by discriminate. exact E3.
  - rewrite <- (Back k Hk). apply (W (k, k)). simpl.
    repeat (destruct Hk' as [<- | Hk']; [tauto |]). destruct Hk'.
Qed.

Section PolicyCallback.

Variable Filters : Type.
Variable get_data : Result DataFrame.
Variable filter_data : DataFrame -> Filters -> Result DataFrame.
Variable format_exc : Exn -> string.

(** X9.  The policy simulation needs the nine dimension columns, whichever
    dimension is plotted: on a table with rows that lacks one of them, the
    callback returns the placeholder figure and the text of an error, for
    every state of the controls. *)
Theorem policy_simulation_needs_every_dimension
  (data df : DataFrame) (kwargs : Policy.Kwargs Filters) (k : string) :
  get_data = Ok data ->
  filter_data data (Policy.filters Filters kwargs) = Ok df ->
  height df <> 0%nat ->
  In k Policy.dimension_options ->
  lookup k (cols df) = None ->
  exists e,
    Policy._update_logic Filters get_data filter_data kwargs = Raise e /\
    Policy.update Filters get_data filter_data format_exc kwargs
    = (error_figure, error_msg format_exc e).
Proof.
  intros Hg Hf Hh Hk Hl.
  unfold Policy.update, Policy._update_logic, Policy.chart.
  rewrite Hg. cbn [bind]. rewrite Hf. cbn [bind].
  destruct (Nat.eqb_spec (height df) 0) as [E | _]; [contradiction |].
  destruct (Policy.simulate df _ _ _ _) as [df_sim | e] eqn:S.
  - destruct (simulate_needs_the_dimensions _ _ _ _ _ _ S k Hk Hl).
  - exists e. cbn [bind]. split; reflexivity.
Qed.

End PolicyCallback.

Lemma policy_simulation_needs_every_dimension_witness :
  exists e,
    Policy._update_logic unit (Ok Cases.nations_without_jobs) Examples.keep_all
      Examples.zero_boosts = Raise e /\
    Policy.update unit (Ok Cases.nations_without_jobs) Examples.keep_all
      Examples.no_traceback Examples.zero_boosts
    = (error_figure, error_msg Examples.no_traceback e).
Proof.
  apply (policy_simulation_needs_every_dimension unit (Ok Cases.nations_without_jobs)
           Examples.keep_all Examples.no_traceback Cases.nations_without_jobs
           Cases.nations_without_jobs Examples.zero_boosts "jobs").
  - reflexivity.
  - reflexivity.
  - discriminate.
  - simpl. tauto.
  - reflexivity.
Defined.

(** The environment is plotted and no boost is set; the missing jobs column
    still makes the callback fail, with a key error on "jobs". *)
Example missing_jobs_column_is_a_key_error :
  Policy.update unit (Ok Cases.nations_without_jobs) Examples.keep_all
    Examples.no_traceback Examples.zero_boosts
  = (error_figure, error_msg Examples.no_traceback (KeyError "jobs")).
Proof. reflexivity. Qed.

(** ** More boost, more simulated wellbeing *)

Lemma boosted_cell_mono (raw b b' : Q) :
  0 <= raw -> b <= b' ->
  Qmin (raw * (1 + b / 100)) 100 <= Qmin (raw * (1 + b' / 100)) 100.
Proof.
  intros Hr Hb.
  assert (M : raw * (1 + b / 100) <= raw * (1 + b' / 100)).
  { assert (D : 0 <= raw * ((b' - b) / 100)).
    { apply Qmult_le_0_compat; [exact Hr |]. apply Qle_shift_div_l; lra. }
    setoid_replace (raw * (1 + b' / 100))
      with (raw * (1 + b / 100) + raw * ((b' - b) / 100)) by field.
    lra. }
  apply Q.min_glb; [| apply Q.le_min_r].
  eapply Qle_trans; [apply Q.le_min_l | exact M].
Qed.

(** X10.  In the policy simulation a larger boost never lowers a simulated
    value: for a row whose environment, education and jobs values are not
    negative, raising any of the three boosts leaves each simulated dimension
    and the simulated life satisfaction of the row equal or higher. *)
Theorem larger_boosts_never_lower_the_simulation (df : DataFrame) (b : Policy.Dimensions)
  (k : string) (be bd bj be' bd' bj' : Q) (i : nat) :
  Policy.holds df b -> In k Policy.dimension_options ->
  be <= be' -> bd <= bd' -> bj <= bj' ->
  (i < height df)%nat ->
  0 <= nth i (Policy.environment b) 0 ->
  0 <= nth i (Policy.education b) 0 ->
  0 <= nth i (Policy.jobs b) 0 ->
  exists lower higher,
    Policy.simulate df (VStr k) (VNum be) (VNum bd) (VNum bj) = Ok lower /\
    Policy.simulate df (VStr k) (VNum be') (VNum bd') (VNum bj') = Ok higher /\
    Forall (fun c => exists u v, Policy.cell lower c i = Some u /\
                                 Policy.cell higher c i = Some v /\ u <= v)
           [ "environment_sim"; "education_sim"; "jobs_sim";
             "life_satisfaction_sim" ]%string.
Proof.
  intros Hb Hk He Hd Hj Hi Pe Pd Pj.
  destruct (PolicyFacts.simulate_rows df b k be bd bj Hb Hk) as (lower & Hs & Hrows).
  destruct (PolicyFacts.simulate_rows df b k be' bd' bj' Hb Hk) as (higher & Hs' & Hrows').
  exists lower, higher. split; [exact Hs |]. split; [exact Hs' |].
  destruct (Hrows i Hi) as (Ce & Cd & Cj & (ls & Cl & El) & _).
  destruct (Hrows' i Hi) as (Ce' & Cd' & Cj' & (ls' & Cl' & El') & _).
  pose proof (boosted_cell_mono _ be be' Pe He) as Me.
  pose proof (boosted_cell_mono _ bd bd' Pd Hd) as Md.
  pose proof (boosted_cell_mono _ bj bj' Pj Hj) as Mj.
  repeat constructor.
  - eexists _, _. split; [exact Ce |]. split; [exact Ce' | exact Me].
  - eexists _, _. split; [exact Cd |]. split; [exact Cd' | exact Md].
  - eexists _, _. split; [exact Cj |]. split; [exact Cj' | exact Mj].
  - exists ls, ls'. split; [exact Cl |]. split; [exact Cl' |].
    rewrite El, El'. unfold Policy.spec_proxy. lra.
Qed.

Lemma larger_boosts_never_lower_the_simulation_witness :
  exists lower higher,
    Policy.simulate Examples.nations (VStr "income") (VNum 0) (VNum 10) (VNum 25) = Ok lower /\
    Policy.simulate Examples.nations (VStr "income") (VNum 10) (VNum 10) (VNum 50) = Ok higher /\
    Forall (fun c => exists u v, Policy.cell lower c 2 = Some u /\
                                 Policy.cell higher c 2 = Some v /\ u <= v)
           [ "environment_sim"; "education_sim"; "jobs_sim";
             "life_satisfaction_sim" ]%string.
Proof.
  apply (larger_boosts_never_lower_the_simulation Examples.nations
           Examples.nations_dimensions "income" 0 10 25 10 10 50 2).
  - repeat split; repeat constructor.
  - simpl. tauto.
  - discriminate.
  - discriminate.
  - discriminate.
  - simpl. lia.
  - discriminate.
  - discriminate.
  - discriminate.
Defined.

(** ** The estimate of mode (b) is bounded by the improvement *)

(** X12.  In the simulation insight the simulated life satisfaction differs
    from the current one by at most 0.3 times the size of the improvement,
    as long as the correlation that the library returns is a number of
    [-1, 1]; with a positive correlation and a positive improvement it is not
    lower than the current one. *)
Theorem estimate_is_bounded_by_the_improvement (pearson : list Q -> list Q -> float)
  (df country_data : DataFrame) (k : string) (imp cur_ls cur_d r : Q)
  (r1 r2 ls dcol : list Q) :
  getitem country_data "life_satisfaction" = Ok (NumCol (cur_ls :: r1)) ->
  getitem country_data k = Ok (NumCol (cur_d :: r2)) ->
  getitem df "life_satisfaction" = Ok (NumCol ls) ->
  getitem df k = Ok (NumCol dcol) ->
  pearson ls dcol = Some r ->
  - (1) <= r <= 1 ->
  exists s q,
    Simulator.simulate pearson df country_data (VStr k) (VNum imp) = Ok s /\
    Simulator.new_life_sat s = Some q /\
    Qabs (q - cur_ls) <= (3 # 10) * Qabs imp /\
    (0 <= imp -> 0 <= r -> cur_ls <= q).
Proof.
  intros H1 H2 H3 H4 Hr [Rl Ru].
  eexists _, _. split; [eapply SimulatorFacts.simulate_values; eassumption |].
  cbn [Simulator.new_life_sat]. rewrite Hr. cbn [fmul fadd lift2].
  split; [reflexivity |].
  assert (E : cur_ls + imp * r * (3 # 10) - cur_ls == (3 # 10) * (imp * r)) by ring.
  split.
  - rewrite E. apply Qabs_Qle_condition.
    assert (A : - Qabs imp <= imp * r <= Qabs imp).
    { apply Qabs_case; intro S.
      - assert (P1 : 0 <= imp * (1 - r)) by (apply Qmult_le_0_compat; lra).
        assert (P2 : 0 <= imp * (r + 1)) by (apply Qmult_le_0_compat; lra).
        assert (E1 : imp * (1 - r) == imp - imp * r) by ring.
        assert (E2 : imp * (r + 1) == imp * r + imp) by ring.
        lra.
      - assert (P1 : 0 <= (- imp) * (1 - r)) by (apply Qmult_le_0_compat; lra).
        assert (P2 : 0 <= (- imp) * (r + 1)) by (apply Qmult_le_0_compat; lra).
        assert (E1 : (- imp) * (1 - r) == - imp + imp * r) by ring.
        assert (E2 : (- imp) * (r + 1) == - (imp * r) - imp) by ring.
        lra. }
    lra.
  - intros Pi Pr. assert (P : 0 <= imp * r) by (apply Qmult_le_0_compat; assumption).
    lra.
Qed.

Lemma estimate_is_bounded_by_the_improvement_witness :
  exists s q,
    Simulator.simulate Examples.pearson_example Examples.nations
      (select_rows [false; false; true] Examples.nations)
      (VStr "environment") (VNum 25) = Ok s /\
    Simulator.new_life_sat s = Some q /\
    Qabs (q - 60) <= (3 # 10) * Qabs 25 /\
    (0 <= 25 -> 0 <= 1 -> 60 <= q).
Proof.
  apply (estimate_is_bounded_by_the_improvement Examples.pearson_example
           Examples.nations (select_rows [false; false; true] Examples.nations)
           "environment" 25 60 50 1 [] [] [100; 90; 60] [90; 80; 50]).
  - reflexivity.
  - reflexivity.
  - reflexivity.
  - reflexivity.
  - vm_compute. reflexivity.
  - split; discriminate.
Defined.

(** ** The top performers of the simulation insight *)

Lemma isin_mask_none (names allowed : list string) :
  (forall n, In n allowed -> ~ In n names) ->
  Forall (eq false) (isin_mask (TextCol names) allowed).
Proof.
  intro H. apply Forall_forall. intros b Hb. cbn [isin_mask] in Hb.
  apply in_map_iff in Hb as [n [<- Hn]].
  destruct (existsb (String.eqb n) allowed) eqn:E; [| reflexivity].
  apply existsb_exists in E as [a [Ha E]]. apply String.eqb_eq in E. subst a.
  now destruct (H n Ha).
Qed.

Section Insight.

Variable Filters : Type.
Variable get_data : Result DataFrame.
Variable filter_data : DataFrame -> Filters -> Result DataFrame.
Variable pearson : list Q -> list Q -> float.

(** X13.  The simulation insight compares with Finland and Denmark only
    when they are in the filtered table: the sentence with their figures is
    empty as soon as one of the two is missing, and when both are missing no
    figure that the core logic returns holds a "Top Performers" trace. *)
Theorem top_performers_only_when_present
  (loaded df : DataFrame) (kwargs : Simulator.Kwargs Filters) (names : list string)
  (dimension : Value) (title : string) :
  get_data = Ok loaded ->
  filter_data loaded (Simulator.filters Filters kwargs) = Ok df ->
  getitem df "country" = Ok (TextCol names) ->
  (~ In "Finland"%string names \/ ~ In "Denmark"%string names ->
   Simulator.top_performer_text df dimension title = Ok []) /\
  (~ In "Finland"%string names -> ~ In "Denmark"%string names ->
   forall fig narrative,
     Simulator._update_logic Filters get_data filter_data pearson kwargs
     = Ok (fig, narrative) ->
     forall tr, In tr (data fig) -> name tr <> [Lit "Top Performers"]).
Proof.
  intros Hg Hf Hc. split.
  - intro H. unfold Simulator.top_performer_text. rewrite Hc. cbn [bind].
    destruct H as [H | H].
    + rewrite (height_select_none (eq_mask (TextCol names) (VStr "Finland"))).
      * reflexivity.
      * apply eq_mask_unknown. intros n Hn E. injection E as <-. contradiction.
    + rewrite (height_select_none (eq_mask (TextCol names) (VStr "Denmark"))).
      * now rewrite andb_false_r.
      * apply eq_mask_unknown. intros n Hn E. injection E as <-. contradiction.
  - intros HF HD fig narrative H tr Htr.
    unfold Simulator._update_logic, Simulator.chart in H.
    rewrite Hg in H. cbn [bind] in H. rewrite Hf in H. cbn [bind] in H.
    destruct (Nat.eqb (height df) 0).
    { injection H as <- _. destruct Htr. }
    rewrite Hc in H. cbn [bind] in H.
    destruct (Nat.eqb (height (select_rows _ df)) 0).
    { injection H as <- _. destruct Htr. }
    apply bind_ok in H as (s & _ & H). apply bind_ok in H as (x & _ & H).
    apply bind_ok in H as (y & _ & H). apply bind_ok in H as (ti & _ & H).
    apply bind_ok in H as (top & Ht & H).
    rewrite (height_select_none (isin_mask (TextCol names) Simulator.top_countries)) in Ht.
    2:{ apply isin_mask_none. intros n [<- | [<- | []]]; assumption. }
    cbn [Nat.eqb] in Ht. injection Ht as <-.
    apply bind_ok in H as (tt & _ & H). apply bind_ok in H as (nar & _ & H).
    injection H as <- _. cbn [data app] in Htr.
    destruct Htr as [<- | [<- | [<- | []]]]; discriminate.
Qed.

End Insight.

Lemma top_performers_only_when_present_witness :
  (~ In "Finland"%string ["United States"%string]
   \/ ~ In "Denmark"%string ["United States"%string] ->
   Simulator.top_performer_text Examples.one_nation (VStr "jobs") "jobs" = Ok []) /\
  (~ In "Finland"%string ["United States"%string] ->
   ~ In "Denmark"%string ["United States"%string] ->
   forall fig narrative,
     Simulator._update_logic unit (Ok Examples.one_nation) Examples.keep_all
       Examples.pearson_example
       {| Simulator.country_control := None; Simulator.dimension_control := None;
          Simulator.improvement_control := None; Simulator.filters := tt |}
     = Ok (fig, narrative) ->
     forall tr, In tr (data fig) -> name tr <> [Lit "Top Performers"]).
Proof.
  apply (top_performers_only_when_present unit (Ok Examples.one_nation) Examples.keep_all
           Examples.pearson_example Examples.one_nation Examples.one_nation
           {| Simulator.country_control := None; Simulator.dimension_control := None;
              Simulator.improvement_control := None; Simulator.filters := tt |}
           ["United States"%string] (VStr "jobs") "jobs"); reflexivity.
Defined.

(** On the table of the United States alone the core logic returns, and its
    figure holds three traces. *)
Example insight_without_top_performers :
  exists fig narrative,
    Simulator._update_logic unit (Ok Examples.one_nation) Examples.keep_all
      Examples.pearson_example
      {| Simulator.country_control := None; Simulator.dimension_control := None;
         Simulator.improvement_control := None; Simulator.filters := tt |}
    = Ok (fig, narrative) /\
    List.length (data fig) = 3%nat.
Proof. eexists _, _. split; [vm_compute; reflexivity | reflexivity]. Qed.

(** ** The bars of the diagnostic *)

Lemma collect_gaps_lengths (country_data : DataFrame) (names : list string) :
  forall (gap_values : list Q) (dimension_labels colors : list string),
    Diagnosis.collect_gaps country_data names = Ok (gap_values, dimension_labels, colors) ->
    List.length dimension_labels = List.length gap_values /\
    List.length colors = List.length gap_values /\
    (List.length gap_values <= List.length names)%nat.
Proof.
  induction names as [| n names IH]; intros gs ls cs H.
  - injection H as <- <- <-. repeat split; simpl; lia.
  - cbn [Diagnosis.collect_gaps] in H.
    destruct (lookup n (cols country_data)) as [c |].
    + apply bind_ok in H as (v & _ & H). apply bind_ok in H as (g & _ & H).
      apply bind_ok in H as ([[gs' ls'] cs'] & Hrest & H).
      injection H as <- <- <-. destruct (IH _ _ _ Hrest) as (A & B & C).
      cbn [List.length]. repeat split; lia.
    + destruct (IH _ _ _ H) as (A & B & C). cbn [List.length]. repeat split; lia.
Qed.

(** X14.  The loop over the gap columns skips the columns that the table
    lacks and, when it returns, hands over three aligned lists: for every
    gap column that the table has, in the order of [gap_columns], the gap of
    the first row, the display name of the dimension, and the colour of the
    bar, which is green for a gap that is not negative and red for a
    negative one. *)
Theorem bars_labels_and_colours_are_aligned (country_data : DataFrame)
  (names : list string) (gap_values : list Q) (dimension_labels colors : list string) :
  Diagnosis.collect_gaps country_data names = Ok (gap_values, dimension_labels, colors) ->
  Forall2 (fun n g => exists c, lookup n (cols country_data) = Some c /\
                                iloc c 0 = Ok (VNum g))
          (Bars.present country_data names) gap_values /\
  dimension_labels
  = map (fun n => Diagnosis.name_in n Diagnosis.dimension_names) (Bars.present country_data names) /\
  Forall2 (fun g colour => (0 <= g -> colour = "#2E8B57"%string) /\
                           (g < 0 -> colour = "#DC143C"%string))
          gap_values colors.
Proof.
  revert gap_values dimension_labels colors.
  induction names as [| n names IH]; intros gs ls cs H.
  - injection H as <- <- <-. repeat split; constructor.
  - cbn [Diagnosis.collect_gaps] in H. unfold Bars.present. cbn [filter].
    fold (Bars.present country_data names).
    destruct (lookup n (cols country_data)) as [c |] eqn:L; [| now apply IH].
    apply bind_ok in H as (v & Hv & H). apply bind_ok in H as (g & Hg & H).
    apply bind_ok in H as ([[gs' ls'] cs'] & Hrest & H).
    injection H as <- <- <-.
    destruct (IH _ _ _ Hrest) as (A & B & C).
    assert (Ev : v = VNum g) by (destruct v; try discriminate; now injection Hg as ->).
    subst v. split; [| split].
    + constructor; [now exists c | exact A].
    + cbn [map]. now rewrite B.
    + constructor; [| exact C].
      destruct (Qlt_le_dec g 0); split; intro; try reflexivity; lra.
Qed.

Lemma bars_labels_and_colours_are_aligned_witness :
  Forall2 (fun n g => exists c, lookup n (cols Examples.one_nation) = Some c /\
                                iloc c 0 = Ok (VNum g))
          (Bars.present Examples.one_nation ["jobs_gap"; "wealth_gap"; "safety_gap"]%string)
          [5; - 25] /\
  ["Jobs"; "Safety"]%string
  = map (fun n => Diagnosis.name_in n Diagnosis.dimension_names)
        (Bars.present Examples.one_nation ["jobs_gap"; "wealth_gap"; "safety_gap"]%string) /\
  Forall2 (fun g colour => (0 <= g -> colour = "#2E8B57"%string) /\
                           (g < 0 -> colour = "#DC143C"%string))
          [5; - 25] ["#2E8B57"; "#DC143C"]%string.
Proof.
  apply (bars_labels_and_colours_are_aligned Examples.one_nation
           ["jobs_gap"; "wealth_gap"; "safety_gap"]%string [5; - 25]
           ["Jobs"; "Safety"]%string ["#2E8B57"; "#DC143C"]%string).
  reflexivity.
Defined.

(** ** The recommendation of the diagnostic *)





(** ** The figures that the core logic returns *)

Lemma arrow_for_length (df df_sim : DataFrame) (dimension : Value) (i : nat)
  (a : list Annotation) :
  Policy.arrow_for df df_sim dimension i = Ok a -> (List.length a <= 1)%nat.
Proof.
  unfold Policy.arrow_for. intro H.
  apply bind_ok in H as (xs & _ & H). apply bind_ok in H as (x0 & _ & H).
  apply bind_ok in H as (m & _ & H). apply bind_ok in H as ([|] & _ & H).
  - apply bind_ok in H as (? & _ & H). apply bind_ok in H as (? & _ & H).
    apply bind_ok in H as (? & _ & H). apply bind_ok in H as (? & _ & H).
    injection H as <-. simpl. lia.
  - injection H as <-. simpl. lia.
Qed.

Lemma arrows_length (df df_sim : DataFrame) (dimension : Value) (rows : list nat) :
  forall ar, Policy.arrows df df_sim dimension rows = Ok ar ->
             (List.length ar <= List.length rows)%nat.
Proof.
  induction rows as [| i rest IH]; intros ar H.
  - injection H as <-. simpl. lia.
  - cbn [Policy.arrows] in H.
    apply bind_ok in H as (a & Ha & H). apply bind_ok in H as (r & Hr & H).
    injection H as <-. apply arrow_for_length in Ha. specialize (IH _ Hr).
    rewrite length_app. cbn [List.length]. lia.
Qed.

Section Figures.

Variable Filters : Type.
Variable get_data : Result DataFrame.
Variable filter_data : DataFrame -> Filters -> Result DataFrame.

(** X20.  A figure that the core logic of the diagnostic returns is either a
    note without any trace, or one bar trace with the vertical line at 0; the
    bar trace has as many labels and as many colours as it has values, and at
    most ten of them. *)
Theorem diagnostic_figure_is_a_note_or_one_bar_trace (kwargs : Diagnosis.Kwargs Filters)
  (fig : Figure) (narrative : list Text) :
  Diagnosis._update_logic Filters get_data filter_data kwargs = Ok (fig, narrative) ->
  (data fig = [] /\ exists t, annotations fig = [Note t]) \/
  (exists bar,
     data fig = [bar] /\ kind bar = Bar /\ annotations fig = [VLine 0] /\
     List.length (y bar) = List.length (x bar) /\
     List.length (marker_color bar) = List.length (x bar) /\
     List.length (text bar) = List.length (x bar) /\
     (List.length (x bar) <= 10)%nat).
Proof.
  unfold Diagnosis._update_logic, Diagnosis.chart. intro H.
  apply bind_ok in H as (loaded & _ & H). apply bind_ok in H as (df & _ & H).
  destruct (Nat.eqb (height df) 0).
  { injection H as <- _. left. split; [reflexivity | eexists; reflexivity]. }
  apply bind_ok in H as (c & _ & H).
  destruct (Nat.eqb (height (select_rows _ df)) 0).
  { injection H as <- _. left. split; [reflexivity | eexists; reflexivity]. }
  apply bind_ok in H as ([[gs ls] cs] & Hg & H).
  apply bind_ok in H as (nar & _ & H). injection H as <- _.
  right. eexists. split; [reflexivity |]. cbn [kind annotations x y text marker_color].
  apply collect_gaps_lengths in Hg as (A & B & C).
  change (List.length Diagnosis.gap_columns) with 10%nat in C.
  rewrite !length_map. repeat split; try reflexivity; lia.
Qed.

(** X21.  A figure that the core logic of the policy simulation returns is a
    note without any trace, or the current positions alone when no boost is
    positive, or the current and the simulated positions when a boost is
    positive; it never holds more arrows than the filtered table has rows. *)
Theorem policy_figure_shows_the_simulation_only_for_a_boost
  (kwargs : Policy.Kwargs Filters) (fig : Figure) :
  Policy._update_logic Filters get_data filter_data kwargs = Ok fig ->
  let any_boost :=
    Policy.positive (get_or_default (Policy.environment_slider Filters kwargs) (VNum 0))
    || Policy.positive (get_or_default (Policy.education_slider Filters kwargs) (VNum 0))
    || Policy.positive (get_or_default (Policy.jobs_slider Filters kwargs) (VNum 0)) in
  fig = Policy.no_data_figure \/
  (exists loaded df current,
     get_data = Ok loaded /\
     filter_data loaded (Policy.filters Filters kwargs) = Ok df /\
     name current = [Lit "Current Position"] /\
     if any_boost
     then exists simulated,
            data fig = [current; simulated] /\
            name simulated = [Lit "Simulated Position"] /\
            (List.length (annotations fig) <= height df)%nat
     else data fig = [current] /\ annotations fig = []).
Proof.
  unfold Policy._update_logic, Policy.chart. intro H. cbv zeta in *.
  apply bind_ok in H as (loaded & Hl & H). apply bind_ok in H as (df & Hf & H).
  destruct (Nat.eqb (height df) 0).
  { injection H as <-. now left. }
  apply bind_ok in H as (df_sim & _ & H). apply bind_ok in H as (cx & _ & H).
  apply bind_ok in H as (cy & _ & H). apply bind_ok in H as (ct & _ & H).
  apply bind_ok in H as (title & _ & H).
  right. exists loaded, df.
  exists {| kind := Scatter; name := [Lit "Current Position"]; x := data_of cx;
            y := data_of cy; text := data_of ct; marker_color := [] |}.
  split; [exact Hl |]. split; [exact Hf |].
  destruct (Policy.positive _ || Policy.positive _ || Policy.positive _).
  - apply bind_ok in H as (xs & _ & H). apply bind_ok in H as (ys & _ & H).
    apply bind_ok in H as (ts & _ & H). apply bind_ok in H as (ar & Har & H).
    injection H as <-. split; [reflexivity |].
    exists {| kind := Scatter; name := [Lit "Simulated Position"]; x := data_of xs;
              y := data_of ys; text := data_of ts; marker_color := [] |}.
    split; [reflexivity |]. split; [reflexivity |].
    cbn [annotations]. apply arrows_length in Har. now rewrite length_seq in Har.
  - injection H as <-. split; [reflexivity |]. split; reflexivity.
Qed.

End Figures.

Lemma diagnostic_figure_is_a_note_or_one_bar_trace_witness :
  (data (fst Cases.diagnostic) = [] /\
   exists t, annotations (fst Cases.diagnostic) = [Note t]) \/
  (exists bar,
     data (fst Cases.diagnostic) = [bar] /\ kind bar = Bar /\
     annotations (fst Cases.diagnostic) = [VLine 0] /\
     List.length (y bar) = List.length (x bar) /\
     List.length (marker_color bar) = List.length (x bar) /\
     List.length (text bar) = List.length (x bar) /\
     (List.length (x bar) <= 10)%nat).
Proof.
  apply (diagnostic_figure_is_a_note_or_one_bar_trace unit (Ok Examples.nations)
           Examples.keep_all Cases.no_country (fst Cases.diagnostic)
           (snd Cases.diagnostic)).
  vm_compute. reflexivity.
Defined.

Lemma policy_figure_shows_the_simulation_only_for_a_boost_witness :
  Cases.policy_figure = Policy.no_data_figure \/
  (exists loaded df current,
     Ok Examples.nations = Ok loaded /\
     Examples.keep_all loaded (Policy.filters unit Cases.environment_boost) = Ok df /\
     name current = [Lit "Current Position"] /\
     if Policy.positive (get_or_default (Policy.environment_slider unit Cases.environment_boost)
                                        (VNum 0))
        || Policy.positive (get_or_default (Policy.education_slider unit Cases.environment_boost)
                                           (VNum 0))
        || Policy.positive (get_or_default (Policy.jobs_slider unit Cases.environment_boost)
                                           (VNum 0))
     then exists simulated,
            data Cases.policy_figure = [current; simulated] /\
            name simulated = [Lit "Simulated Position"] /\
            (List.length (annotations Cases.policy_figure) <= height df)%nat
     else data Cases.policy_figure = [current] /\ annotations Cases.policy_figure = []).
Proof.
  apply (policy_figure_shows_the_simulation_only_for_a_boost unit (Ok Examples.nations)
           Examples.keep_all Cases.environment_boost Cases.policy_figure).
  vm_compute. reflexivity.
Defined.

(** With the environment boosted by 25% the figure of the example holds the
    two traces and an arrow for each of the three countries. *)
Example boosted_figure_of_the_example :
  List.length (data Cases.policy_figure) = 2%nat /\
  List.length (annotations Cases.policy_figure) = 3%nat.
Proof. split; vm_compute; reflexivity. Qed.

End FeatureFacts.

(** ** The page *)

Module LayoutFacts.
Import Dash Layout.

Lemma dict_get_set_same {A : Type} (k : string) (v : A) (d : list (string * A)) :
  dict_get k (dict_set k v d) = Some v.
Proof.
  induction d as [| [k' v'] t IH]; simpl.
  - now rewrite String.eqb_refl.
  - destruct (String.eqb k' k) eqn:E; simpl.
    + now rewrite String.eqb_refl.
    + now rewrite E.
Qed.

Lemma dict_get_set_other {A : Type} (k k' : string) (v : A) (d : list (string * A)) :
  k' <> k -> dict_get k' (dict_set k v d) = dict_get k' d.
Proof.
  intro N. induction d as [| [k0 v0] t IH]; simpl.
  - destruct (String.eqb_spec k k'); [congruence | reflexivity].
  - destruct (String.eqb_spec k0 k) as [-> | Hk]; simpl.
    + destruct (String.eqb_spec k k'); [congruence | reflexivity].
    + destruct (String.eqb k0 k'); [reflexivity | exact IH].
Qed.

(** What the two dictionaries hold for a name after a run of imports. *)
Lemma imports_of (import : string -> Result Feature) (names : list string) :
  forall (r : Registry) (name : string),
    NoDup names ->
    dict_get name (component_registry (fold_left (import_feature import) names r))
    = (if in_dec string_dec name names
       then match import name with
            | Ok f => Some f
            | Raise _ => dict_get name (component_registry r)
            end
       else dict_get name (component_registry r)) /\
    dict_get name (failed_components (fold_left (import_feature import) names r))
    = (if in_dec string_dec name names
       then match import name with
            | Ok _ => dict_get name (failed_components r)
            | Raise e => Some (str_of_exn e)
            end
       else dict_get name (failed_components r)).
Proof.
  induction names as [| n names IH]; intros r name Hnd; [split; reflexivity |].
  inversion Hnd as [| ? ? Hn Hnd']; subst.
  cbn [fold_left]. destruct (IH (import_feature import r n) name Hnd') as [A B].
  rewrite A, B. clear A B IH.
  destruct (in_dec string_dec name (n :: names)) as [I | I];
    destruct (in_dec string_dec name names) as [J | J].
  - split; destruct (import name); try reflexivity;
      (assert (N : name <> n) by (intros ->; contradiction));
      unfold import_feature; destruct (import n); cbn [component_registry failed_components];
      rewrite ?dict_get_set_other by exact N; reflexivity.
  - destruct I as [<- | I]; [| contradiction].
    unfold import_feature. destruct (import n); cbn [component_registry failed_components];
      rewrite ?dict_get_set_same; split; reflexivity.
  - destruct I. now right.
  - assert (N : name <> n) by (intros ->; apply I; now left).
    unfold import_feature. destruct (import n); cbn [component_registry failed_components];
      rewrite ?dict_get_set_other by exact N; split; reflexivity.
Qed.

Lemma feature_names_nodup : NoDup feature_names.
Proof.
  unfold feature_names.
  repeat (constructor; [simpl; intuition discriminate |]). constructor.
Qed.

(** X17.  Once the module is loaded, each of the eight features is either in
    the registry or recorded with the message of its import error, never
    both and never neither; so the placeholder of a feature that could not be
    imported shows that message, not the text for an unknown component. *)
Theorem every_feature_is_registered_or_reported (import : string -> Result Feature)
  (name : string) (width : nat) (preview : bool) :
  In name feature_names ->
  match import name with
  | Ok f =>
      dict_get name (component_registry (load import)) = Some f /\
      dict_get name (failed_components (load import)) = None
  | Raise e =>
      dict_get name (component_registry (load import)) = None /\
      dict_get name (failed_components (load import)) = Some (str_of_exn e) /\
      _get_component_layout (load import) name width preview
      = Ok (missing_card name (str_of_exn e) width)
  end.
Proof.
  intro H. unfold load.
  destruct (imports_of import feature_names no_registry name feature_names_nodup) as [A B].
  destruct (in_dec string_dec name feature_names) as [_ | N]; [| contradiction].
  destruct (import name) as [f | e] eqn:E.
  - split; [exact A | exact B].
  - split; [exact A |]. split; [exact B |].
    unfold _get_component_layout. rewrite A, B. reflexivity.
Qed.

Lemma every_feature_is_registered_or_reported_witness :
  match Pages.import_example "country_radar_chart" with
  | Ok f =>
      dict_get "country_radar_chart" (component_registry (load Pages.import_example)) = Some f /\
      dict_get "country_radar_chart" (failed_components (load Pages.import_example)) = None
  | Raise e =>
      dict_get "country_radar_chart" (component_registry (load Pages.import_example)) = None /\
      dict_get "country_radar_chart" (failed_components (load Pages.import_example))
      = Some (str_of_exn e) /\
      _get_component_layout (load Pages.import_example) "country_radar_chart" 50 true
      = Ok (missing_card "country_radar_chart" (str_of_exn e) 50)
  end.
Proof.
  apply (every_feature_is_registered_or_reported Pages.import_example
           "country_radar_chart" 50 true).
  simpl. tauto.
Defined.

Lemma layout_width (r : Registry) (name : string) (width : nat) (preview : bool)
  (c : Component) :
  _get_component_layout r name width preview = Ok c -> width_of c = Some width.
Proof.
  unfold _get_component_layout. intro H.
  destruct (dict_get name (component_registry r)) as [[layout | e] |].
  - destruct layout as [cl i t w ch | t]; [| discriminate].
    cbn [set_width bind] in H.
    destruct preview; [| now injection H as <-].
    destruct ch as [| first rest]; [now injection H as <- |].
    destruct first as [cl1 i1 t1 w1 ch1 | t1]; [| discriminate].
    cbn [set_children bind] in H. now injection H as <-.
  - now injection H as <-.
  - now injection H as <-.
Qed.

Lemma layout_returns (r : Registry) (name : string) (width : nat) (preview : bool) :
  (forall l, dict_get name (component_registry r) = Some (Ok l) -> card_like l) ->
  exists c, _get_component_layout r name width preview = Ok c.
Proof.
  intro H. unfold _get_component_layout.
  destruct (dict_get name (component_registry r)) as [[layout | e] |]; [| eauto | eauto].
  specialize (H layout eq_refl).
  destruct layout as [cl i t w ch | t]; [| destruct H].
  cbn [set_width bind].
  destruct preview; [| eauto].
  destruct ch as [| first rest]; [eauto |].
  destruct first as [cl1 i1 t1 w1 ch1 | t1]; [| destruct H].
  cbn [set_children bind]. eauto.
Qed.

(** X16.  The layout of a feature never fails for a feature that is missing
    from the registry or whose layout function raises: it returns a
    placeholder card.  Whenever it returns, the component that it returns has
    the requested width. *)
Theorem feature_layout_has_the_requested_width (r : Registry) (name : string)
  (width : nat) (preview : bool) :
  (dict_get name (component_registry r) = None ->
   exists m, _get_component_layout r name width preview = Ok (missing_card name m width)) /\
  (forall e, dict_get name (component_registry r) = Some (Raise e) ->
   _get_component_layout r name width preview = Ok (failing_card name e width)) /\
  (forall c, _get_component_layout r name width preview = Ok c ->
   width_of c = Some width).
Proof.
  split; [| split].
  - unfold _get_component_layout. intros ->. eexists. reflexivity.
  - unfold _get_component_layout. intros e ->. reflexivity.
  - apply layout_width.
Qed.

Lemma feature_items_widths (r : Registry) (slots : list (string * nat)) (preview : bool) :
  forall cs, feature_items r slots preview = Ok cs ->
             map width_of cs = map (fun s => Some (snd s)) slots.
Proof.
  induction slots as [| [name width] rest IH]; intros cs H.
  - now injection H as <-.
  - cbn [feature_items] in H.
    destruct (_get_component_layout r name width preview) as [c | e] eqn:E; [| discriminate].
    cbn [bind] in H.
    destruct (feature_items r rest preview) as [cs' | e]; [| discriminate].
    cbn [bind] in H. injection H as <-. cbn [map snd].
    now rewrite (IH cs' eq_refl), (layout_width r name width preview c E).
Qed.

Lemma feature_items_return (r : Registry) (slots : list (string * nat)) (preview : bool) :
  (forall name l, dict_get name (component_registry r) = Some (Ok l) -> card_like l) ->
  exists cs, feature_items r slots preview = Ok cs.
Proof.
  intro H. induction slots as [| [name width] rest [cs IH]]; [now exists [] |].
  cbn [feature_items].
  destruct (layout_returns r name width preview (H name)) as [c ->].
  rewrite IH. cbn [bind]. eauto.
Qed.

Lemma optional_item_returns (f : option Feature) :
  (forall e, f <> Some (Raise e)) ->
  exists l, optional_item f = Ok l /\ List.length l = count f.
Proof.
  intro H. destruct f as [[c | e] |].
  - now exists [c].
  - now destruct (H e).
  - now exists [].
Qed.

(** X18.  Features that are missing, that could not be imported or whose
    layout function raises do not break the page: as long as the layouts that
    are returned are cards and the optional components, where present, return
    theirs, the page is built, with or without preview.  It opens with the
    hero, holds the three section headings and a component for each of the
    eight features in the widths 50, 50, 100, 50, 50, 100, 50, 50, and has
    12 items plus one for each optional component. *)
Theorem page_is_built_around_failing_features (r : Registry)
  (filter_component data_card_component data_table_component : option Feature)
  (preview : bool) :
  (forall name l, dict_get name (component_registry r) = Some (Ok l) -> card_like l) ->
  (forall e, filter_component <> Some (Raise e) /\ data_card_component <> Some (Raise e)
             /\ data_table_component <> Some (Raise e)) ->
  exists f k s1 s2 s3 t,
    component r filter_component data_card_component data_table_component preview
    = Ok ([hero] ++ f ++ k ++ [section_1_block] ++ s1 ++ [section_2_block] ++ s2
          ++ [section_3_block] ++ s3 ++ t) /\
    List.length f = count filter_component /\
    List.length k = count data_card_component /\
    List.length t = count data_table_component /\
    map width_of (s1 ++ s2 ++ s3)
    = [Some 50; Some 50; Some 100; Some 50; Some 50; Some 100; Some 50; Some 50]%nat /\
    List.length ([hero] ++ f ++ k ++ [section_1_block] ++ s1 ++ [section_2_block] ++ s2
                 ++ [section_3_block] ++ s3 ++ t)
    = (12 + count filter_component + count data_card_component
       + count data_table_component)%nat.
Proof.
  intros Hr Ho.
  destruct (optional_item_returns filter_component (fun e => proj1 (Ho e))) as (f & Ef & Lf).
  destruct (optional_item_returns data_card_component (fun e => proj1 (proj2 (Ho e))))
    as (k & Ek & Lk).
  destruct (optional_item_returns data_table_component (fun e => proj2 (proj2 (Ho e))))
    as (t & Et & Lt).
  destruct (feature_items_return r section_1 preview Hr) as [s1 E1].
  destruct (feature_items_return r section_2 preview Hr) as [s2 E2].
  destruct (feature_items_return r section_3 preview Hr) as [s3 E3].
  exists f, k, s1, s2, s3, t.
  pose proof (feature_items_widths r _ preview s1 E1) as W1.
  pose proof (feature_items_widths r _ preview s2 E2) as W2.
  pose proof (feature_items_widths r _ preview s3 E3) as W3.
  split; [| split; [exact Lf | split; [exact Lk | split; [exact Lt | split]]]].
  - unfold component. rewrite Ef, Ek, E1, E2, E3, Et. reflexivity.
  - rewrite !map_app, W1, W2, W3. reflexivity.
  - assert (L1 : List.length s1 = 3%nat).
    { rewrite <- (length_map width_of), W1. reflexivity. }
    assert (L2 : List.length s2 = 3%nat).
    { rewrite <- (length_map width_of), W2. reflexivity. }
    assert (L3 : List.length s3 = 2%nat).
    { rewrite <- (length_map width_of), W3. reflexivity. }
    rewrite !length_app. cbn [List.length]. lia.
Qed.

Lemma page_is_built_around_failing_features_witness :
  exists f k s1 s2 s3 t,
    component (load Pages.import_example) None (Some (Ok (Pages.card "data_cards" 100))) None
      true
    = Ok ([hero] ++ f ++ k ++ [section_1_block] ++ s1 ++ [section_2_block] ++ s2
          ++ [section_3_block] ++ s3 ++ t) /\
    List.length f = count None /\
    List.length k = count (Some (Ok (Pages.card "data_cards" 100))) /\
    List.length t = count None /\
    map width_of (s1 ++ s2 ++ s3)
    = [Some 50; Some 50; Some 100; Some 50; Some 50; Some 100; Some 50; Some 50]%nat /\
    List.length ([hero] ++ f ++ k ++ [section_1_block] ++ s1 ++ [section_2_block] ++ s2
                 ++ [section_3_block] ++ s3 ++ t)
    = (12 + count None + count (Some (Ok (Pages.card "data_cards" 100))) + count None)%nat.
Proof.
  apply (page_is_built_around_failing_features (load Pages.import_example) None
           (Some (Ok (Pages.card "data_cards" 100))) None true).
  - intros name l H. cbn in H.
    repeat match type of H with
           | (if ?b then _ else _) = _ => destruct b
           end;
      try discriminate; injection H as <-; exact I.
  - intro e. repeat split; discriminate.
Defined.

(** On the example installation the page in preview mode shows the import
    error of the radar chart and the error of the ranking in their places. *)
Example page_of_the_example :
  exists items,
    component (load Pages.import_example) None None None true = Ok items /\
    nth_error items 3
    = Some (failing_card "composite_index_ranking" (KeyError "composite_index") 50) /\
    nth_error items 6
    = Some (missing_card "country_radar_chart"
                         "No module named 'components.country_radar_chart'" 50).
Proof. eexists. split; [reflexivity | split; reflexivity]. Qed.

End LayoutFacts.

(** ** The gaps from the average *)

Module GapFacts.
Import Num Transform Gaps TransformFacts NormalisationFacts.

(** X22.  The gap of a country in a dimension of the output is a number of
    [-100, 100] whose sign agrees with the side of the average on which the
    score of the country lies: it is not negative for a score at or above the
    average of the column, and not positive for a score at or below it. *)
Theorem gap_sign_follows_the_average (df : DataFrame) (d : Dim) (s : list float)
  (i : nat) (x : Q) :
  In (d, s) (columns (table (transform df))) ->
  nth_error s i = Some (Some x) ->
  exists m g,
    mean s = Some m /\
    In (d, gap_column s) (gap_columns (table (transform df))) /\
    nth_error (gap_column s) i = Some (Some g) /\
    (m <= x -> 0 <= g) /\ (x <= m -> g <= 0) /\ - (100) <= g <= 100.
Proof.
  intros Hin Hi.
  pose proof (transform_cells_range df d s Hin) as R. rewrite Forall_forall in R.
  assert (Hx : In (Some x) s) by (eapply nth_error_In, Hi).
  assert (Rx : 0 <= x <= 100).
  { destruct (R _ Hx) as [? | Rx]; [discriminate | exact Rx]. }
  assert (V : valid s <> []).
  { apply valid_In in Hx. intro E. rewrite E in Hx. destruct Hx. }
  assert (M : within 0 100 (mean s)).
  { apply mean_within; [exact V |]. apply Forall_forall. intros z Hz.
    apply valid_In in Hz. destruct (R _ Hz) as [? | Rz]; [discriminate | exact Rz]. }
  destruct (mean s) as [m |] eqn:Em; [| destruct M]. cbn [within] in M.
  exists m, (round1 (x - m)). split; [reflexivity |]. split; [| split].
  - unfold gap_columns. apply in_map_iff. now exists (d, s).
  - unfold gap_column. rewrite nth_error_map. unfold float in *. rewrite Hi, Em. reflexivity.
  - assert (Z0 : round1 0 == 0) by reflexivity.
    assert (Zp : round1 100 == 100) by reflexivity.
    assert (Zn : round1 (- (100)) == - (100)) by reflexivity.
    split; [| split; [| split]].
    + intro L. rewrite <- Z0. apply round1_mono. lra.
    + intro L. rewrite <- Z0. apply round1_mono. lra.
    + rewrite <- Zn. apply round1_mono. lra.
    + rewrite <- Zp. apply round1_mono. lra.
Qed.

Lemma gap_sign_follows_the_average_witness :
  exists m g,
    mean [Some (1000 # 10); Some (833 # 10); Some (111 # 10); Some (0 # 10)] = Some m /\
    In (life_satisfaction, gap_column [Some (1000 # 10); Some (833 # 10); Some (111 # 10); Some (0 # 10)])
       (gap_columns (table (transform Examples.wide4))) /\
    nth_error (gap_column [Some (1000 # 10); Some (833 # 10); Some (111 # 10); Some (0 # 10)]) 2
    = Some (Some g) /\
    (m <= 111 # 10 -> 0 <= g) /\ (111 # 10 <= m -> g <= 0) /\ - (100) <= g <= 100.
Proof.
  apply (gap_sign_follows_the_average Examples.wide4 life_satisfaction
           [Some (1000 # 10); Some (833 # 10); Some (111 # 10); Some (0 # 10)] 2 (111 # 10)).
  - left. vm_compute. reflexivity.
  - reflexivity.
Defined.

End GapFacts.

(** ** The simulation insight, figure and narrative *)

Module InsightFacts.
Import Num Dash DashFacts FeatureFacts.


Section Agreement.

Variable Filters : Type.
Variable get_data : Result DataFrame.
Variable filter_data : DataFrame -> Filters -> Result DataFrame.
Variable pearson : list Q -> list Q -> float.


End Agreement.


End InsightFacts.
